(** * Bluesky analyzer: fetch, normalize and analyze posts

    A shallow embedding of [BlueskyAnalyzer.fetch_posts], [parse_posts] and
    [analyze_posts] (src/src/bluesky_analyzer.py) and the properties that the
    specification states about them.

    Python objects decoded from JSON are values of [pyval]; Python exceptions
    are values of [exn], threaded through the [result] monad.  Library calls
    whose behaviour is fixed outside the repository are either parameters
    ([datetime.fromisoformat], the iteration order of [set]) or modelled from
    their documented behaviour (pandas reductions, [collections.Counter]);
    each such place says so. *)

From Stdlib Require Import List String Ascii ZArith QArith Bool Lia Arith.
From Stdlib Require Import Sorted Permutation.
Import ListNotations.

Set Warnings "-register-all".

Local Open Scope string_scope.
Local Open Scope nat_scope.

(** ** Python values *)

(** Hashable scalars.  A number is its exact value: Python compares [int],
    [float] and [bool] by value, and nothing in the program tells an [int]
    from an equal [float].  The non-finite floats are not represented. *)
Inductive atom : Type :=
| ANone
| ABool (b : bool)
| ANum (q : Q)
| AStr (s : string).

(** A decoded JSON document.  A [dict] keeps its items in insertion order;
    [get] returns the first binding of a key. *)
Inductive pyval : Type :=
| PAtom (a : atom)
| PList (items : list pyval)
| PDict (items : list (string * pyval)).

Abbreviation PNone := (PAtom ANone).
Abbreviation PBool b := (PAtom (ABool b)).
Abbreviation PNum q := (PAtom (ANum q)).
Abbreviation PStr s := (PAtom (AStr s)).

(** ** Exceptions and the error monad *)

Inductive exn : Type :=
| KeyError
| AttributeError
| TypeError
| ValueError
| IndexError
| PyException (msg : string).

Inductive result (A : Type) : Type :=
| Ok (a : A)
| Raise (e : exn).

Arguments Ok {A} a.
Arguments Raise {A} e.

Definition bind {A B : Type} (c : result A) (k : A -> result B) : result B :=
  match c with
  | Ok a => k a
  | Raise e => Raise e
  end.

Notation "x <- c ;; k" := (bind c (fun x => k))
  (at level 61, c at next level, right associativity).

Definition is_ok {A : Type} (c : result A) : bool :=
  match c with Ok _ => true | Raise _ => false end.

(** ** Python primitives used by the program *)

Definition atom_value (a : atom) : option Q :=
  match a with
  | ABool b => Some (if b then 1%Q else 0%Q)
  | ANum q => Some q
  | _ => None
  end.

(** [bool(v)] *)
Definition truthy (v : pyval) : bool :=
  match v with
  | PNone => false
  | PBool b => b
  | PNum q => negb (Qeq_bool q 0)
  | PStr s => negb (String.eqb s "")
  | PList items => match items with [] => false | _ => true end
  | PDict items => match items with [] => false | _ => true end
  end.

Fixpoint dict_lookup (items : list (string * pyval)) (key : string) : option pyval :=
  match items with
  | [] => None
  | (k, v) :: rest => if String.eqb k key then Some v else dict_lookup rest key
  end.

(** [v.get(key, default)]: only a [dict] has the method. *)
Definition py_get (v : pyval) (key : string) (default : pyval) : result pyval :=
  match v with
  | PDict items =>
      Ok (match dict_lookup items key with Some x => x | None => default end)
  | _ => Raise AttributeError
  end.

(** [len(v)] *)
Definition py_len (v : pyval) : result nat :=
  match v with
  | PStr s => Ok (String.length s)
  | PList items => Ok (List.length items)
  | PDict items => Ok (List.length items)
  | _ => Raise TypeError
  end.

Fixpoint chars (s : string) : list pyval :=
  match s with
  | EmptyString => []
  | String c rest => PStr (String c EmptyString) :: chars rest
  end.

(** The items a [for] loop (or [list.extend]) draws from [v]: the elements of
    a list, the characters of a string, the keys of a dict. *)
Definition py_iter (v : pyval) : result (list pyval) :=
  match v with
  | PStr s => Ok (chars s)
  | PList items => Ok items
  | PDict items => Ok (map (fun kv => PStr (fst kv)) items)
  | _ => Raise TypeError
  end.

(** [v == "literal"] *)
Definition py_eq_str (v : pyval) (lit : string) : bool :=
  match v with
  | PStr s => String.eqb s lit
  | _ => false
  end.

(** [s.replace("Z", "+00:00")] *)
Fixpoint replace_Z (s : string) : string :=
  match s with
  | EmptyString => EmptyString
  | String c rest =>
      if Ascii.eqb c "Z" then "+00:00" ++ replace_Z rest
      else String c (replace_Z rest)
  end.

Definition py_replace_Z (v : pyval) : result string :=
  match v with
  | PStr s => Ok (replace_Z s)
  | _ => Raise AttributeError
  end.

(** Whitespace as [str.split()] sees it; a character is an [ascii] value,
    that is a code point below 256. *)
Definition isspace (c : ascii) : bool :=
  let n := nat_of_ascii c in
  ((9 <=? n) && (n <=? 13)) || ((28 <=? n) && (n <=? 32))
  || (n =? 133) || (n =? 160).

(** [s.split()]: maximal runs of non-whitespace characters.  [word] is the
    run being read, if any. *)
Fixpoint split_from (s : string) (word : option string) : list string :=
  match s with
  | EmptyString => match word with Some w => [w] | None => [] end
  | String c rest =>
      if isspace c then
        match word with
        | Some w => w :: split_from rest None
        | None => split_from rest None
        end
      else
        split_from rest
          (Some (match word with Some w => w | None => "" end
                 ++ String c EmptyString))
  end.

Definition split (s : string) : list string := split_from s None.

Definition py_split (v : pyval) : result (list string) :=
  match v with
  | PStr s => Ok (split s)
  | _ => Raise AttributeError
  end.

Fixpoint whitespace_only (s : string) : bool :=
  match s with
  | EmptyString => true
  | String c rest => isspace c && whitespace_only rest
  end.

(** ** Timestamps *)

(** A [datetime.date]. *)
Record caldate : Type := mkdate { d_year : Z; d_month : Z; d_day : Z }.

(** A [datetime.datetime]: wall-clock fields and, for an aware value, the
    offset from UTC in microseconds. *)
Record datetime : Type := mkdatetime {
  dt_date : caldate;
  dt_hour : Z;
  dt_minute : Z;
  dt_second : Z;
  dt_microsecond : Z;
  dt_utcoffset : option Z
}.

Local Open Scope Z_scope.

Definition is_leap (y : Z) : bool :=
  (y mod 4 =? 0) && (negb (y mod 100 =? 0) || (y mod 400 =? 0)).

Definition days_in_month (y m : Z) : Z :=
  if m =? 2 then (if is_leap y then 29 else 28)
  else if (m =? 4) || (m =? 6) || (m =? 9) || (m =? 11) then 30
  else 31.

Definition days_before_year (y : Z) : Z :=
  let p := y - 1 in p * 365 + p / 4 - p / 100 + p / 400.

Definition days_before_month (y m : Z) : Z :=
  fold_left (fun acc k => acc + days_in_month y (Z.of_nat k))
            (seq 1 (Z.to_nat (m - 1))) 0.

(** [date.toordinal()]: 1 for 0001-01-01. *)
Definition toordinal (d : caldate) : Z :=
  days_before_year (d_year d) + days_before_month (d_year d) (d_month d) + d_day d.

(** [weekday()]: 0 is Monday, 6 is Sunday. *)
Definition weekday (t : datetime) : Z := (toordinal (dt_date t) + 6) mod 7.

(** Position of the wall clock on the time line, in microseconds. *)
Definition wall_clock (t : datetime) : Z :=
  ((toordinal (dt_date t) * 24 + dt_hour t) * 60 + dt_minute t) * 60000000
  + dt_second t * 1000000 + dt_microsecond t.

(** The instant an aware value denotes (a naive one is read as UTC). *)
Definition instant (t : datetime) : Z :=
  wall_clock t - match dt_utcoffset t with Some o => o | None => 0 end.

(** *** A reference [datetime.fromisoformat]

    A parser for [YYYY-MM-DD[*HH[:MM[:SS[.fff[fff]]]][+HH:MM[:SS[.ffffff]]]]]
    with the range checks of the [datetime] constructor, after the grammar
    documented for Python 3.7 to 3.10.  Which further strings the library
    accepts depends on its version, so the normalizer below takes the parser
    as a parameter; this one instantiates it in examples, on strings about
    which all versions agree. *)

Definition digit (c : ascii) : option Z :=
  let n := nat_of_ascii c in
  if ((48 <=? n) && (n <=? 57))%nat then Some (Z.of_nat (n - 48)) else None.

Fixpoint read_number (n : nat) (s : string) (acc : Z) : option (Z * string) :=
  match n with
  | O => Some (acc, s)
  | S n' =>
      match s with
      | String c rest =>
          match digit c with
          | Some d => read_number n' rest (acc * 10 + d)
          | None => None
          end
      | EmptyString => None
      end
  end.

Definition expect (c : ascii) (s : string) : option string :=
  match s with
  | String c' rest => if Ascii.eqb c c' then Some rest else None
  | EmptyString => None
  end.

(** [.fff] or [.ffffff] up to the end of [s], in microseconds. *)
Definition read_fraction (s : string) : option Z :=
  match String.length s with
  | 3%nat => match read_number 3 s 0 with
             | Some (f, _) => Some (f * 1000)
             | None => None
             end
  | 6%nat => match read_number 6 s 0 with
             | Some (f, _) => Some f
             | None => None
             end
  | _ => None
  end.

(** [HH[:MM[:SS[.fff[fff]]]]] covering the whole of [s]. *)
Definition read_clock (s : string) : option (Z * Z * Z * Z) :=
  match read_number 2 s 0 with
  | None => None
  | Some (hh, s1) =>
      if String.eqb s1 "" then Some (hh, 0, 0, 0) else
      match expect ":" s1 with
      | None => None
      | Some s2 =>
          match read_number 2 s2 0 with
          | None => None
          | Some (mm, s3) =>
              if String.eqb s3 "" then Some (hh, mm, 0, 0) else
              match expect ":" s3 with
              | None => None
              | Some s4 =>
                  match read_number 2 s4 0 with
                  | None => None
                  | Some (ss, s5) =>
                      if String.eqb s5 "" then Some (hh, mm, ss, 0) else
                      match expect "." s5 with
                      | None => None
                      | Some s6 =>
                          match read_fraction s6 with
                          | Some f => Some (hh, mm, ss, f)
                          | None => None
                          end
                      end
                  end
              end
          end
      end
  end.

(** Splits a time string at its first ["-"], or else its first ["+"]. *)
Fixpoint split_at (sign : ascii) (s : string) : option (string * string) :=
  match s with
  | EmptyString => None
  | String c rest =>
      if Ascii.eqb c sign then Some (EmptyString, rest)
      else match split_at sign rest with
           | Some (before, after) => Some (String c before, after)
           | None => None
           end
  end.

Definition read_offset (negative : bool) (s : string) : option Z :=
  match String.length s with
  | 5%nat | 8%nat | 15%nat =>
      match read_clock s with
      | Some (hh, mm, ss, f) =>
          let o := ((hh * 60 + mm) * 60 + ss) * 1000000 + f in
          if o <? 86400000000 then Some (if negative then - o else o) else None
      | None => None
      end
  | _ => None
  end.

Definition read_time (s : string) : option (Z * Z * Z * Z * option Z) :=
  let zone :=
    match split_at "-" s with
    | Some (clock, tz) => Some (clock, tz, true)
    | None =>
        match split_at "+" s with
        | Some (clock, tz) => Some (clock, tz, false)
        | None => None
        end
    end in
  match zone with
  | None =>
      match read_clock s with
      | Some c => Some (c, None)
      | None => None
      end
  | Some (clock, tz, negative) =>
      match read_clock clock, read_offset negative tz with
      | Some c, Some o => Some (c, Some o)
      | _, _ => None
      end
  end.

Definition read_date (s : string) : option (caldate * string) :=
  match read_number 4 s 0 with
  | None => None
  | Some (y, s1) =>
      match expect "-" s1 with
      | None => None
      | Some s2 =>
          match read_number 2 s2 0 with
          | None => None
          | Some (m, s3) =>
              match expect "-" s3 with
              | None => None
              | Some s4 =>
                  match read_number 2 s4 0 with
                  | None => None
                  | Some (d, s5) =>
                      if (1 <=? y) && (1 <=? m) && (m <=? 12)
                         && (1 <=? d) && (d <=? days_in_month y m)
                      then Some (mkdate y m d, s5) else None
                  end
              end
          end
      end
  end.

Definition iso_parse (s : string) : option datetime :=
  match read_date s with
  | None => None
  | Some (d, rest) =>
      match rest with
      | EmptyString => Some (mkdatetime d 0 0 0 0 None)
      | String _ EmptyString => Some (mkdatetime d 0 0 0 0 None)
      | String _ tstr =>
          match read_time tstr with
          | Some (hh, mm, ss, f, tz) =>
              if (hh <? 24) && (mm <? 60) && (ss <? 60)
              then Some (mkdatetime d hh mm ss f tz) else None
          | None => None
          end
      end
  end.

Local Close Scope Z_scope.

(** ** Normalizer: [parse_posts] *)

(** One row of the table: the [parsed_post] dict.  Values taken from the raw
    document unchecked ([uri], [cid], [text], the facet values) stay
    [pyval]. *)
Record NormalizedRecord : Type := mkrecord {
  uri : pyval;
  cid : pyval;
  text : pyval;
  created_at : option datetime;
  char_count : nat;
  word_count : nat;
  mentions : list pyval;
  hashtags : list pyval;
  links : list pyval;
  mention_count : nat;
  hashtag_count : nat;
  link_count : nat;
  has_image : bool;
  has_external : bool;
  is_reply : bool;
  hour : option Z;
  day_of_week : option Z;
  date : option caldate
}.

(** A [pandas.DataFrame] as [pd.DataFrame(list_of_dicts)] builds it: the
    columns are the keys of the dicts, so an empty list gives a frame with no
    columns at all, and [Frame rows] has the eighteen columns of
    [NormalizedRecord]. *)
Inductive DataFrame : Type :=
| NoColumns
| Frame (rows : list NormalizedRecord).

Definition DataFrame_of_records (records : list NormalizedRecord) : DataFrame :=
  match records with
  | [] => NoColumns
  | _ => Frame records
  end.

Fixpoint foldM {A B : Type} (f : A -> B -> result A) (l : list B) (a : A)
  : result A :=
  match l with
  | [] => Ok a
  | x :: rest => a' <- f a x ;; foldM f rest a'
  end.

(** The three sequences filled by the facet loop. *)
Definition facet_lists : Type := (list pyval * list pyval * list pyval)%type.

Definition feature_step (acc : facet_lists) (feature : pyval) : result facet_lists :=
  let '(mentions, hashtags, links) := acc in
  ty <- py_get feature "$type" PNone ;;
  if py_eq_str ty "app.bsky.richtext.facet#mention" then
    did <- py_get feature "did" (PStr "") ;;
    Ok ((mentions ++ [did])%list, hashtags, links)
  else if py_eq_str ty "app.bsky.richtext.facet#tag" then
    tag <- py_get feature "tag" (PStr "") ;;
    Ok (mentions, (hashtags ++ [tag])%list, links)
  else if py_eq_str ty "app.bsky.richtext.facet#link" then
    target <- py_get feature "uri" (PStr "") ;;
    Ok (mentions, hashtags, (links ++ [target])%list)
  else Ok acc.

Definition facet_step (acc : facet_lists) (facet : pyval) : result facet_lists :=
  features <- py_get facet "features" (PList []) ;;
  items <- py_iter features ;;
  foldM feature_step items acc.

Section Normalizer.

(** [datetime.fromisoformat]; [None] stands for its [ValueError]. *)
Variable fromisoformat : string -> option datetime.

Definition parse_timestamp (value : pyval) : result (option datetime) :=
  created_at <- py_get value "createdAt" (PStr "") ;;
  if truthy created_at then
    s <- py_replace_Z created_at ;;
    match fromisoformat s with
    | Some t => Ok (Some t)
    | None => Raise ValueError
    end
  else Ok None.

(** The body of the [try] block after the timestamp has been read. *)
Definition build_record (post value : pyval) (timestamp : option datetime)
  : result NormalizedRecord :=
  text <- py_get value "text" (PStr "") ;;
  facets <- py_get value "facets" (PList []) ;;
  facet_items <- py_iter facets ;;
  lists <- foldM facet_step facet_items ([], [], []) ;;
  let '(mentions, hashtags, links) := lists in
  embed <- py_get value "embed" (PDict []) ;;
  embed_type <- py_get embed "$type" PNone ;;
  let has_image := py_eq_str embed_type "app.bsky.embed.images" in
  let has_external := py_eq_str embed_type "app.bsky.embed.external" in
  reply <- py_get value "reply" (PDict []) ;;
  let is_reply := truthy reply in
  uri <- py_get post "uri" (PStr "") ;;
  cid <- py_get post "cid" (PStr "") ;;
  char_count <- py_len text ;;
  word_count <- (if truthy text
                 then words <- py_split text ;; Ok (List.length words)
                 else Ok 0) ;;
  Ok {| uri := uri;
        cid := cid;
        text := text;
        created_at := timestamp;
        char_count := char_count;
        word_count := word_count;
        mentions := mentions;
        hashtags := hashtags;
        links := links;
        mention_count := List.length mentions;
        hashtag_count := List.length hashtags;
        link_count := List.length links;
        has_image := has_image;
        has_external := has_external;
        is_reply := is_reply;
        hour := option_map dt_hour timestamp;
        day_of_week := option_map weekday timestamp;
        date := option_map dt_date timestamp |}.

(** The [try] block of the loop body for one raw post. *)
Definition normalize (post : pyval) : result NormalizedRecord :=
  value <- py_get post "value" (PDict []) ;;
  timestamp <- parse_timestamp value ;;
  build_record post value timestamp.

(** The loop: a post whose block raised is reported and left out. *)
Fixpoint parsed_posts (raw_posts : list pyval) : list NormalizedRecord :=
  match raw_posts with
  | [] => []
  | post :: rest =>
      match normalize post with
      | Ok parsed_post => parsed_post :: parsed_posts rest
      | Raise _ => parsed_posts rest
      end
  end.

Definition parse_posts (raw_posts : list pyval) : DataFrame :=
  DataFrame_of_records (parsed_posts raw_posts).

End Normalizer.

(** ** Fetcher: [fetch_posts] *)

(** What one [requests.get] of the listing endpoint comes to: a
    [RequestException] (raised by the call, by [raise_for_status] or by
    [response.json()]), or the decoded body. *)
Inductive response : Type :=
| RequestException
| Body (data : pyval).

(** [limit and total_fetched >= limit] *)
Definition limit_reached (limit : option Z) (total_fetched : Z) : bool :=
  match limit with
  | Some l => negb (l =? 0)%Z && (l <=? total_fetched)%Z
  | None => false
  end.

(** [posts[:limit]] *)
Definition slice_to {A : Type} (limit : Z) (posts : list A) : list A :=
  if (0 <=? limit)%Z then firstn (Z.to_nat limit) posts
  else firstn (List.length posts - Z.to_nat (- limit)) posts.

Definition truncate (limit : option Z) (posts : list pyval) : list pyval :=
  match limit with
  | Some l => slice_to l posts
  | None => posts
  end.

(** How one pass through the loop body ends. *)
Inductive step : Type :=
| Continue (posts : list pyval) (cursor : pyval) (total_fetched : Z)
| Break (posts : list pyval).

(** The [try] block for one decoded body.  An exception it raises is not a
    [RequestException] and leaves [fetch_posts]. *)
Definition fetch_page (limit : option Z) (posts : list pyval) (total_fetched : Z)
           (data : pyval) : result step :=
  batch_posts <- py_get data "records" (PList []) ;;
  if negb (truthy batch_posts) then Ok (Break posts) else
  items <- py_iter batch_posts ;;
  let posts := (posts ++ items)%list in
  n <- py_len batch_posts ;;
  let total_fetched := (total_fetched + Z.of_nat n)%Z in
  cursor <- py_get data "cursor" PNone ;;
  if negb (truthy cursor) then Ok (Break posts) else
  if limit_reached limit total_fetched then Ok (Break (truncate limit posts)) else
  Ok (Continue posts cursor total_fetched).

(** The [while True] loop.  [server] lists the answers to the successive
    requests (the cursor of one answer is the parameter of the next request);
    [None] means that the loop is still asking when the list ends. *)
Fixpoint fetch_loop (limit : option Z) (server : list response)
         (posts : list pyval) (cursor : pyval) (total_fetched : Z)
  : option (result (list pyval)) :=
  match server with
  | [] => None
  | RequestException :: _ => Some (Ok posts)
  | Body data :: later =>
      match fetch_page limit posts total_fetched data with
      | Raise e => Some (Raise e)
      | Ok (Break posts') => Some (Ok posts')
      | Ok (Continue posts' cursor' total') =>
          fetch_loop limit later posts' cursor' total'
      end
  end.

Definition fetch_posts (access_jwt : pyval) (limit : option Z)
           (server : list response) : option (result (list pyval)) :=
  if negb (truthy access_jwt)
  then Some (Raise (PyException "Not authenticated. Call authenticate() first."))
  else fetch_loop limit server [] PNone 0%Z.

(** A listing body. *)
Definition page (records : list pyval) (cursor : option string) : pyval :=
  PDict (("records", PList records)
         :: match cursor with
            | Some c => [("cursor", PStr c)]
            | None => []
            end).

(** [n] distinct raw posts, numbered from [first]. *)
Definition numbered_posts (first n : nat) : list pyval :=
  map (fun i => PDict [("cid", PNum (inject_Z (Z.of_nat i)));
                       ("value", PDict [("text", PStr "post")])])
      (seq first n).

(** ** Counting: [set] and [collections.Counter] *)

(** [a == b] on hashable scalars (equal values also hash alike). *)
Definition atom_eqb (a b : atom) : bool :=
  match a, b with
  | ANone, ANone => true
  | AStr s, AStr t => String.eqb s t
  | _, _ =>
      match atom_value a, atom_value b with
      | Some x, Some y => Qeq_bool x y
      | _, _ => false
      end
  end.

(** Only scalars can be set members or dict keys. *)
Definition to_atom (v : pyval) : result atom :=
  match v with
  | PAtom a => Ok a
  | _ => Raise TypeError
  end.

Fixpoint mapM {A B : Type} (f : A -> result B) (l : list A) : result (list B) :=
  match l with
  | [] => Ok []
  | x :: rest => y <- f x ;; ys <- mapM f rest ;; Ok (y :: ys)
  end.

Section CounterModel.

Context {A : Type}.
Variable eqb : A -> A -> bool.

(** Number of items of [l] equal to [x]. *)
Definition count_of (x : A) (l : list A) : nat :=
  List.length (filter (eqb x) l).

(** The first occurrence of every distinct item, in order. *)
Fixpoint distinct (l : list A) : list A :=
  match l with
  | [] => []
  | x :: rest => x :: filter (fun y => negb (eqb x y)) (distinct rest)
  end.

(** Position of the first item equal to [x] ([length l] if there is none). *)
Fixpoint first_index (x : A) (l : list A) : nat :=
  match l with
  | [] => 0
  | y :: rest => if eqb y x then 0 else S (first_index x rest)
  end.

Fixpoint no_repeat (l : list A) : bool :=
  match l with
  | [] => true
  | x :: rest => negb (existsb (eqb x) rest) && no_repeat rest
  end.

(** [c[x] += 1] on an insertion-ordered dict: an existing key keeps its
    place (and its first-seen object), a new key goes last. *)
Fixpoint counter_incr (x : A) (c : list (A * nat)) : list (A * nat) :=
  match c with
  | [] => [(x, 1)]
  | (k, n) :: rest =>
      if eqb k x then (k, S n) :: rest else (k, n) :: counter_incr x rest
  end.

(** [Counter(l)] *)
Definition Counter (l : list A) : list (A * nat) :=
  fold_left (fun c x => counter_incr x c) l [].

(** [sorted(items, key=itemgetter(1), reverse=True)]: a stable sort, so
    items of equal count keep their order. *)
Fixpoint insert_desc (e : A * nat) (sorted : list (A * nat)) : list (A * nat) :=
  match sorted with
  | [] => [e]
  | e' :: rest =>
      if snd e' <=? snd e then e :: sorted else e' :: insert_desc e rest
  end.

Definition sorted_desc (items : list (A * nat)) : list (A * nat) :=
  fold_right insert_desc [] items.

(** [c.most_common(n)], which is [heapq.nlargest(n, c.items(), key=count)],
    documented as [sorted(..., reverse=True)[:n]]. *)
Definition most_common (n : nat) (c : list (A * nat)) : list (A * nat) :=
  firstn n (sorted_desc c).

(** What it means for [s] to enumerate the set built from [l]. *)
Definition enumerates (s l : list A) : Prop :=
  no_repeat s = true
  /\ (forall x, In x s -> In x l)
  /\ (forall x, In x l -> existsb (eqb x) s = true).

(** The distinct items in first-encounter order, each with its frequency. *)
Definition tally (l : list A) : list (A * nat) :=
  map (fun x => (x, count_of x l)) (distinct l).

(** [e1] comes before [e2] in the ranking of the items of [l]: a greater
    count, or an equal count and an earlier first occurrence. *)
Definition ranked_before (l : list A) (e1 e2 : A * nat) : Prop :=
  snd e2 < snd e1
  \/ (snd e1 = snd e2 /\ first_index (fst e1) l < first_index (fst e2) l).

(** The order that a stable descending sort by count puts on items that
    stood in the order [before]. *)
Definition by_count_then (before : A * nat -> A * nat -> Prop)
           (e1 e2 : A * nat) : Prop :=
  snd e2 < snd e1 \/ (snd e1 = snd e2 /\ before e1 e2).

End CounterModel.

(** The part of the Python runtime that may differ between two runs: the
    order in which a [set] built from a list holds its members (string hashes
    are salted per process). *)
Record PyRuntime : Type := mkruntime {
  set_items : list atom -> list atom;
  set_items_enumerates : forall l, enumerates atom_eqb (set_items l) l
}.

(** ** Aggregator: [analyze_posts] *)

Module Report.

Record DateRange : Type := mkrange {
  earliest : option string;
  latest : option string
}.

(** A mean is the exact quotient (rounding to a float is not modelled);
    [None] is NaN. *)
Record Content : Type := mkcontent {
  avg_char_count : option Q;
  avg_word_count : option Q;
  longest_post : pyval;
  longest_post_chars : option nat;
  reply_percentage : Q;
  posts_with_images : nat;
  posts_with_links : nat
}.

Record Hashtags : Type := mkhashtags {
  total_used : nat;
  unique_hashtags : nat;
  most_common : list (atom * nat)
}.

(** An hour is its numeric value (pandas hands it out as a float when the
    column also holds nulls). *)
Record PostingPatterns : Type := mkpatterns {
  busiest_hour : Z;
  busiest_hour_count : nat;
  posts_by_hour : list (Z * nat);
  posts_by_day : list (string * nat);
  monthly_activity : list (string * nat)
}.

(** The [analysis] dict; [posting_patterns] is [None] when the key is
    absent. *)
Record Analysis : Type := mkanalysis {
  total_posts : nat;
  date_range : DateRange;
  content : Content;
  hashtags : Hashtags;
  posting_patterns : option PostingPatterns
}.

End Report.

Definition df_rows (df : DataFrame) : list NormalizedRecord :=
  match df with
  | NoColumns => []
  | Frame rows => rows
  end.

(** [len(df)] *)
Definition df_len (df : DataFrame) : nat := List.length (df_rows df).

(** [df.empty]: some axis has length zero. *)
Definition df_empty (df : DataFrame) : bool :=
  match df_rows df with
  | [] => true
  | _ => false
  end.

(** [df[name]], for the column read by [field]. *)
Definition column {A : Type} (df : DataFrame) (field : NormalizedRecord -> A)
  : result (list A) :=
  match df with
  | NoColumns => Raise KeyError
  | Frame rows => Ok (map field rows)
  end.

(** The non-null cells of a column. *)
Definition present {A : Type} (col : list (option A)) : list A :=
  flat_map (fun cell => match cell with Some x => [x] | None => [] end) col.

Definition has_null {A : Type} (col : list (option A)) : bool :=
  existsb (fun cell => match cell with Some _ => false | None => true end) col.

(** [col.notna().any()] *)
Definition notna_any {A : Type} (col : list (option A)) : bool :=
  existsb (fun cell => match cell with Some _ => true | None => false end) col.

(** The first item with the least (greatest) key. *)
Fixpoint first_min {A : Type} (key : A -> Z) (l : list A) : option A :=
  match l with
  | [] => None
  | x :: rest =>
      match first_min key rest with
      | Some y => if (key y <? key x)%Z then Some y else Some x
      | None => Some x
      end
  end.

Definition first_max {A : Type} (key : A -> Z) (l : list A) : option A :=
  first_min (fun x => (- key x)%Z) l.

Definition offset_eqb (a b : option Z) : bool :=
  match a, b with
  | Some x, Some y => (x =? y)%Z
  | None, None => true
  | _, _ => false
  end.

(** The timestamps share one UTC offset (or are all naive): pandas then
    stores the column as [datetime64], nulls as NaT.  Otherwise the column
    holds plain Python objects. *)
Definition datetime_column (ts : list datetime) : bool :=
  match ts with
  | [] => true
  | t :: rest => forallb (fun u => offset_eqb (dt_utcoffset t) (dt_utcoffset u)) rest
  end.

Definition mixes_naive_and_aware (ts : list datetime) : bool :=
  existsb (fun t => match dt_utcoffset t with Some _ => true | None => false end) ts
  && existsb (fun t => match dt_utcoffset t with Some _ => false | None => true end) ts.

(** [col.min()] and [col.max()] on the [created_at] column, nulls skipped.
    [None] is the NaN (NaT) of a column without a timestamp.  In an object
    column the comparison of a datetime with the filler of a null, or of a
    naive with an aware datetime, raises. *)
Definition extreme (pick : (datetime -> Z) -> list datetime -> option datetime)
           (col : list (option datetime)) : result (option datetime) :=
  let ts := present col in
  if datetime_column ts then Ok (pick wall_clock ts)
  else if has_null col || mixes_naive_and_aware ts then Raise TypeError
  else Ok (pick instant ts).

Definition digit_char (d : Z) : ascii := ascii_of_nat (48 + Z.to_nat d).

(** The last [width] decimal digits of [n]. *)
Fixpoint decimal (width : nat) (n : Z) : string :=
  match width with
  | O => EmptyString
  | S w => decimal w (n / 10) ++ String (digit_char (n mod 10)) EmptyString
  end.

(** [t.strftime("%Y-%m-%d")]; the NaN of an empty reduction has no such
    method. *)
Definition strftime (cell : option datetime) : result (option string) :=
  match cell with
  | Some t =>
      let d := dt_date t in
      Ok (Some (decimal 4 (d_year d) ++ "-" ++ decimal 2 (d_month d)
                ++ "-" ++ decimal 2 (d_day d)))
  | None => Raise AttributeError
  end.

Definition sum_nat (l : list nat) : nat := fold_right Nat.add 0 l.

Definition count_true (l : list bool) : nat := List.length (filter id l).

(** [col.mean()] *)
Definition mean (col : list nat) : option Q :=
  match col with
  | [] => None
  | _ => Some (inject_Z (Z.of_nat (sum_nat col))
               / inject_Z (Z.of_nat (List.length col)))%Q
  end.

(** [col.max()] *)
Definition col_max (col : list nat) : option nat :=
  first_max Z.of_nat col.

(** [df.loc[df["char_count"].idxmax()]]: the first row of greatest
    [char_count]. *)
Definition longest_row (rows : list NormalizedRecord) : option NormalizedRecord :=
  first_max (fun r => Z.of_nat (char_count r)) rows.

(** [df.groupby(key).size()]: the keys in ascending order with their
    numbers of rows; rows whose key is null are dropped beforehand. *)
Fixpoint bump (k : Z) (groups : list (Z * nat)) : list (Z * nat) :=
  match groups with
  | [] => [(k, 1)]
  | (k', n) :: rest =>
      if (k <? k')%Z then (k, 1) :: groups
      else if (k =? k')%Z then (k', S n) :: rest
      else (k', n) :: bump k rest
  end.

Definition groupby_size (keys : list Z) : list (Z * nat) :=
  fold_left (fun groups k => bump k groups) keys [].

(** [d[k] = v] on an insertion-ordered dict. *)
Fixpoint dict_put (k : string) (v : nat) (d : list (string * nat))
  : list (string * nat) :=
  match d with
  | [] => [(k, v)]
  | (k', v') :: rest =>
      if String.eqb k' k then (k', v) :: rest else (k', v') :: dict_put k v rest
  end.

Definition day_names : list string :=
  ["Monday"; "Tuesday"; "Wednesday"; "Thursday"; "Friday"; "Saturday"; "Sunday"].

(** [day_names[day]] for an integer [day]. *)
Definition day_name (day : Z) : result string :=
  let i := if (day <? 0)%Z then (day + 7)%Z else day in
  if (i <? 0)%Z then Raise IndexError
  else match nth_error day_names (Z.to_nat i) with
       | Some name => Ok name
       | None => Raise IndexError
       end.

(** The [posts_by_day] comprehension.  A [day_of_week] column with a null
    among integers is a float column, and a float cannot index a list. *)
Definition posts_by_day_of (col : list (option Z)) : result (list (string * nat)) :=
  let daily_counts := groupby_size (present col) in
  match daily_counts with
  | [] => Ok []
  | _ =>
      if has_null col then Raise TypeError
      else foldM (fun d item => name <- day_name (fst item) ;;
                                Ok (dict_put name (snd item) d))
                 daily_counts []
  end.

(** The calendar month of the wall clock, numbered from year 0. *)
Definition month_number (t : datetime) : Z :=
  (d_year (dt_date t) * 12 + (d_month (dt_date t) - 1))%Z.

(** [str(period)] for a monthly period. *)
Definition period_name (m : Z) : string :=
  decimal 4 (m / 12) ++ "-" ++ decimal 2 (m mod 12 + 1).

(** The monthly grouping: [.dt] needs a [datetime64] column. *)
Definition monthly_activity_of (col : list (option datetime))
  : result (list (string * nat)) :=
  let ts := present col in
  if datetime_column ts
  then Ok (map (fun g => (period_name (fst g), snd g))
               (groupby_size (map month_number ts)))
  else Raise AttributeError.

Section Aggregator.

Variable rt : PyRuntime.

Definition date_range_of (df : DataFrame) : result Report.DateRange :=
  earliest <- (if negb (df_empty df)
               then col <- column df created_at ;;
                    m <- extreme first_min col ;; strftime m
               else Ok None) ;;
  latest <- (if negb (df_empty df)
             then col <- column df created_at ;;
                  m <- extreme first_max col ;; strftime m
             else Ok None) ;;
  Ok (Report.mkrange earliest latest).

Definition content_of (df : DataFrame) : result Report.Content :=
  chars <- column df char_count ;;
  words <- column df word_count ;;
  longest <- (if negb (df_empty df)
              then match longest_row (df_rows df) with
                   | Some r => Ok (text r)
                   | None => Raise ValueError
                   end
              else Ok (PStr "")) ;;
  chars' <- column df char_count ;;
  reply <- (if negb (df_empty df)
            then replies <- column df is_reply ;;
                 Ok (inject_Z (Z.of_nat (count_true replies))
                     / inject_Z (Z.of_nat (df_len df)) * 100)%Q
            else Ok 0%Q) ;;
  images <- column df has_image ;;
  externals <- column df has_external ;;
  Ok (Report.mkcontent (mean chars) (mean words) longest (col_max chars')
                       reply (count_true images) (count_true externals)).

Definition hashtags_of (df : DataFrame) : result Report.Hashtags :=
  col <- column df hashtags ;;
  let all_hashtags := List.concat col in
  keys <- mapM to_atom all_hashtags ;;
  Ok (Report.mkhashtags (List.length all_hashtags)
                        (List.length (set_items rt keys))
                        (most_common 10 (Counter atom_eqb keys))).

Definition posting_patterns_of (df : DataFrame)
  : result (option Report.PostingPatterns) :=
  if negb (df_empty df) then
    stamps <- column df created_at ;;
    if notna_any stamps then
      hours <- column df hour ;;
      let hourly_counts := groupby_size (present hours) in
      match first_max (fun g => Z.of_nat (snd g)) hourly_counts with
      | None => Raise ValueError
      | Some (busiest, n) =>
          days <- column df day_of_week ;;
          by_day <- posts_by_day_of days ;;
          stamps' <- column df created_at ;;
          monthly <- monthly_activity_of stamps' ;;
          Ok (Some (Report.mkpatterns busiest n hourly_counts by_day monthly))
      end
    else Ok None
  else Ok None.

Definition analyze_posts (df : DataFrame) : result Report.Analysis :=
  range <- date_range_of df ;;
  content <- content_of df ;;
  tags <- hashtags_of df ;;
  patterns <- posting_patterns_of df ;;
  Ok (Report.mkanalysis (df_len df) range content tags patterns).

End Aggregator.

(** ** The run of [main] from fetching to analysis

    Rendering, saving and printing come after and are left out. *)
Inductive run : Type :=
| NoPostsFound
| Completed (df : DataFrame) (analysis : Report.Analysis)
| ErrorOccurred (e : exn).

Definition main_pipeline (fromisoformat : string -> option datetime)
           (rt : PyRuntime) (access_jwt : pyval) (limit : option Z)
           (server : list response) : option run :=
  match fetch_posts access_jwt limit server with
  | None => None
  | Some (Raise e) => Some (ErrorOccurred e)
  | Some (Ok raw_posts) =>
      if negb (truthy (PList raw_posts)) then Some NoPostsFound else
      let df := parse_posts fromisoformat raw_posts in
      match analyze_posts rt df with
      | Ok analysis => Some (Completed df analysis)
      | Raise e => Some (ErrorOccurred e)
      end
  end.

(** ** Vocabulary of the properties *)

Inductive feature_kind : Type := Mention | Hashtag | Link.

Definition kind_tag (k : feature_kind) : string :=
  match k with
  | Mention => "app.bsky.richtext.facet#mention"
  | Hashtag => "app.bsky.richtext.facet#tag"
  | Link => "app.bsky.richtext.facet#link"
  end.

Definition kind_field (k : feature_kind) : string :=
  match k with
  | Mention => "did"
  | Hashtag => "tag"
  | Link => "uri"
  end.

Definition kind_list (k : feature_kind) (acc : facet_lists) : list pyval :=
  match k with
  | Mention => fst (fst acc)
  | Hashtag => snd (fst acc)
  | Link => snd acc
  end.

Definition kind_append (k : feature_kind) (acc : facet_lists) (v : pyval)
  : facet_lists :=
  let '(mentions, hashtags, links) := acc in
  match k with
  | Mention => ((mentions ++ [v])%list, hashtags, links)
  | Hashtag => (mentions, (hashtags ++ [v])%list, links)
  | Link => (mentions, hashtags, (links ++ [v])%list)
  end.

(** The text of a record is empty or holds whitespace only. *)
Definition blank_text (v : pyval) : bool :=
  match v with
  | PStr s => whitespace_only s
  | _ => negb (truthy v)
  end.

(** The [value] field is there but is not a mapping. *)
Definition invalid_value (post : pyval) : bool :=
  match post with
  | PDict items =>
      match dict_lookup items "value" with
      | Some (PDict _) => false
      | Some _ => true
      | None => false
      end
  | _ => false
  end.

(** The post is a mapping without a [value] field. *)
Definition missing_value (post : pyval) : bool :=
  match post with
  | PDict items =>
      match dict_lookup items "value" with
      | Some _ => false
      | None => true
      end
  | _ => false
  end.

(** The record of a post that has neither text nor timestamp. *)
Definition blank_record (uri cid : pyval) : NormalizedRecord :=
  {| uri := uri;
     cid := cid;
     text := PStr "";
     created_at := None;
     char_count := 0;
     word_count := 0;
     mentions := [];
     hashtags := [];
     links := [];
     mention_count := 0;
     hashtag_count := 0;
     link_count := 0;
     has_image := false;
     has_external := false;
     is_reply := false;
     hour := None;
     day_of_week := None;
     date := None |}.

Definition field_or_empty (post : pyval) (key : string) : pyval :=
  match py_get post key (PStr "") with
  | Ok v => v
  | Raise _ => PStr ""
  end.

(** The loop goes on after each of [bodies], starting with [total_fetched]
    records: every page is non-empty, names a next page, and leaves the cap
    unreached. *)
Fixpoint continues (limit : option Z) (total_fetched : Z) (bodies : list pyval)
  : bool :=
  match bodies with
  | [] => true
  | data :: more =>
      match fetch_page limit [] total_fetched data with
      | Ok (Continue _ _ total') => continues limit total' more
      | _ => false
      end
  end.

(** The records a page adds to [posts]. *)
Definition records_of (data : pyval) : list pyval :=
  match py_get data "records" (PList []) with
  | Ok batch_posts =>
      match py_iter batch_posts with
      | Ok items => items
      | Raise _ => []
      end
  | Raise _ => []
  end.

(** What an empty table that does have its columns gives. *)
Definition empty_report : Report.Analysis :=
  Report.mkanalysis 0 (Report.mkrange None None)
    (Report.mkcontent None None (PStr "") None 0%Q 0 0)
    (Report.mkhashtags 0 0 [])
    None.

Definition null_timestamp (r : NormalizedRecord) : bool :=
  match created_at r with
  | None => true
  | Some _ => false
  end.

(** [[tag for tags in df["hashtags"] for tag in tags]] *)
Definition all_hashtags (df : DataFrame) : list pyval :=
  List.concat (map hashtags (df_rows df)).

Definition derived_fields_agree (r : NormalizedRecord) : Prop :=
  hour r = option_map dt_hour (created_at r)
  /\ day_of_week r = option_map weekday (created_at r).

(** ** Sample data *)

Definition tagged_post (stamp : string) (tags : list string) : pyval :=
  PDict [("uri", PStr "at://did:plc:me/app.bsky.feed.post/1");
         ("value",
          PDict [("text", PStr "hello");
                 ("createdAt", PStr stamp);
                 ("facets",
                  PList [PDict [("features",
                     PList (map (fun t => PDict [("$type", PStr "app.bsky.richtext.facet#tag");
                                                 ("tag", PStr t)]) tags))]])])].

Definition sample_post : pyval :=
  PDict [("uri", PStr "at://did:plc:me/app.bsky.feed.post/3k");
         ("cid", PStr "bafyrei");
         ("value",
          PDict [("text", PStr "reading  the docs");
                 ("createdAt", PStr "2024-01-15T12:34:56.789Z");
                 ("facets",
                  PList [PDict [("features",
                     PList [PDict [("$type", PStr "app.bsky.richtext.facet#tag");
                                   ("tag", PStr "rocq")]])]])])].

Definition sample_record : NormalizedRecord :=
  {| uri := PStr "at://did:plc:me/app.bsky.feed.post/3k";
     cid := PStr "bafyrei";
     text := PStr "reading  the docs";
     created_at := Some (mkdatetime (mkdate 2024 1 15) 12 34 56 789000 (Some 0%Z));
     char_count := 17;
     word_count := 3;
     mentions := [];
     hashtags := [PStr "rocq"];
     links := [];
     mention_count := 0;
     hashtag_count := 1;
     link_count := 0;
     has_image := false;
     has_external := false;
     is_reply := false;
     hour := Some 12%Z;
     day_of_week := Some 0%Z;
     date := Some (mkdate 2024 1 15) |}.

(** Ten raw posts, the fourth with [value] set to JSON null. *)
Definition batch_with_null_value : list pyval :=
  (numbered_posts 0 3 ++ [PDict [("cid", PNum 3); ("value", PNone)]]
   ++ numbered_posts 4 6)%list.

(** Ten raw posts, the fourth without a [value] field. *)
Definition batch_with_missing_value : list pyval :=
  (numbered_posts 0 3 ++ [PDict [("cid", PNum 3)]] ++ numbered_posts 4 6)%list.

Definition post_without_timestamp : pyval :=
  PDict [("uri", PStr "at://did:plc:me/app.bsky.feed.post/3m");
         ("value", PDict [("text", PStr "no clock")])].

Definition post_with_bad_timestamp : pyval :=
  PDict [("uri", PStr "at://did:plc:me/app.bsky.feed.post/3n");
         ("value", PDict [("text", PStr "bad clock");
                          ("createdAt", PStr "yesterday at noon")])].

(** The table of the specification's example: three rows with hashtags
    [["a","b"]], [["a"]] and [[]]. *)
Definition three_tagged_rows : DataFrame :=
  parse_posts iso_parse
    [tagged_post "2024-01-15T12:34:56.789Z" ["a"; "b"];
     tagged_post "2024-01-16T08:00:00Z" ["a"];
     tagged_post "2024-02-01T23:59:59Z" []].

(** ** Session: [authenticate]

    The analyzer object holds the session; a method that assigns to [self]
    returns the object it leaves behind, also when it raises. *)

Record BlueskyAnalyzer : Type := mkanalyzer {
  access_jwt : pyval;
  refresh_jwt : pyval;
  did : pyval
}.

(** [BlueskyAnalyzer()] *)
Definition new_analyzer : BlueskyAnalyzer := mkanalyzer PNone PNone PNone.

(** [v[key]] for a string key. *)
Definition py_subscript (v : pyval) (key : string) : result pyval :=
  match v with
  | PDict items =>
      match dict_lookup items key with
      | Some x => Ok x
      | None => Raise KeyError
      end
  | _ => Raise TypeError
  end.

(** The session endpoint: what the POST of an identifier and a password
    comes to. *)
Definition auth_server : Type := string -> string -> response.

(** Only a [RequestException] is caught; the three assignments run in order,
    so an exception of a later one leaves the earlier ones done. *)
Definition authenticate (self : BlueskyAnalyzer) (server : auth_server)
           (handle password : string) : BlueskyAnalyzer * result bool :=
  match server handle password with
  | RequestException => (self, Ok false)
  | Body session_data =>
      match py_subscript session_data "accessJwt" with
      | Raise e => (self, Raise e)
      | Ok a =>
          let self1 := mkanalyzer a (refresh_jwt self) (did self) in
          match py_subscript session_data "refreshJwt" with
          | Raise e => (self1, Raise e)
          | Ok r =>
              let self2 := mkanalyzer a r (did self) in
              match py_subscript session_data "did" with
              | Raise e => (self2, Raise e)
              | Ok d => (mkanalyzer a r d, Ok true)
              end
          end
      end
  end.

(** ** String methods *)

Fixpoint lstrip (s : string) : string :=
  match s with
  | EmptyString => EmptyString
  | String c rest => if isspace c then lstrip rest else s
  end.

Fixpoint rstrip (s : string) : string :=
  match s with
  | EmptyString => EmptyString
  | String c rest =>
      let rest' := rstrip rest in
      if isspace c && String.eqb rest' "" then EmptyString else String c rest'
  end.

(** [s.strip()] *)
Definition strip (s : string) : string := rstrip (lstrip s).

(** [s.lstrip(c)] for a single character [c]. *)
Fixpoint lstrip_char (c : ascii) (s : string) : string :=
  match s with
  | EmptyString => EmptyString
  | String c' rest => if Ascii.eqb c' c then lstrip_char c rest else s
  end.

Fixpoint filter_chars (keep : ascii -> bool) (s : string) : string :=
  match s with
  | EmptyString => EmptyString
  | String c rest =>
      if keep c then String c (filter_chars keep rest) else filter_chars keep rest
  end.

(** [sub in s] *)
Fixpoint contains (sub s : string) : bool :=
  String.prefix sub s
  || match s with
     | EmptyString => false
     | String _ rest => contains sub rest
     end.

(** [s.endswith(suffix)] *)
Definition endswith (s suffix : string) : bool :=
  (String.length suffix <=? String.length s)
  && String.eqb (substring (String.length s - String.length suffix)
                           (String.length suffix) s)
                suffix.

(** [s.startswith(c)] for a single character [c]. *)
Definition startswith_char (s : string) (c : ascii) : bool :=
  match s with
  | String c' _ => Ascii.eqb c' c
  | EmptyString => false
  end.

(** ** Debug analyzer: [clean_handle] and [test_authentication_methods] *)

Definition known_tlds : list string := [".com"; ".org"; ".net"; ".edu"; ".gov"].

Definition clean_handle (handle : string) : string :=
  let handle := strip (filter_chars (fun c => nat_of_ascii c <? 127) handle) in
  let handle := if startswith_char handle "@"
                then match handle with
                     | String _ rest => rest
                     | EmptyString => EmptyString
                     end
                else handle in
  if negb (contains "." handle) then handle ++ ".bsky.social"
  else if negb (endswith handle ".bsky.social") && negb (contains "@" handle) then
    if negb (existsb (fun tld => contains tld handle) known_tlds)
    then handle ++ ".bsky.social"
    else handle
  else handle.

(** The identifiers that [test_authentication_methods] tries, in order. *)
Definition test_identifiers (identifier : string) : list string :=
  let cleaned_handle := clean_handle identifier in
  ([cleaned_handle; strip identifier; lstrip_char "@" (strip identifier)]
   ++ if negb (contains "@" cleaned_handle)
      then [String.append "did:plc:" cleaned_handle]
      else [])%list.

(** What one POST of the debug analyzer comes to: a [RequestException]
    (also for a 200 whose body is not JSON), or a status code with the
    decoded body of a 200. *)
Inductive auth_answer : Type :=
| NetworkError
| Status200 (session_data : pyval)
| StatusOther (code : Z).

(** The session endpoint of the debug analyzer: the answer to the [i]-th
    POST, made with the given identifier. *)
Definition debug_server : Type := nat -> string -> auth_answer.

(** The loop [for i, test_id in enumerate(test_identifiers, 1)]: the object
    left behind, the identifiers posted so far, and the outcome.  A status
    other than 200 and a [RequestException] move on to the next identifier;
    an exception of the three assignments is not caught. *)
Fixpoint try_identifiers (self : BlueskyAnalyzer) (server : debug_server)
         (candidates : list string) (i : nat) (posted : list string)
  : BlueskyAnalyzer * list string * result bool :=
  match candidates with
  | [] => (self, posted, Ok false)
  | test_id :: rest =>
      let posted := (posted ++ [test_id])%list in
      match server i test_id with
      | Status200 session_data =>
          match py_subscript session_data "accessJwt" with
          | Raise e => (self, posted, Raise e)
          | Ok a =>
              let self1 := mkanalyzer a (refresh_jwt self) (did self) in
              match py_subscript session_data "refreshJwt" with
              | Raise e => (self1, posted, Raise e)
              | Ok r =>
                  let self2 := mkanalyzer a r (did self) in
                  match py_subscript session_data "did" with
                  | Raise e => (self2, posted, Raise e)
                  | Ok d => (mkanalyzer a r d, posted, Ok true)
                  end
              end
          end
      | StatusOther _ => try_identifiers self server rest (S i) posted
      | NetworkError => try_identifiers self server rest (S i) posted
      end
  end.

Definition test_authentication_methods (self : BlueskyAnalyzer)
           (server : debug_server) (identifier : string)
  : BlueskyAnalyzer * list string * result bool :=
  try_identifiers self server (test_identifiers identifier) 1 [].

(** ** [main]: the prompt for the cap *)

(** [c.isdigit()] on a code point below 256: the decimal digits and the
    superscripts two, three and one. *)
Definition isdigit_char (c : ascii) : bool :=
  let n := nat_of_ascii c in
  ((48 <=? n) && (n <=? 57)) || (n =? 178) || (n =? 179) || (n =? 185).

(** [s.isdigit()] *)
Definition isdigit (s : string) : bool :=
  negb (String.eqb s "")
  && String.eqb (filter_chars isdigit_char s) s.

(** [int(s)] for a string that passed [isdigit]: a superscript is no
    decimal digit. *)
Fixpoint int_of_digits (s : string) (acc : Z) : result Z :=
  match s with
  | EmptyString => Ok acc
  | String c rest =>
      match digit c with
      | Some d => int_of_digits rest (acc * 10 + d)%Z
      | None => Raise ValueError
      end
  end.

(** [limit = int(limit_input) if limit_input.isdigit() else None], after
    [input(...).strip()]. *)
Definition read_limit (line : string) : result (option Z) :=
  let limit_input := strip line in
  if isdigit limit_input
  then n <- int_of_digits limit_input 0%Z ;; Ok (Some n)
  else Ok None.

(** How [main] ends. *)
Inductive main_outcome : Type :=
| AuthenticationFailed
| Uncaught (e : exn)
| Ran (r : run).

(** [main], with the lines typed at the three prompts.  The conversion of
    the cap stands outside the [try] block. *)
Definition main (fromisoformat : string -> option datetime) (rt : PyRuntime)
           (session : auth_server) (handle_line password_line limit_line : string)
           (server : list response) : option main_outcome :=
  match authenticate new_analyzer session (strip handle_line) (strip password_line) with
  | (_, Raise e) => Some (Uncaught e)
  | (_, Ok false) => Some AuthenticationFailed
  | (analyzer, Ok true) =>
      match read_limit limit_line with
      | Raise e => Some (Uncaught e)
      | Ok limit =>
          option_map Ran
            (main_pipeline fromisoformat rt (access_jwt analyzer) limit server)
      end
  end.

(** ** [print_summary]: the busiest day *)

(** [max(patterns["posts_by_day"].items(), key=lambda x: x[1])], when the
    report has posting patterns; [max] of no item raises. *)
Definition summary_busiest_day (analysis : Report.Analysis)
  : result (option (string * nat)) :=
  match Report.posting_patterns analysis with
  | None => Ok None
  | Some patterns =>
      match first_max (fun item => Z.of_nat (snd item))
                      (Report.posts_by_day patterns) with
      | Some item => Ok (Some item)
      | None => Raise ValueError
      end
  end.

(** ** Vocabulary of the further properties *)

(** The decoded bodies among the answers of a server. *)
Definition bodies_of (server : list response) : list pyval :=
  flat_map (fun answer => match answer with
                          | Body data => [data]
                          | RequestException => []
                          end) server.

(** A page with records, a next cursor, and the cap reached by it. *)
Definition reaches_cap (limit : option Z) (total_fetched : Z) (data : pyval) : bool :=
  match py_get data "records" (PList []), py_get data "cursor" PNone with
  | Ok batch_posts, Ok cursor =>
      truthy batch_posts && is_ok (py_iter batch_posts) && truthy cursor
      && limit_reached limit
           (total_fetched + Z.of_nat (List.length (records_of data)))
  | _, _ => false
  end.

(** A page with records and no next cursor. *)
Definition is_final_page (data : pyval) : bool :=
  match py_get data "records" (PList []), py_get data "cursor" PNone with
  | Ok batch_posts, Ok cursor =>
      truthy batch_posts && is_ok (py_iter batch_posts) && negb (truthy cursor)
  | _, _ => false
  end.

(** A body without records. *)
Definition is_empty_page (data : pyval) : bool :=
  match py_get data "records" (PList []) with
  | Ok batch_posts => negb (truthy batch_posts)
  | Raise _ => false
  end.

(** The value that a feature contributes to the sequence of kind [k]: one
    value when its type tag is that of [k], none otherwise. *)
Definition feature_value (k : feature_kind) (feature : pyval) : list pyval :=
  match feature with
  | PDict items =>
      match dict_lookup items "$type" with
      | Some (PStr t) =>
          if String.eqb t (kind_tag k)
          then [match dict_lookup items (kind_field k) with
                | Some v => v
                | None => PStr ""
                end]
          else []
      | _ => []
      end
  | _ => []
  end.

(** The features of a facet, and of all facets of a post, in order. *)
Definition facet_features (facet : pyval) : list pyval :=
  match py_get facet "features" (PList []) with
  | Ok features =>
      match py_iter features with
      | Ok items => items
      | Raise _ => []
      end
  | Raise _ => []
  end.

Definition post_features (value : pyval) : list pyval :=
  match py_get value "facets" (PList []) with
  | Ok facets =>
      match py_iter facets with
      | Ok items => flat_map facet_features items
      | Raise _ => []
      end
  | Raise _ => []
  end.

Fixpoint all_chars (p : ascii -> bool) (s : string) : bool :=
  match s with
  | EmptyString => true
  | String c rest => p c && all_chars p rest
  end.

(** A word: not empty, no whitespace in it. *)
Definition is_word (w : string) : bool :=
  negb (String.eqb w "") && all_chars (fun c => negb (isspace c)) w.

Definition mixed_timestamp_post : pyval :=
  PDict [("uri", PStr "at://did:plc:me/app.bsky.feed.post/3p");
         ("value",
          PDict [("text", PStr "a longer text than the sample has");
                 ("createdAt", PStr "2024-03-02T07:05:00Z");
                 ("reply", PDict [("parent", PStr "at://x")])])].

Definition mixed_facets_post : pyval :=
  PDict [("value",
          PDict [("text", PStr "@a #x http://u #y");
                 ("facets",
                  PList [PDict [("features",
                           PList [PDict [("$type", PStr "app.bsky.richtext.facet#tag");
                                         ("tag", PStr "x")];
                                  PDict [("$type", PStr "app.bsky.richtext.facet#bold")];
                                  PDict [("$type", PStr "app.bsky.richtext.facet#mention");
                                         ("did", PStr "did:plc:a")]])];
                         PDict [("features",
                           PList [PDict [("$type", PStr "app.bsky.richtext.facet#link");
                                         ("uri", PStr "http://u")];
                                  PDict [("$type", PStr "app.bsky.richtext.facet#tag");
                                         ("tag", PStr "y")]])]])])].

(** The number of rows that a grouping lists under the key [k]. *)
Definition group_count (k : Z) (groups : list (Z * nat)) : nat :=
  sum_nat (map snd (filter (fun g => (fst g =? k)%Z) groups)).



(** The word being read, as a string. *)
Definition pending (word : option string) : string :=
  match word with
  | Some w => w
  | None => ""
  end.

(** Groups listed by strictly ascending key. *)
Definition ascending_keys (groups : list (Z * nat)) : Prop :=
  StronglySorted (fun a b => (fst a < fst b)%Z) groups.

(** The session endpoint answered 200. *)
Definition status_200 (answer : auth_answer) : bool :=
  match answer with
  | Status200 _ => true
  | _ => false
  end.

(** Neither [@] nor whitespace in front. *)
Definition starts_clean (s : string) : bool :=
  match s with
  | EmptyString => true
  | String c _ => negb (isspace c) && negb (Ascii.eqb c "@")
  end.

(** A session body with its three keys, and an endpoint that answers 200
    to one identifier only. *)
Definition full_session : pyval :=
  PDict [("accessJwt", PStr "a"); ("refreshJwt", PStr "r");
         ("did", PStr "did:plc:me")].

Definition accepts_only (name : string) : debug_server :=
  fun _ id => if String.eqb id name then Status200 full_session
              else StatusOther 401.

(** * Properties *)

(** ** Equality of scalars is an equivalence *)

Lemma atom_eqb_refl (a : atom) : atom_eqb a a = true.
Proof.
  destruct a as [ | b | q | s ]; simpl.
  - reflexivity.
  - destruct b; reflexivity.
  - apply Qeq_bool_refl.
  - apply String.eqb_refl.
Qed.

Lemma atom_eqb_sym (a b : atom) : atom_eqb a b = atom_eqb b a.
Proof.
  destruct a as [ | x | p | s ], b as [ | y | q | t ]; simpl; try reflexivity.
  - destruct x, y; reflexivity.
  - apply eq_true_iff_eq. rewrite !Qeq_bool_iff. split; intro H; now symmetry.
  - apply eq_true_iff_eq. rewrite !Qeq_bool_iff. split; intro H; now symmetry.
  - apply eq_true_iff_eq. rewrite !Qeq_bool_iff. split; intro H; now symmetry.
  - apply String.eqb_sym.
Qed.

Lemma atom_eqb_value (a b : atom) :
  atom_eqb a b = true ->
  match atom_value a, atom_value b with
  | Some x, Some y => Qeq x y
  | None, None => True
  | _, _ => False
  end.
Proof.
  destruct a as [ | x | p | s ], b as [ | y | q | t ]; simpl;
    try discriminate; try (intros _; exact I); intro H;
    now apply Qeq_bool_iff.
Qed.

Lemma atom_eqb_trans (a b c : atom) :
  atom_eqb a b = true -> atom_eqb b c = true -> atom_eqb a c = true.
Proof.
  intros Hab Hbc.
  pose proof (atom_eqb_value _ _ Hab) as Vab.
  pose proof (atom_eqb_value _ _ Hbc) as Vbc.
  destruct a as [ | x | p | s ], b as [ | y | q | t ], c as [ | z | r | u ];
    simpl in *; try discriminate; try contradiction; try reflexivity;
    try (apply Qeq_bool_iff; etransitivity; eassumption).
  apply String.eqb_eq in Hab, Hbc. subst. apply String.eqb_refl.
Qed.

(** ** Facts about [distinct], [Counter] and the sort *)

Section CounterFacts.

Context {A : Type}.
Variable eqb : A -> A -> bool.
Hypothesis eqb_refl : forall x, eqb x x = true.
Hypothesis eqb_sym : forall x y, eqb x y = eqb y x.
Hypothesis eqb_trans :
  forall x y z, eqb x y = true -> eqb y z = true -> eqb x z = true.

Lemma existsb_filter_le (p q : A -> bool) (l : list A) :
  existsb p (filter q l) = true -> existsb p l = true.
Proof.
  rewrite !existsb_exists. intros [x [Hin Hp]].
  apply filter_In in Hin. exists x. tauto.
Qed.

Lemma no_repeat_filter (q : A -> bool) (l : list A) :
  no_repeat eqb l = true -> no_repeat eqb (filter q l) = true.
Proof.
  induction l as [ | x l IH ]; simpl; [ reflexivity | ].
  rewrite andb_true_iff, negb_true_iff. intros [Hx Hl].
  destruct (q x); simpl; [ | now apply IH ].
  rewrite andb_true_iff, negb_true_iff. split; [ | now apply IH ].
  destruct (existsb (eqb x) (filter q l)) eqn:E; [ | reflexivity ].
  apply existsb_filter_le in E. congruence.
Qed.

Lemma distinct_no_repeat (l : list A) : no_repeat eqb (distinct eqb l) = true.
Proof.
  induction l as [ | x l IH ]; simpl; [ reflexivity | ].
  rewrite andb_true_iff, negb_true_iff. split.
  - destruct (existsb _ _) eqn:E; [ | reflexivity ].
    apply existsb_exists in E. destruct E as [y [Hin Hy]].
    apply filter_In in Hin. destruct Hin as [_ Hn].
    rewrite Hy in Hn. discriminate.
  - now apply no_repeat_filter.
Qed.

Lemma distinct_incl (l : list A) (x : A) : In x (distinct eqb l) -> In x l.
Proof.
  induction l as [ | a l IH ]; simpl; [ tauto | ].
  intros [ -> | Hin ]; [ now left | ].
  apply filter_In in Hin. right. now apply IH.
Qed.

Lemma distinct_covers (l : list A) (x : A) :
  In x l -> existsb (eqb x) (distinct eqb l) = true.
Proof.
  induction l as [ | a l IH ]; simpl; [ tauto | ].
  intros [ -> | Hin ].
  - now rewrite eqb_refl.
  - destruct (eqb x a) eqn:Exa; [ reflexivity | ]. simpl.
    specialize (IH Hin). apply existsb_exists in IH.
    destruct IH as [y [Hy Hxy]].
    apply existsb_exists. exists y. split; [ | exact Hxy ].
    apply filter_In. split; [ exact Hy | ].
    destruct (eqb a y) eqn:Eay; [ | reflexivity ].
    rewrite eqb_sym in Eay.
    rewrite (eqb_trans _ _ _ Hxy Eay) in Exa. discriminate.
Qed.

Lemma distinct_enumerates (l : list A) : enumerates eqb (distinct eqb l) l.
Proof.
  split; [ apply distinct_no_repeat | ].
  split; [ apply distinct_incl | apply distinct_covers ].
Qed.

End CounterFacts.

(** A runtime whose sets keep the order of first insertion. *)
Definition insertion_order_runtime : PyRuntime :=
  {| set_items := distinct atom_eqb;
     set_items_enumerates :=
       distinct_enumerates atom_eqb atom_eqb_refl atom_eqb_sym atom_eqb_trans |}.

(** ** The normalizer *)

(** C10: a feature whose type tag is that of a mention, a hashtag or a link
    but which lacks the value field (did, tag, uri) is not skipped and does
    not raise: the empty string is appended to the sequence of its kind, whose
    length therefore grows by one, and the other two sequences are left
    alone. *)
Theorem feature_without_value_appends_empty_string :
  forall (k : feature_kind) (items : list (string * pyval)) (acc : facet_lists),
    dict_lookup items "$type" = Some (PStr (kind_tag k)) ->
    dict_lookup items (kind_field k) = None ->
    feature_step acc (PDict items) = Ok (kind_append k acc (PStr ""))
    /\ List.length (kind_list k (kind_append k acc (PStr "")))
       = S (List.length (kind_list k acc)).
Proof.
  intros k items [[mentions hashtags] links] Hty Hval.
  split.
  - unfold feature_step. simpl. rewrite Hty.
    destruct k; simpl in *; rewrite Hval; reflexivity.
  - destruct k; simpl; rewrite length_app; simpl; lia.
Qed.

Lemma feature_without_value_witness :
  feature_step ([], [PStr "rocq"], [])
               (PDict [("$type", PStr "app.bsky.richtext.facet#tag")])
  = Ok ([], [PStr "rocq"; PStr ""], [])
  /\ List.length [PStr "rocq"; PStr ""] = 2.
Proof.
  exact (feature_without_value_appends_empty_string Hashtag
           [("$type", PStr "app.bsky.richtext.facet#tag")]
           ([], [PStr "rocq"], []) eq_refl eq_refl).
Defined.

(** *** Splitting on whitespace *)

Lemma split_from_word (s w : string) : split_from s (Some w) <> [].
Proof.
  revert w. induction s as [ | c s IH ]; intro w; simpl.
  - discriminate.
  - destruct (isspace c); [ discriminate | apply IH ].
Qed.

Lemma split_nil_iff (s : string) : split s = [] <-> whitespace_only s = true.
Proof.
  unfold split. induction s as [ | c s IH ]; simpl.
  - tauto.
  - destruct (isspace c); simpl.
    + exact IH.
    + split; [ | discriminate ].
      intro H. now apply split_from_word in H.
Qed.

(** *** Inverting the monadic code *)

Ltac inv_bind H :=
  match type of H with
  | bind ?c _ = Ok _ =>
      let E := fresh "E" in
      destruct c eqn:E; simpl in H; [ | discriminate H ]
  end.

Tactic Notation "inv_bind_as" hyp(H) ident(x) ident(E) :=
  match type of H with
  | bind ?c _ = Ok _ =>
      destruct c as [ x | ] eqn:E; simpl in H; [ | discriminate H ]
  end.

Lemma parsed_posts_In (fromisoformat : string -> option datetime)
      (raw_posts : list pyval) (r : NormalizedRecord) :
  In r (parsed_posts fromisoformat raw_posts) ->
  exists post, In post raw_posts /\ normalize fromisoformat post = Ok r.
Proof.
  induction raw_posts as [ | post rest IH ]; simpl; [ tauto | ].
  destruct (normalize fromisoformat post) as [ r' | e ] eqn:E.
  - intros [ <- | Hin ].
    + exists post. auto.
    + destruct (IH Hin) as [p [Hp Hn]]. exists p. auto.
  - intro Hin. destruct (IH Hin) as [p [Hp Hn]]. exists p. auto.
Qed.

Lemma parsed_posts_app (fromisoformat : string -> option datetime)
      (l1 l2 : list pyval) :
  parsed_posts fromisoformat (l1 ++ l2)
  = (parsed_posts fromisoformat l1 ++ parsed_posts fromisoformat l2)%list.
Proof.
  induction l1 as [ | post rest IH ]; simpl; [ reflexivity | ].
  destruct (normalize fromisoformat post); rewrite IH; reflexivity.
Qed.

(** What [build_record] puts into the derived fields. *)
Lemma build_record_fields (post value : pyval) (timestamp : option datetime)
      (r : NormalizedRecord) :
  build_record post value timestamp = Ok r ->
  created_at r = timestamp
  /\ hour r = option_map dt_hour timestamp
  /\ day_of_week r = option_map weekday timestamp
  /\ date r = option_map dt_date timestamp
  /\ py_len (text r) = Ok (char_count r)
  /\ (word_count r = 0 <-> blank_text (text r) = true)
  /\ mention_count r = List.length (mentions r)
  /\ hashtag_count r = List.length (hashtags r)
  /\ link_count r = List.length (links r).
Proof.
  unfold build_record. intro H.
  inv_bind_as H txt Etxt. inv_bind H. inv_bind H. inv_bind_as H lists El.
  destruct lists as [[ms hs] ls].
  inv_bind H. inv_bind H. inv_bind H. inv_bind H. inv_bind H.
  inv_bind_as H n Elen. inv_bind_as H w Ew. injection H as <-. simpl.
  repeat (split; [ reflexivity | ]).
  split; [ exact Elen | ].
  split; [ | repeat split ].
  destruct txt as [ [ | b | q | s ] | items | items ]; simpl in *;
    try discriminate.
  - destruct (negb (s =? "")%string) eqn:Es; simpl in Ew.
    + injection Ew as <-. rewrite <- split_nil_iff.
      split; [ apply length_zero_iff_nil | intros ->; reflexivity ].
    + injection Ew as <-. apply negb_false_iff, String.eqb_eq in Es.
      subst s. simpl. tauto.
  - destruct items; simpl in *; [ injection Ew as <-; tauto | discriminate ].
  - destruct items; simpl in *; [ injection Ew as <-; tauto | discriminate ].
Qed.

(** C8: every record the normalizer produces has [char_count] equal to the
    length of its text, [word_count] zero exactly when the text is empty or
    whitespace-only, and [mention_count], [hashtag_count] and [link_count]
    equal to the lengths of the [mentions], [hashtags] and [links]
    sequences. *)
Theorem record_invariants :
  forall (fromisoformat : string -> option datetime) (raw_posts : list pyval)
         (r : NormalizedRecord),
    In r (parsed_posts fromisoformat raw_posts) ->
    py_len (text r) = Ok (char_count r)
    /\ (word_count r = 0 <-> blank_text (text r) = true)
    /\ mention_count r = List.length (mentions r)
    /\ hashtag_count r = List.length (hashtags r)
    /\ link_count r = List.length (links r).
Proof.
  intros fromisoformat raw_posts r Hin.
  apply parsed_posts_In in Hin. destruct Hin as [post [_ Hn]].
  unfold normalize in Hn. inv_bind Hn. inv_bind Hn.
  apply build_record_fields in Hn. tauto.
Qed.

Lemma sample_post_normalized : normalize iso_parse sample_post = Ok sample_record.
Proof. vm_compute. reflexivity. Qed.

Lemma record_invariants_witness :
  In sample_record (parsed_posts iso_parse [sample_post])
  /\ py_len (text sample_record) = Ok (char_count sample_record)
  /\ (word_count sample_record = 0 <-> blank_text (text sample_record) = true)
  /\ mention_count sample_record = List.length (mentions sample_record)
  /\ hashtag_count sample_record = List.length (hashtags sample_record)
  /\ link_count sample_record = List.length (links sample_record).
Proof.
  assert (Hin : In sample_record (parsed_posts iso_parse [sample_post])).
  { vm_compute. left. reflexivity. }
  split; [ exact Hin | ].
  exact (record_invariants iso_parse [sample_post] sample_record Hin).
Defined.

(** *** Malformed records *)

Lemma normalize_invalid_value (fromisoformat : string -> option datetime)
      (post : pyval) :
  invalid_value post = true -> normalize fromisoformat post = Raise AttributeError.
Proof.
  destruct post as [ a | l | items ]; simpl; try discriminate.
  unfold normalize. simpl.
  destruct (dict_lookup items "value") as [ [ a | l | d ] | ];
    simpl; try discriminate; reflexivity.
Qed.

Lemma normalize_missing_value (fromisoformat : string -> option datetime)
      (post : pyval) :
  missing_value post = true ->
  normalize fromisoformat post
  = Ok (blank_record (field_or_empty post "uri") (field_or_empty post "cid")).
Proof.
  destruct post as [ a | l | items ]; simpl; try discriminate.
  unfold normalize. simpl.
  destruct (dict_lookup items "value"); [ discriminate | ].
  intros _. reflexivity.
Qed.

Lemma parsed_posts_skip (fromisoformat : string -> option datetime)
      (pre suf : list pyval) (post : pyval) (e : exn) :
  normalize fromisoformat post = Raise e ->
  parsed_posts fromisoformat (pre ++ post :: suf)
  = (parsed_posts fromisoformat pre ++ parsed_posts fromisoformat suf)%list.
Proof.
  intro H. rewrite parsed_posts_app. simpl. rewrite H. reflexivity.
Qed.

Lemma parsed_posts_keep (fromisoformat : string -> option datetime)
      (pre suf : list pyval) (post : pyval) (r : NormalizedRecord) :
  normalize fromisoformat post = Ok r ->
  parsed_posts fromisoformat (pre ++ post :: suf)
  = (parsed_posts fromisoformat pre ++ r :: parsed_posts fromisoformat suf)%list.
Proof.
  intro H. rewrite parsed_posts_app. simpl. rewrite H. reflexivity.
Qed.

Lemma parsed_posts_length (fromisoformat : string -> option datetime)
      (raw_posts : list pyval) :
  forallb (fun p => is_ok (normalize fromisoformat p)) raw_posts = true ->
  List.length (parsed_posts fromisoformat raw_posts) = List.length raw_posts.
Proof.
  induction raw_posts as [ | post rest IH ]; simpl; [ reflexivity | ].
  destruct (normalize fromisoformat post); simpl; [ | discriminate ].
  intro H. now rewrite IH.
Qed.

(** C5, as the code has it: a record whose [value] field is present but is
    not a mapping is skipped, wherever it stands in the batch: the table
    holds the records of the other posts in their order, so a batch whose
    other posts are well formed loses exactly one row (9 rows from 10).  A
    record whose [value] field is missing is not skipped: it becomes a row
    with empty text and no timestamp. *)
Theorem invalid_value_is_skipped :
  forall (fromisoformat : string -> option datetime)
         (pre suf : list pyval) (post : pyval),
    (invalid_value post = true ->
     parsed_posts fromisoformat (pre ++ post :: suf)
     = parsed_posts fromisoformat (pre ++ suf)
     /\ (forallb (fun p => is_ok (normalize fromisoformat p)) (pre ++ suf) = true ->
         List.length (parsed_posts fromisoformat (pre ++ post :: suf))
         = List.length pre + List.length suf))
    /\ (missing_value post = true ->
        parsed_posts fromisoformat (pre ++ post :: suf)
        = (parsed_posts fromisoformat pre
           ++ blank_record (field_or_empty post "uri") (field_or_empty post "cid")
           :: parsed_posts fromisoformat suf)%list).
Proof.
  intros fromisoformat pre suf post. split.
  - intro Hinv.
    assert (Hskip : parsed_posts fromisoformat (pre ++ post :: suf)
                    = parsed_posts fromisoformat (pre ++ suf)).
    { rewrite (parsed_posts_skip _ _ _ _ _ (normalize_invalid_value _ _ Hinv)).
      now rewrite parsed_posts_app. }
    split; [ exact Hskip | ].
    intro Hok. rewrite Hskip, (parsed_posts_length _ _ Hok).
    apply length_app.
  - intro Hmiss.
    apply parsed_posts_keep, normalize_missing_value, Hmiss.
Qed.

Lemma invalid_value_witness :
  List.length batch_with_null_value = 10
  /\ parsed_posts iso_parse batch_with_null_value
     = parsed_posts iso_parse (numbered_posts 0 3 ++ numbered_posts 4 6)
  /\ List.length (parsed_posts iso_parse batch_with_null_value) = 9
  /\ parsed_posts iso_parse batch_with_missing_value
     = (parsed_posts iso_parse (numbered_posts 0 3)
        ++ blank_record (PStr "") (PNum 3)
        :: parsed_posts iso_parse (numbered_posts 4 6))%list.
Proof.
  pose proof (invalid_value_is_skipped iso_parse (numbered_posts 0 3)
                (numbered_posts 4 6) (PDict [("cid", PNum 3); ("value", PNone)]))
    as [Hinv _].
  pose proof (invalid_value_is_skipped iso_parse (numbered_posts 0 3)
                (numbered_posts 4 6) (PDict [("cid", PNum 3)]))
    as [_ Hmiss].
  specialize (Hinv eq_refl). destruct Hinv as [Hskip Hlen].
  split; [ reflexivity | ].
  split; [ exact Hskip | ].
  split; [ exact (Hlen eq_refl) | exact (Hmiss eq_refl) ].
Defined.

(** C5 as stated fails when the [value] field is missing: the batch of ten
    yields ten rows, not nine. *)
Lemma missing_value_is_not_skipped :
  List.length batch_with_missing_value = 10
  /\ nth_error batch_with_missing_value 3 = Some (PDict [("cid", PNum 3)])
  /\ dict_lookup [("cid", PNum 3)] "value" = None
  /\ List.length (parsed_posts iso_parse batch_with_missing_value) = 10
  /\ List.length (parsed_posts iso_parse batch_with_missing_value) <> 9.
Proof.
  repeat split; try reflexivity.
  vm_compute. discriminate.
Qed.

(** *** Timestamps that are absent or cannot be parsed *)

Lemma build_record_ok_any_timestamp (post value : pyval)
      (t1 t2 : option datetime) :
  is_ok (build_record post value t1) = is_ok (build_record post value t2).
Proof.
  unfold build_record.
  repeat match goal with
         | |- context [bind ?c _] =>
             match c with
             | context [bind] => fail 1
             | _ => destruct c; simpl; try reflexivity
             end
         | |- context [match ?x with pair _ _ => _ end] =>
             is_var x; destruct x; simpl
         end.
  all: reflexivity.
Qed.

(** C2, as the code has it.  For a post whose [value] is a mapping:
    when [createdAt] is absent or empty (any falsy value), reading the
    timestamp never causes a skip: the post is normalized exactly as the rest
    of its fields allow, and the record has a null [created_at] and null
    [hour], [day_of_week] and [date]; when [createdAt] is a non-empty string
    that [fromisoformat] rejects, the post raises [ValueError] and is left
    out of the table, the batch going on with the next post. *)
Theorem absent_timestamp_is_null_unparseable_is_skipped :
  forall (fromisoformat : string -> option datetime) (post value stamp : pyval),
    py_get post "value" (PDict []) = Ok value ->
    py_get value "createdAt" (PStr "") = Ok stamp ->
    (truthy stamp = false ->
     normalize fromisoformat post = build_record post value None
     /\ (forall t, is_ok (normalize fromisoformat post)
                   = is_ok (build_record post value t))
     /\ (forall r, normalize fromisoformat post = Ok r ->
                   created_at r = None /\ hour r = None
                   /\ day_of_week r = None /\ date r = None))
    /\ (forall s, stamp = PStr s -> s <> "" ->
                  fromisoformat (replace_Z s) = None ->
                  normalize fromisoformat post = Raise ValueError
                  /\ forall pre suf,
                      parsed_posts fromisoformat (pre ++ post :: suf)
                      = parsed_posts fromisoformat (pre ++ suf)).
Proof.
  intros fromisoformat post value stamp Hvalue Hstamp. split.
  - intro Hfalsy.
    assert (Hn : normalize fromisoformat post = build_record post value None).
    { unfold normalize, parse_timestamp. rewrite Hvalue. simpl.
      rewrite Hstamp. simpl. rewrite Hfalsy. reflexivity. }
    split; [ exact Hn | ]. split.
    + intro t. rewrite Hn. apply build_record_ok_any_timestamp.
    + intros r Hr. rewrite Hn in Hr.
      apply build_record_fields in Hr.
      destruct Hr as (H1 & H2 & H3 & H4 & _). auto.
  - intros s -> Hs Hparse.
    assert (Hn : normalize fromisoformat post = Raise ValueError).
    { unfold normalize, parse_timestamp. rewrite Hvalue. simpl.
      rewrite Hstamp. simpl.
      destruct (String.eqb_spec s ""); [ contradiction | ]. simpl.
      rewrite Hparse. reflexivity. }
    split; [ exact Hn | ].
    intros pre suf. rewrite (parsed_posts_skip _ _ _ _ _ Hn).
    now rewrite parsed_posts_app.
Qed.

Lemma absent_timestamp_witness :
  (exists r, normalize iso_parse post_without_timestamp = Ok r
             /\ text r = PStr "no clock"
             /\ created_at r = None /\ hour r = None
             /\ day_of_week r = None /\ date r = None)
  /\ normalize iso_parse post_with_bad_timestamp = Raise ValueError
  /\ parsed_posts iso_parse [sample_post; post_with_bad_timestamp; sample_post]
     = parsed_posts iso_parse [sample_post; sample_post].
Proof.
  split.
  - destruct (normalize iso_parse post_without_timestamp) as [ r | e ] eqn:E;
      [ | vm_compute in E; discriminate E ].
    exists r.
    destruct (absent_timestamp_is_null_unparseable_is_skipped iso_parse
                post_without_timestamp
                (PDict [("text", PStr "no clock")]) (PStr "")
                eq_refl eq_refl) as [Habsent _].
    destruct (Habsent eq_refl) as (_ & _ & Hnull).
    rewrite E in Hnull. specialize (Hnull r eq_refl).
    split; [ reflexivity | ].
    split; [ | exact Hnull ].
    vm_compute in E. injection E as <-. reflexivity.
  - destruct (absent_timestamp_is_null_unparseable_is_skipped iso_parse
                post_with_bad_timestamp
                (PDict [("text", PStr "bad clock");
                        ("createdAt", PStr "yesterday at noon")])
                (PStr "yesterday at noon") eq_refl eq_refl) as [_ Hbad].
    assert (Hne : "yesterday at noon" <> "") by discriminate.
    destruct (Hbad "yesterday at noon" eq_refl Hne eq_refl) as [Hraise Hskip].
    split; [ exact Hraise | ].
    exact (Hskip [sample_post] [sample_post]).
Defined.

(** C2 as stated fails for a timestamp that cannot be parsed: the post is
    skipped, no record with a null [created_at] is produced. *)
Lemma unparseable_timestamp_skips_record :
  py_get post_with_bad_timestamp "value" (PDict [])
  = Ok (PDict [("text", PStr "bad clock"); ("createdAt", PStr "yesterday at noon")])
  /\ iso_parse (replace_Z "yesterday at noon") = None
  /\ parsed_posts iso_parse [post_with_bad_timestamp] = []
  /\ ~ (exists r, In r (parsed_posts iso_parse [post_with_bad_timestamp])
                  /\ created_at r = None).
Proof.
  repeat split; try reflexivity.
  intros [r [Hin _]]. vm_compute in Hin. exact Hin.
Qed.

(** ** The fetcher *)

Lemma fetch_final_page (access_jwt : pyval) (limit : option Z)
      (records : list pyval) (later : list response) :
  truthy access_jwt = true ->
  records <> [] ->
  fetch_posts access_jwt limit (Body (page records None) :: later)
  = Some (Ok records).
Proof.
  intros Hjwt Hne. unfold fetch_posts. rewrite Hjwt. simpl.
  destruct records as [ | r rs ]; [ contradiction | reflexivity ].
Qed.

(** The cap does cut the list when the page that reaches it names a next
    page. *)
Lemma fetch_capped_page (access_jwt : pyval) (cap : Z) (cursor : string)
      (records : list pyval) (later : list response) :
  truthy access_jwt = true ->
  cursor <> "" ->
  (0 < cap <= Z.of_nat (List.length records))%Z ->
  fetch_posts access_jwt (Some cap) (Body (page records (Some cursor)) :: later)
  = Some (Ok (firstn (Z.to_nat cap) records)).
Proof.
  intros Hjwt Hc Hcap. unfold fetch_posts. rewrite Hjwt. simpl.
  unfold fetch_page. simpl.
  destruct records as [ | r rs ]; [ simpl in Hcap; lia | ].
  cbn [truthy negb py_iter py_len bind app].
  destruct (String.eqb_spec cursor ""); [ contradiction | ].
  cbn [negb]. unfold limit_reached. rewrite ?Z.add_0_l.
  assert (Hnz : (cap =? 0)%Z = false) by (apply Z.eqb_neq; lia).
  assert (Hle : (cap <=? Z.of_nat (List.length (r :: rs)))%Z = true)
    by (apply Z.leb_le; lia).
  assert (Hpos : (0 <=? cap)%Z = true) by (apply Z.leb_le; lia).
  rewrite Hnz, Hle. cbn [negb andb truncate]. unfold slice_to.
  rewrite Hpos. reflexivity.
Qed.

(** C1 fails on the code: with a cap of 50 and a single page of 70 records
    that carries no cursor, [fetch_posts] leaves the loop at the cursor test,
    before the cap is looked at, and returns all 70 records. *)
Theorem cap_ignored_on_final_page :
  fetch_posts (PStr "jwt") (Some 50%Z) [Body (page (numbered_posts 0 70) None)]
  = Some (Ok (numbered_posts 0 70))
  /\ List.length (numbered_posts 0 70) = 70
  /\ numbered_posts 0 70 <> firstn 50 (numbered_posts 0 70).
Proof.
  split; [ | split ].
  - apply fetch_final_page; [ reflexivity | discriminate ].
  - reflexivity.
  - intro H. apply (f_equal (@List.length pyval)) in H.
    vm_compute in H. discriminate H.
Qed.

Lemma fetch_page_continue (limit : option Z) (posts : list pyval)
      (total_fetched : Z) (data : pyval) (items : list pyval)
      (cursor : pyval) (total' : Z) :
  fetch_page limit [] total_fetched data = Ok (Continue items cursor total') ->
  fetch_page limit posts total_fetched data
  = Ok (Continue (posts ++ records_of data) cursor total').
Proof.
  unfold fetch_page, records_of.
  destruct (py_get data "records" (PList [])) as [ batch | e ];
    simpl; [ | discriminate ].
  destruct (truthy batch); simpl; [ | discriminate ].
  destruct (py_iter batch) as [ its | e ]; simpl; [ | discriminate ].
  destruct (py_len batch) as [ n | e ]; simpl; [ | discriminate ].
  destruct (py_get data "cursor" PNone) as [ c | e ]; simpl; [ | discriminate ].
  destruct (truthy c); simpl; [ | discriminate ].
  destruct (limit_reached limit (total_fetched + Z.of_nat n));
    [ discriminate | ].
  intro H. injection H as _ <- <-. reflexivity.
Qed.

Lemma fetch_loop_error (limit : option Z) (bodies : list pyval)
      (later : list response) :
  forall (posts : list pyval) (cursor : pyval) (total_fetched : Z),
    continues limit total_fetched bodies = true ->
    fetch_loop limit (map Body bodies ++ RequestException :: later)
               posts cursor total_fetched
    = Some (Ok (posts ++ flat_map records_of bodies)%list).
Proof.
  induction bodies as [ | data more IH ]; intros posts cursor total Hc; simpl.
  - now rewrite app_nil_r.
  - simpl in Hc.
    destruct (fetch_page limit [] total data) as [ [ items c t | ps ] | e ] eqn:E;
      try discriminate.
    rewrite (fetch_page_continue _ posts _ _ _ _ _ E).
    rewrite (IH _ _ _ Hc). now rewrite <- app_assoc.
Qed.

(** C9: when the request for page N raises a transport error after the loop
    went on past pages 1..N-1, [fetch_posts] neither raises nor drops
    anything: it returns the records of those pages in arrival order (the
    empty list when the first request fails).  The run of [main] goes on with
    that list: an empty one ends it with "No posts found", any other is
    normalized and analyzed. *)
Theorem transport_error_keeps_earlier_pages :
  forall (fromisoformat : string -> option datetime) (rt : PyRuntime)
         (access_jwt : pyval) (limit : option Z) (bodies : list pyval)
         (later : list response),
    truthy access_jwt = true ->
    continues limit 0%Z bodies = true ->
    let server := (map Body bodies ++ RequestException :: later)%list in
    let partial := flat_map records_of bodies in
    fetch_posts access_jwt limit server = Some (Ok partial)
    /\ main_pipeline fromisoformat rt access_jwt limit server
       = Some (match partial with
               | [] => NoPostsFound
               | _ =>
                   match analyze_posts rt (parse_posts fromisoformat partial) with
                   | Ok analysis =>
                       Completed (parse_posts fromisoformat partial) analysis
                   | Raise e => ErrorOccurred e
                   end
               end).
Proof.
  intros fromisoformat rt access_jwt limit bodies later Hjwt Hc server partial.
  assert (Hf : fetch_posts access_jwt limit server = Some (Ok partial)).
  { unfold fetch_posts. rewrite Hjwt. simpl.
    unfold server. now rewrite (fetch_loop_error _ _ _ _ _ _ Hc). }
  split; [ exact Hf | ].
  unfold main_pipeline. rewrite Hf.
  destruct partial as [ | p ps ]; [ reflexivity | ].
  cbn [truthy negb].
  destruct (analyze_posts rt (parse_posts fromisoformat (p :: ps))); reflexivity.
Qed.

Lemma transport_error_witness :
  fetch_posts (PStr "jwt") (Some 250%Z)
    [Body (page (numbered_posts 0 100) (Some "c1"));
     Body (page (numbered_posts 100 100) (Some "c2"));
     RequestException;
     Body (page (numbered_posts 200 100) None)]
  = Some (Ok (numbered_posts 0 100 ++ numbered_posts 100 100)%list)
  /\ fetch_posts (PStr "jwt") None [RequestException] = Some (Ok [])
  /\ main_pipeline iso_parse insertion_order_runtime (PStr "jwt") None
       [RequestException]
     = Some NoPostsFound.
Proof.
  destruct (transport_error_keeps_earlier_pages iso_parse insertion_order_runtime
              (PStr "jwt") (Some 250%Z)
              [page (numbered_posts 0 100) (Some "c1");
               page (numbered_posts 100 100) (Some "c2")]
              [Body (page (numbered_posts 200 100) None)]
              eq_refl eq_refl) as [H1 _].
  destruct (transport_error_keeps_earlier_pages iso_parse insertion_order_runtime
              (PStr "jwt") None [] [] eq_refl eq_refl) as [H2 H3].
  split; [ exact H1 | split; [ exact H2 | exact H3 ] ].
Defined.

(** ** Sets: the size does not depend on the enumeration *)

Section SetFacts.

Context {A : Type}.
Variable eqb : A -> A -> bool.
Hypothesis eqb_sym : forall x y, eqb x y = eqb y x.
Hypothesis eqb_trans :
  forall x y z, eqb x y = true -> eqb y z = true -> eqb x z = true.

Lemma no_repeat_covered_le (s : list A) :
  forall d : list A,
    no_repeat eqb s = true ->
    (forall x, In x s -> existsb (eqb x) d = true) ->
    List.length s <= List.length d.
Proof.
  induction s as [ | x s IH ]; intros d Hs Hcov; simpl; [ lia | ].
  simpl in Hs. apply andb_true_iff in Hs. destruct Hs as [Hx Hs].
  apply negb_true_iff in Hx.
  destruct (proj1 (existsb_exists _ _) (Hcov x (or_introl eq_refl)))
    as [y [Hy Hxy]].
  destruct (in_split _ _ Hy) as [d1 [d2 ->]].
  rewrite length_app. simpl.
  enough (List.length s <= List.length (d1 ++ d2)) by (rewrite length_app in *; lia).
  apply IH; [ exact Hs | ].
  intros z Hz.
  destruct (proj1 (existsb_exists _ _) (Hcov z (or_intror Hz))) as [w [Hw Hzw]].
  apply existsb_exists. exists w. split; [ | exact Hzw ].
  apply in_app_or in Hw. apply in_or_app.
  destruct Hw as [ Hw | [ <- | Hw ] ]; [ now left | | now right ].
  exfalso.
  assert (Hxz : eqb x z = true).
  { apply eqb_trans with y; [ exact Hxy | now rewrite eqb_sym ]. }
  assert (Hex : existsb (eqb x) s = true).
  { apply existsb_exists. exists z. auto. }
  congruence.
Qed.

Lemma enumerates_length (l s1 s2 : list A) :
  enumerates eqb s1 l -> enumerates eqb s2 l ->
  List.length s1 = List.length s2.
Proof.
  intros (N1 & I1 & C1) (N2 & I2 & C2).
  apply Nat.le_antisymm; apply no_repeat_covered_le; auto.
Qed.

End SetFacts.

Lemma set_items_length (rt : PyRuntime) (keys : list atom) :
  List.length (set_items rt keys) = List.length (distinct atom_eqb keys).
Proof.
  apply (enumerates_length atom_eqb atom_eqb_sym atom_eqb_trans keys).
  - apply set_items_enumerates.
  - apply distinct_enumerates;
      [ apply atom_eqb_refl | apply atom_eqb_sym | apply atom_eqb_trans ].
Qed.

(** ** The aggregator *)

Lemma hashtags_of_any_runtime (rt1 rt2 : PyRuntime) (df : DataFrame) :
  hashtags_of rt1 df = hashtags_of rt2 df.
Proof.
  unfold hashtags_of.
  destruct (column df hashtags) as [ col | e ]; simpl; [ | reflexivity ].
  destruct (mapM to_atom (List.concat col)) as [ keys | e ]; simpl;
    [ | reflexivity ].
  now rewrite !set_items_length.
Qed.

(** C7: the report is a function of the table alone.  The only part of the
    computation that may differ from one run to the next is the order in
    which a [set] holds its members, and the report does not depend on it:
    two runs on the same table, under any two runtimes, end alike (the same
    report, or the same exception). *)
Theorem analyze_posts_deterministic :
  forall (rt1 rt2 : PyRuntime) (df : DataFrame),
    analyze_posts rt1 df = analyze_posts rt2 df.
Proof.
  intros rt1 rt2 df. unfold analyze_posts.
  now rewrite (hashtags_of_any_runtime rt1 rt2).
Qed.

Lemma analyze_empty_frame (rt : PyRuntime) :
  analyze_posts rt (Frame []) = Ok empty_report.
Proof.
  unfold analyze_posts, hashtags_of. simpl.
  rewrite set_items_length. reflexivity.
Qed.

(** C3 fails on the code: when no raw post yields a row, the table that
    [parse_posts] builds has no columns, and [analyze_posts] raises
    [KeyError] at [df["char_count"]], the first column it reads without
    testing [df.empty]: no report is returned. *)
Theorem analyze_empty_table_raises :
  forall (fromisoformat : string -> option datetime) (rt : PyRuntime)
         (raw_posts : list pyval),
    parsed_posts fromisoformat raw_posts = [] ->
    df_len (parse_posts fromisoformat raw_posts) = 0
    /\ analyze_posts rt (parse_posts fromisoformat raw_posts) = Raise KeyError.
Proof.
  intros fromisoformat rt raw_posts Hnone.
  unfold parse_posts. rewrite Hnone. split; reflexivity.
Qed.

Lemma analyze_empty_table_witness :
  df_len (parse_posts iso_parse [PDict [("cid", PNum 3); ("value", PNone)]]) = 0
  /\ analyze_posts insertion_order_runtime
       (parse_posts iso_parse [PDict [("cid", PNum 3); ("value", PNone)]])
     = Raise KeyError.
Proof.
  exact (analyze_empty_table_raises iso_parse insertion_order_runtime
           [PDict [("cid", PNum 3); ("value", PNone)]] eq_refl).
Defined.

(** The same input through [main]: one page holding one malformed record. *)
Example main_on_malformed_page :
  main_pipeline iso_parse insertion_order_runtime (PStr "jwt") None
    [Body (page [PDict [("cid", PNum 3); ("value", PNone)]] None)]
  = Some (ErrorOccurred KeyError).
Proof. reflexivity. Qed.

Lemma present_all_null (rows : list NormalizedRecord) :
  forallb null_timestamp rows = true -> present (map created_at rows) = [].
Proof.
  induction rows as [ | r rows IH ]; simpl; [ reflexivity | ].
  unfold null_timestamp at 1.
  destruct (created_at r); simpl; [ discriminate | exact IH ].
Qed.

Lemma analyze_all_null_rows (rt : PyRuntime) (rows : list NormalizedRecord) :
  rows <> [] ->
  forallb null_timestamp rows = true ->
  analyze_posts rt (Frame rows) = Raise AttributeError.
Proof.
  intros Hne Hnull.
  unfold analyze_posts, date_range_of. simpl.
  destruct rows as [ | r rows ]; [ contradiction | ].
  cbn [df_empty df_rows negb]. unfold extreme.
  rewrite (present_all_null _ Hnull). reflexivity.
Qed.

(** C4 fails on the code: on a non-empty table whose rows all have a null
    [created_at], the minimum of the column is NaN, which has no [strftime],
    and [analyze_posts] raises [AttributeError] while building
    [date_range]: no report is returned. *)
Theorem analyze_all_null_timestamps_raises :
  forall (rt : PyRuntime) (rows : list NormalizedRecord),
    rows <> [] ->
    forallb null_timestamp rows = true ->
    analyze_posts rt (Frame rows) = Raise AttributeError.
Proof.
  intros rt rows Hne Hnull. now apply analyze_all_null_rows.
Qed.

Lemma analyze_all_null_timestamps_witness :
  List.length (parsed_posts iso_parse [post_without_timestamp]) = 1
  /\ analyze_posts insertion_order_runtime
       (parse_posts iso_parse [post_without_timestamp])
     = Raise AttributeError.
Proof.
  split; [ reflexivity | ].
  assert (Hne : parsed_posts iso_parse [post_without_timestamp] <> [])
    by (vm_compute; discriminate).
  exact (analyze_all_null_timestamps_raises insertion_order_runtime
           (parsed_posts iso_parse [post_without_timestamp]) Hne eq_refl).
Defined.

(** ** [Counter] and [most_common] against their description *)

Section TallyFacts.

Context {A : Type}.
Variable eqb : A -> A -> bool.
Hypothesis eqb_refl : forall x, eqb x x = true.
Hypothesis eqb_sym : forall x y, eqb x y = eqb y x.
Hypothesis eqb_trans :
  forall x y z, eqb x y = true -> eqb y z = true -> eqb x z = true.

Lemma count_of_app (x : A) (l1 l2 : list A) :
  count_of eqb x (l1 ++ l2) = count_of eqb x l1 + count_of eqb x l2.
Proof.
  unfold count_of. now rewrite filter_app, length_app.
Qed.

Lemma count_of_absent (x : A) (l : list A) :
  existsb (fun y => eqb y x) l = false -> count_of eqb x l = 0.
Proof.
  unfold count_of. induction l as [ | a l IH ]; simpl; [ reflexivity | ].
  rewrite orb_false_iff. intros [Ha Hl].
  rewrite eqb_sym, Ha. now apply IH.
Qed.

Lemma existsb_distinct (x : A) (l : list A) :
  existsb (fun y => eqb y x) (distinct eqb l) = existsb (fun y => eqb y x) l.
Proof.
  apply eq_true_iff_eq. rewrite !existsb_exists. split.
  - intros [y [Hy Hyx]]. exists y. split; [ | exact Hyx ].
    now apply (distinct_incl eqb).
  - intros [y [Hy Hyx]].
    pose proof (distinct_covers eqb eqb_refl eqb_sym eqb_trans l y Hy) as Hc.
    apply existsb_exists in Hc. destruct Hc as [z [Hz Hyz]].
    exists z. split; [ exact Hz | ].
    apply eqb_trans with y; [ now rewrite eqb_sym | exact Hyx ].
Qed.

Lemma distinct_snoc (l : list A) (x : A) :
  distinct eqb (l ++ [x])
  = (distinct eqb l
     ++ if existsb (fun y => eqb y x) l then [] else [x])%list.
Proof.
  induction l as [ | a l IH ]; simpl; [ reflexivity | ].
  rewrite IH, filter_app. f_equal. f_equal.
  destruct (existsb (fun y => eqb y x) l); simpl.
  - now rewrite orb_true_r.
  - rewrite orb_false_r. destruct (eqb a x); reflexivity.
Qed.

(** Incrementing a key of a table whose keys are pairwise different. *)
Lemma counter_incr_map (x : A) (f : A -> nat) (keys : list A) :
  no_repeat eqb keys = true ->
  counter_incr eqb x (map (fun k => (k, f k)) keys)
  = (map (fun k => (k, f k + if eqb k x then 1 else 0)) keys
     ++ if existsb (fun k => eqb k x) keys then [] else [(x, 1)])%list.
Proof.
  induction keys as [ | k keys IH ]; simpl; [ reflexivity | ].
  rewrite andb_true_iff, negb_true_iff. intros [Hk Hkeys].
  destruct (eqb k x) eqn:Ekx; simpl.
  - rewrite app_nil_r. f_equal; [ f_equal; lia | ].
    apply map_ext_in. intros k' Hk'.
    destruct (eqb k' x) eqn:Ek'x; [ | f_equal; lia ].
    exfalso.
    assert (Hkk' : eqb k k' = true).
    { apply eqb_trans with x; [ exact Ekx | now rewrite eqb_sym ]. }
    assert (Hex : existsb (eqb k) keys = true).
    { apply existsb_exists. exists k'. auto. }
    congruence.
  - rewrite (IH Hkeys). f_equal. f_equal. lia.
Qed.

Lemma tally_snoc (l : list A) (x : A) :
  tally eqb (l ++ [x]) = counter_incr eqb x (tally eqb l).
Proof.
  unfold tally.
  rewrite (counter_incr_map x (fun k => count_of eqb k l) (distinct eqb l)
             (distinct_no_repeat eqb l)).
  rewrite distinct_snoc, map_app, existsb_distinct. f_equal.
  - apply map_ext. intro k. rewrite count_of_app. f_equal. f_equal.
    unfold count_of. simpl. destruct (eqb k x); reflexivity.
  - destruct (existsb (fun y => eqb y x) l) eqn:E; simpl; [ reflexivity | ].
    rewrite count_of_app, (count_of_absent _ _ E).
    unfold count_of. simpl. now rewrite eqb_refl.
Qed.

(** [Counter(l)] lists the distinct items of [l] in first-encounter order,
    each with the number of its occurrences. *)
Lemma Counter_tally (l : list A) : Counter eqb l = tally eqb l.
Proof.
  induction l as [ | x l IH ] using rev_ind; [ reflexivity | ].
  unfold Counter in *. rewrite fold_left_app. simpl.
  now rewrite IH, tally_snoc.
Qed.

(** *** The stable sort *)

Lemma insert_desc_perm (e : A * nat) (s : list (A * nat)) :
  Permutation (insert_desc e s) (e :: s).
Proof.
  induction s as [ | e' s IH ]; simpl; [ reflexivity | ].
  destruct (snd e' <=? snd e); [ reflexivity | ].
  rewrite IH. apply perm_swap.
Qed.

Lemma sorted_desc_perm (c : list (A * nat)) : Permutation (sorted_desc c) c.
Proof.
  induction c as [ | e c IH ]; simpl; [ reflexivity | ].
  rewrite insert_desc_perm. now apply perm_skip.
Qed.

Section Stable.

(** [before e1 e2]: [e1] stands before [e2] in the list being sorted. *)
Variable before : A * nat -> A * nat -> Prop.

Lemma insert_desc_sorted (e : A * nat) (s : list (A * nat)) :
  Forall (before e) s ->
  StronglySorted (by_count_then before) s ->
  StronglySorted (by_count_then before) (insert_desc e s).
Proof.
  induction s as [ | e' s IH ]; intros Hb Hs; simpl.
  - constructor; constructor.
  - inversion Hb as [ | ? ? Hbe' Hbs ]; subst.
    inversion Hs as [ | ? ? Hs' He' ]; subst.
    destruct (Nat.leb_spec (snd e') (snd e)) as [ Hle | Hgt ].
    + constructor; [ exact Hs | ].
      constructor.
      * unfold by_count_then. destruct (Nat.eq_dec (snd e') (snd e)); [ right | left ].
        -- split; [ now symmetry | exact Hbe' ].
        -- lia.
      * rewrite Forall_forall in *. intros z Hz.
        specialize (He' z Hz). specialize (Hbs z Hz).
        unfold by_count_then in *.
        destruct (Nat.eq_dec (snd z) (snd e)); [ right | left ].
        -- split; [ now symmetry | exact Hbs ].
        -- lia.
    + constructor; [ now apply IH | ].
      rewrite Forall_forall in *. intros z Hz.
      apply (Permutation_in _ (insert_desc_perm e s)) in Hz.
      destruct Hz as [ <- | Hz ]; [ left; exact Hgt | now apply He' ].
Qed.

Lemma sorted_desc_sorted (c : list (A * nat)) :
  StronglySorted before c ->
  StronglySorted (by_count_then before) (sorted_desc c).
Proof.
  induction c as [ | e c IH ]; intro Hs; simpl; [ constructor | ].
  inversion Hs as [ | ? ? Hs' He ]; subst.
  apply insert_desc_sorted; [ | now apply IH ].
  rewrite Forall_forall in *. intros z Hz.
  apply He. now apply (Permutation_in _ (sorted_desc_perm c)).
Qed.

End Stable.

(** *** First-encounter order *)

Lemma StronglySorted_filter {B : Type} (R : B -> B -> Prop) (p : B -> bool)
      (l : list B) :
  StronglySorted R l -> StronglySorted R (filter p l).
Proof.
  induction 1 as [ | x l Hs IH Hx ]; simpl; [ constructor | ].
  destruct (p x); [ | exact IH ].
  constructor; [ exact IH | ].
  rewrite Forall_forall in *. intros y Hy. apply filter_In in Hy. now apply Hx.
Qed.

Lemma StronglySorted_weaken {B : Type} (R R' : B -> B -> Prop) (l : list B) :
  (forall x y, In x l -> In y l -> R x y -> R' x y) ->
  StronglySorted R l -> StronglySorted R' l.
Proof.
  intros Himp Hs. induction Hs as [ | x l Hs IH Hx ]; [ constructor | ].
  constructor.
  - apply IH. intros a b Ha Hb. apply Himp; now right.
  - rewrite Forall_forall in *. intros y Hy.
    apply Himp; [ now left | now right | now apply Hx ].
Qed.

Lemma distinct_first_index_sorted (l : list A) :
  StronglySorted (fun a b => first_index eqb a l < first_index eqb b l)
                 (distinct eqb l).
Proof.
  induction l as [ | a l IH ]; simpl; [ constructor | ].
  constructor.
  - apply StronglySorted_weaken
      with (R := fun x y => first_index eqb x l < first_index eqb y l).
    + intros x y Hx Hy Hlt. apply filter_In in Hx, Hy.
      destruct Hx as [_ Hx], Hy as [_ Hy].
      apply negb_true_iff in Hx, Hy. rewrite Hx, Hy. lia.
    + now apply StronglySorted_filter.
  - rewrite Forall_forall. intros y Hy. apply filter_In in Hy.
    destruct Hy as [_ Hy]. apply negb_true_iff in Hy.
    rewrite eqb_refl, Hy. lia.
Qed.

Lemma tally_first_index_sorted (l : list A) :
  StronglySorted
    (fun e1 e2 => first_index eqb (fst e1) l < first_index eqb (fst e2) l)
    (tally eqb l).
Proof.
  unfold tally.
  pose proof (distinct_first_index_sorted l) as H.
  induction H as [ | x ks Hs IH Hx ]; simpl; [ constructor | ].
  constructor; [ exact IH | ].
  rewrite Forall_forall in *. intros e He.
  apply in_map_iff in He. destruct He as [k [<- Hk]]. simpl. now apply Hx.
Qed.

(** [Counter(l).most_common(n)] is the first [n] entries of the ranking of
    the distinct items of [l]. *)
Lemma most_common_ranking (n : nat) (l : list A) :
  exists ranking : list (A * nat),
    most_common n (Counter eqb l) = firstn n ranking
    /\ Permutation ranking (tally eqb l)
    /\ StronglySorted (ranked_before eqb l) ranking.
Proof.
  exists (sorted_desc (Counter eqb l)).
  split; [ reflexivity | ].
  rewrite Counter_tally.
  split; [ apply sorted_desc_perm | ].
  apply (sorted_desc_sorted
           (fun e1 e2 => first_index eqb (fst e1) l < first_index eqb (fst e2) l)).
  apply tally_first_index_sorted.
Qed.

End TallyFacts.

(** ** The hashtag block *)

Lemma mapM_to_atom (l : list pyval) (keys : list atom) :
  mapM to_atom l = Ok keys -> l = map PAtom keys.
Proof.
  revert keys. induction l as [ | v l IH ]; simpl; intros keys H.
  - injection H as <-. reflexivity.
  - destruct v as [ a | items | items ]; simpl in H; try discriminate.
    destruct (mapM to_atom l) as [ ks | e ]; simpl in H; [ | discriminate ].
    injection H as <-. simpl. f_equal. now apply IH.
Qed.

Lemma hashtags_of_inv (rt : PyRuntime) (df : DataFrame) (block : Report.Hashtags) :
  hashtags_of rt df = Ok block ->
  exists tags : list atom,
    all_hashtags df = map PAtom tags
    /\ block = Report.mkhashtags (List.length tags)
                                 (List.length (set_items rt tags))
                                 (most_common 10 (Counter atom_eqb tags)).
Proof.
  unfold hashtags_of, all_hashtags.
  destruct df as [ | rows ]; simpl; [ discriminate | ].
  destruct (mapM to_atom (List.concat (map hashtags rows))) as [ keys | e ] eqn:E;
    simpl; [ | discriminate ].
  intro H. injection H as <-. exists keys.
  pose proof (mapM_to_atom _ _ E) as Hk.
  split; [ exact Hk | ].
  now rewrite Hk, length_map.
Qed.

Lemma analyze_posts_hashtags (rt : PyRuntime) (df : DataFrame)
      (report : Report.Analysis) :
  analyze_posts rt df = Ok report ->
  hashtags_of rt df = Ok (Report.hashtags report).
Proof.
  unfold analyze_posts. intro H.
  inv_bind H. inv_bind H. inv_bind_as H tags Et. inv_bind H.
  injection H as <-. reflexivity.
Qed.

(** C6: in every report that [analyze_posts] returns, the hashtag block is
    computed from the flattened sequence of the rows' hashtags:
    [total_used] is its length, [unique_hashtags] the number of its distinct
    tags, and [most_common] the first ten entries of the ranking of the
    distinct tags, each paired with its frequency, by descending frequency
    and, at equal frequency, by first occurrence in the flattened
    sequence. *)
Theorem hashtag_block_spec :
  forall (rt : PyRuntime) (df : DataFrame) (report : Report.Analysis),
    analyze_posts rt df = Ok report ->
    exists tags : list atom,
      all_hashtags df = map PAtom tags
      /\ Report.total_used (Report.hashtags report) = List.length tags
      /\ Report.unique_hashtags (Report.hashtags report)
         = List.length (distinct atom_eqb tags)
      /\ exists ranking : list (atom * nat),
          Report.most_common (Report.hashtags report) = firstn 10 ranking
          /\ Permutation ranking (tally atom_eqb tags)
          /\ StronglySorted (ranked_before atom_eqb tags) ranking.
Proof.
  intros rt df report H.
  apply analyze_posts_hashtags, hashtags_of_inv in H.
  destruct H as [tags [Hflat ->]]. exists tags.
  cbn [Report.hashtags Report.total_used Report.unique_hashtags
       Report.most_common].
  split; [ exact Hflat | ].
  split; [ reflexivity | ].
  split; [ apply set_items_length | ].
  apply most_common_ranking;
    [ apply atom_eqb_refl | apply atom_eqb_sym | apply atom_eqb_trans ].
Qed.

Lemma hashtag_block_witness :
  map hashtags (df_rows three_tagged_rows)
  = [[PStr "a"; PStr "b"]; [PStr "a"]; []]
  /\ exists report,
      analyze_posts insertion_order_runtime three_tagged_rows = Ok report
      /\ Report.hashtags report
         = Report.mkhashtags 3 2 [(AStr "a", 2); (AStr "b", 1)]
      /\ exists tags : list atom,
          all_hashtags three_tagged_rows = map PAtom tags
          /\ Report.total_used (Report.hashtags report) = List.length tags
          /\ Report.unique_hashtags (Report.hashtags report)
             = List.length (distinct atom_eqb tags)
          /\ exists ranking : list (atom * nat),
              Report.most_common (Report.hashtags report) = firstn 10 ranking
              /\ Permutation ranking (tally atom_eqb tags)
              /\ StronglySorted (ranked_before atom_eqb tags) ranking.
Proof.
  split; [ reflexivity | ].
  destruct (analyze_posts insertion_order_runtime three_tagged_rows)
    as [ report | e ] eqn:E; [ | vm_compute in E; discriminate E ].
  exists report. split; [ reflexivity | ].
  split.
  - vm_compute in E. injection E as <-. reflexivity.
  - exact (hashtag_block_spec insertion_order_runtime three_tagged_rows report E).
Defined.

(** The example of the specification, under any runtime. *)
Example three_tagged_rows_hashtags (rt : PyRuntime) :
  hashtags_of rt three_tagged_rows
  = Ok (Report.mkhashtags 3 2 [(AStr "a", 2); (AStr "b", 1)]).
Proof.
  rewrite (hashtags_of_any_runtime rt insertion_order_runtime). reflexivity.
Qed.

(** ** Rows without a timestamp and the posting patterns

    A table built by [parse_posts] that holds a row without a timestamp is
    never analyzed to the end: when no row has a timestamp, [date_range]
    raises; otherwise the [day_of_week] column mixes integers and nulls, its
    group keys are floats, and indexing [day_names] with one raises
    [TypeError]. *)

Lemma parsed_posts_derived_fields (fromisoformat : string -> option datetime)
      (raw_posts : list pyval) :
  Forall derived_fields_agree (parsed_posts fromisoformat raw_posts).
Proof.
  apply Forall_forall. intros r Hin.
  apply parsed_posts_In in Hin. destruct Hin as [post [_ Hn]].
  unfold normalize in Hn. inv_bind Hn. inv_bind_as Hn t Et.
  apply build_record_fields in Hn.
  destruct Hn as (Hc & Hh & Hd & _). unfold derived_fields_agree.
  now rewrite Hc.
Qed.

Lemma bump_nonempty (k : Z) (groups : list (Z * nat)) : bump k groups <> [].
Proof.
  destruct groups as [ | [k' n] rest ]; simpl; [ discriminate | ].
  destruct (k <? k')%Z; [ discriminate | ].
  destruct (k =? k')%Z; discriminate.
Qed.

Lemma groupby_size_nonempty (keys : list Z) :
  keys <> [] -> groupby_size keys <> [].
Proof.
  unfold groupby_size.
  assert (H : forall ks g, g <> [] ->
                           fold_left (fun groups k => bump k groups) ks g <> []).
  { induction ks as [ | k ks IH ]; intros g Hg; simpl; [ exact Hg | ].
    apply IH, bump_nonempty. }
  destruct keys as [ | k ks ]; [ contradiction | ].
  intros _. cbn [fold_left]. apply H, bump_nonempty.
Qed.

Lemma first_min_nonempty {B : Type} (key : B -> Z) (l : list B) :
  l <> [] -> first_min key l <> None.
Proof.
  destruct l as [ | x l ]; [ contradiction | ]. intros _. simpl.
  destruct (first_min key l) as [ y | ]; [ | discriminate ].
  destruct (key y <? key x)%Z; discriminate.
Qed.

Lemma present_nonempty {B C : Type} (f : B -> option C) (l : list B) :
  existsb (fun x => match f x with Some _ => true | None => false end) l = true ->
  present (map f l) <> [].
Proof.
  induction l as [ | x l IH ]; simpl; [ discriminate | ].
  destruct (f x); simpl; [ discriminate | exact IH ].
Qed.

Lemma posting_patterns_with_null_row (rows : list NormalizedRecord) :
  Forall derived_fields_agree rows ->
  existsb null_timestamp rows = true ->
  notna_any (map created_at rows) = true ->
  posting_patterns_of (Frame rows) = Raise TypeError.
Proof.
  intros Hagree Hnull Hsome.
  assert (Hhours : present (map hour rows) <> []).
  { apply present_nonempty. unfold notna_any in Hsome.
    rewrite existsb_exists in *. destruct Hsome as [c [Hc Hv]].
    apply in_map_iff in Hc. destruct Hc as [r [<- Hr]].
    exists r. split; [ exact Hr | ].
    rewrite Forall_forall in Hagree. destruct (Hagree r Hr) as [-> _].
    destruct (created_at r); [ reflexivity | discriminate ]. }
  assert (Hdays : present (map day_of_week rows) <> []).
  { apply present_nonempty. unfold notna_any in Hsome.
    rewrite existsb_exists in *. destruct Hsome as [c [Hc Hv]].
    apply in_map_iff in Hc. destruct Hc as [r [<- Hr]].
    exists r. split; [ exact Hr | ].
    rewrite Forall_forall in Hagree. destruct (Hagree r Hr) as [_ ->].
    destruct (created_at r); [ reflexivity | discriminate ]. }
  assert (Hdaynull : has_null (map day_of_week rows) = true).
  { unfold has_null. rewrite existsb_exists in *.
    destruct Hnull as [r [Hr Hn]]. exists (day_of_week r).
    split; [ now apply in_map | ].
    rewrite Forall_forall in Hagree. destruct (Hagree r Hr) as [_ ->].
    unfold null_timestamp in Hn. destruct (created_at r); [ discriminate | reflexivity ]. }
  unfold posting_patterns_of.
  destruct rows as [ | r0 rows ]; [ discriminate | ].
  cbn [df_empty df_rows negb column bind]. rewrite Hsome.
  pose proof (first_min_nonempty (fun g : Z * nat => (- Z.of_nat (snd g))%Z) _
                (groupby_size_nonempty _ Hhours)) as Hmax.
  unfold first_max.
  destruct (first_min _ (groupby_size (present (map hour (r0 :: rows)))))
    as [ [busiest n] | ]; [ | contradiction ].
  unfold posts_by_day_of.
  pose proof (groupby_size_nonempty _ Hdays) as Hg.
  destruct (groupby_size (present (map day_of_week (r0 :: rows))));
    [ contradiction | ].
  now rewrite Hdaynull.
Qed.

Lemma analyze_with_null_timestamp_raises
      (fromisoformat : string -> option datetime) (rt : PyRuntime)
      (raw_posts : list pyval) :
  existsb null_timestamp (parsed_posts fromisoformat raw_posts) = true ->
  is_ok (analyze_posts rt (parse_posts fromisoformat raw_posts)) = false.
Proof.
  intro Hnull. unfold parse_posts.
  pose proof (parsed_posts_derived_fields fromisoformat raw_posts) as Hagree.
  destruct (parsed_posts fromisoformat raw_posts) as [ | r rows ] eqn:Erows;
    [ discriminate | ].
  cbn [DataFrame_of_records].
  destruct (forallb null_timestamp (r :: rows)) eqn:Eall.
  - rewrite analyze_all_null_rows; [ reflexivity | discriminate | exact Eall ].
  - assert (Hsome : notna_any (map created_at (r :: rows)) = true).
    { unfold notna_any.
      destruct (existsb _ (map created_at (r :: rows))) eqn:Ex; [ reflexivity | ].
      exfalso. apply not_true_iff_false in Eall. apply Eall.
      apply forallb_forall. intros x Hx. unfold null_timestamp.
      destruct (created_at x) eqn:Ec; [ | reflexivity ].
      assert (Hex : existsb (fun cell : option datetime =>
                               match cell with Some _ => true | None => false end)
                            (map created_at (r :: rows)) = true).
      { apply existsb_exists. exists (created_at x).
        split; [ now apply in_map | now rewrite Ec ]. }
      congruence. }
    unfold analyze_posts.
    rewrite (posting_patterns_with_null_row _ Hagree Hnull Hsome).
    destruct (date_range_of (Frame (r :: rows))); [ | reflexivity ].
    destruct (content_of (Frame (r :: rows))); [ | reflexivity ].
    destruct (hashtags_of rt (Frame (r :: rows))); reflexivity.
Qed.

(** A tag feature without its [tag] field reaches the hashtag statistics as
    the empty string. *)
Example empty_tag_is_counted (rt : PyRuntime) :
  hashtags_of rt
    (parse_posts iso_parse
       [PDict [("value",
                PDict [("text", PStr "#");
                       ("createdAt", PStr "2024-01-15T12:34:56.789Z");
                       ("facets",
                        PList [PDict [("features",
                          PList [PDict [("$type",
                                         PStr "app.bsky.richtext.facet#tag")]])]])])]])
  = Ok (Report.mkhashtags 1 1 [(AStr "", 1)]).
Proof.
  rewrite (hashtags_of_any_runtime rt insertion_order_runtime). reflexivity.
Qed.

(** * Further properties *)

(** ** The fetcher, page by page *)

Lemma chars_length (s : string) : List.length (chars s) = String.length s.
Proof.
  induction s as [ | c s IH ]; simpl; congruence.
Qed.

Lemma py_iter_len (batch : pyval) (items : list pyval) :
  py_iter batch = Ok items -> py_len batch = Ok (List.length items).
Proof.
  destruct batch as [ [ | b | q | s ] | l | d ]; simpl; try discriminate;
    intro H; injection H as <-.
  - now rewrite chars_length.
  - reflexivity.
  - now rewrite length_map.
Qed.

Lemma records_of_items (data batch : pyval) (items : list pyval) :
  py_get data "records" (PList []) = Ok batch ->
  py_iter batch = Ok items ->
  records_of data = items.
Proof.
  intros Hg Hi. unfold records_of. now rewrite Hg, Hi.
Qed.

(** What one pass through the loop body can do to [posts]. *)
Lemma fetch_page_cases (limit : option Z) (posts : list pyval)
      (total_fetched : Z) (data : pyval) (st : step) :
  fetch_page limit posts total_fetched data = Ok st ->
  match st with
  | Continue posts' _ total' =>
      posts' = (posts ++ records_of data)%list
      /\ total' = (total_fetched + Z.of_nat (List.length (records_of data)))%Z
      /\ limit_reached limit total' = false
  | Break posts' =>
      (is_empty_page data = true /\ posts' = posts)
      \/ (is_final_page data = true /\ posts' = (posts ++ records_of data)%list)
      \/ (reaches_cap limit total_fetched data = true
          /\ posts' = truncate limit (posts ++ records_of data))
  end.
Proof.
  unfold fetch_page, is_empty_page, is_final_page, reaches_cap.
  destruct (py_get data "records" (PList [])) as [ batch | e ] eqn:Eb;
    simpl; [ | discriminate ].
  destruct (truthy batch) eqn:Et; simpl.
  2: { intro H. injection H as <-. left. auto. }
  destruct (py_iter batch) as [ items | e ] eqn:Ei; simpl; [ | discriminate ].
  rewrite (py_iter_len _ _ Ei). simpl.
  rewrite (records_of_items _ _ _ Eb Ei).
  destruct (py_get data "cursor" PNone) as [ c | e ] eqn:Ec;
    simpl; [ | discriminate ].
  destruct (truthy c) eqn:Etc; simpl.
  2: { intro H. injection H as <-. right. left. auto. }
  destruct (limit_reached limit (total_fetched + Z.of_nat (List.length items)))
    eqn:El; intro H; injection H as <-.
  - right. right. auto.
  - auto.
Qed.

Lemma fetch_loop_cursor (limit : option Z) (server : list response)
      (posts : list pyval) (c1 c2 : pyval) (total_fetched : Z) :
  fetch_loop limit server posts c1 total_fetched
  = fetch_loop limit server posts c2 total_fetched.
Proof.
  destruct server as [ | [ | data ] later ]; reflexivity.
Qed.

(** The loop after the pages it goes on past. *)
Lemma fetch_loop_prefix (limit : option Z) (bodies : list pyval)
      (rest : list response) :
  forall (posts : list pyval) (cursor : pyval) (total_fetched : Z),
    continues limit total_fetched bodies = true ->
    fetch_loop limit (map Body bodies ++ rest) posts cursor total_fetched
    = fetch_loop limit rest (posts ++ flat_map records_of bodies)%list cursor
        (total_fetched
         + Z.of_nat (List.length (flat_map records_of bodies)))%Z.
Proof.
  induction bodies as [ | data more IH ]; intros posts cursor total Hc.
  - simpl. now rewrite app_nil_r, Z.add_0_r.
  - simpl in Hc. cbn [map app fetch_loop flat_map].
    destruct (fetch_page limit [] total data) as [ [ items c t | ps ] | e ] eqn:E;
      try discriminate.
    rewrite (fetch_page_continue _ posts _ _ _ _ _ E).
    apply fetch_page_cases in E. destruct E as (_ & -> & _).
    rewrite (IH _ _ _ Hc), (fetch_loop_cursor _ _ _ c cursor).
    rewrite <- app_assoc, length_app, Nat2Z.inj_add, Z.add_assoc.
    reflexivity.
Qed.

Lemma fetch_page_final (limit : option Z) (posts : list pyval)
      (total_fetched : Z) (data : pyval) :
  is_final_page data = true ->
  fetch_page limit posts total_fetched data
  = Ok (Break (posts ++ records_of data)%list).
Proof.
  unfold is_final_page, fetch_page.
  destruct (py_get data "records" (PList [])) as [ batch | e ] eqn:Eb;
    [ | discriminate ].
  destruct (py_get data "cursor" PNone) as [ c | e ] eqn:Ec; [ | discriminate ].
  rewrite !andb_true_iff. intros [[Ht Hi] Hc].
  destruct (py_iter batch) as [ items | e ] eqn:Ei; [ | discriminate ].
  simpl. rewrite Ht. simpl. rewrite (py_iter_len _ _ Ei). simpl.
  rewrite Hc. simpl.
  rewrite (records_of_items _ _ _ Eb Ei), Ei. reflexivity.
Qed.

(** Pagination: when the loop goes on past the first pages (each has
    records and a cursor, and the cap, if any, is not reached) and the next
    page has records but no cursor, [fetch_posts] returns the records of all
    these pages in arrival order; answers after the final page are not
    used. *)
Theorem fetch_posts_returns_all_pages :
  forall (jwt : pyval) (limit : option Z) (bodies : list pyval) (last : pyval)
         (later : list response),
    truthy jwt = true ->
    continues limit 0%Z bodies = true ->
    is_final_page last = true ->
    fetch_posts jwt limit (map Body bodies ++ Body last :: later)
    = Some (Ok (flat_map records_of bodies ++ records_of last)%list).
Proof.
  intros jwt limit bodies last later Hjwt Hc Hlast.
  unfold fetch_posts. rewrite Hjwt. simpl.
  rewrite (fetch_loop_prefix _ _ _ _ _ _ Hc). cbn [fetch_loop].
  rewrite (fetch_page_final _ _ _ _ Hlast). reflexivity.
Qed.

Lemma fetch_posts_returns_all_pages_witness :
  fetch_posts (PStr "jwt") None
    [Body (page (numbered_posts 0 100) (Some "c1"));
     Body (page (numbered_posts 100 100) (Some "c2"));
     Body (page (numbered_posts 200 37) None)]
  = Some (Ok (numbered_posts 0 100 ++ numbered_posts 100 100
              ++ numbered_posts 200 37)%list).
Proof.
  exact (fetch_posts_returns_all_pages (PStr "jwt") None
           [page (numbered_posts 0 100) (Some "c1");
            page (numbered_posts 100 100) (Some "c2")]
           (page (numbered_posts 200 37) None) []
           eq_refl eq_refl eq_refl).
Defined.

Lemma fetch_page_reaches_cap (limit : option Z) (posts : list pyval)
      (total_fetched : Z) (data : pyval) :
  reaches_cap limit total_fetched data = true ->
  fetch_page limit posts total_fetched data
  = Ok (Break (truncate limit (posts ++ records_of data))).
Proof.
  unfold reaches_cap, fetch_page.
  destruct (py_get data "records" (PList [])) as [ batch | e ] eqn:Eb;
    [ | discriminate ].
  destruct (py_get data "cursor" PNone) as [ c | e ] eqn:Ec; [ | discriminate ].
  rewrite !andb_true_iff. intros [[[Ht Hi] Hc] Hl].
  destruct (py_iter batch) as [ items | e ] eqn:Ei; [ | discriminate ].
  rewrite (records_of_items _ _ _ Eb Ei) in *.
  simpl. rewrite Ht. simpl. rewrite Ei. simpl.
  rewrite (py_iter_len _ _ Ei). simpl. rewrite Hc. simpl. rewrite Hl.
  reflexivity.
Qed.

(** The cap at work: when the loop goes on past the first pages and the
    next page has a cursor and brings the number of records to a positive
    cap or beyond, [fetch_posts] returns exactly the first [cap] of the
    records fetched so far, and no further request is made. *)
Theorem fetch_posts_cuts_at_cap :
  forall (jwt : pyval) (cap : Z) (bodies : list pyval) (data : pyval)
         (later : list response),
    truthy jwt = true ->
    (0 < cap)%Z ->
    continues (Some cap) 0%Z bodies = true ->
    reaches_cap (Some cap)
                (Z.of_nat (List.length (flat_map records_of bodies))) data = true ->
    let fetched := (flat_map records_of bodies ++ records_of data)%list in
    fetch_posts jwt (Some cap) (map Body bodies ++ Body data :: later)
    = Some (Ok (firstn (Z.to_nat cap) fetched))
    /\ List.length (firstn (Z.to_nat cap) fetched) = Z.to_nat cap.
Proof.
  intros jwt cap bodies data later Hjwt Hpos Hc Hcap fetched.
  assert (Hreached : (cap <= Z.of_nat (List.length fetched))%Z).
  { unfold reaches_cap in Hcap.
    destruct (py_get data "records" (PList [])); [ | discriminate ].
    destruct (py_get data "cursor" PNone); [ | discriminate ].
    rewrite !andb_true_iff in Hcap. destruct Hcap as [_ Hl].
    unfold limit_reached in Hl. rewrite andb_true_iff in Hl.
    destruct Hl as [_ Hl]. apply Z.leb_le in Hl.
    unfold fetched. rewrite length_app. lia. }
  split.
  - unfold fetch_posts. rewrite Hjwt. simpl.
    rewrite (fetch_loop_prefix _ _ _ _ _ _ Hc). cbn [fetch_loop].
    rewrite Z.add_0_l, (fetch_page_reaches_cap _ _ _ _ Hcap).
    cbn [truncate app]. unfold slice_to.
    destruct (Z.leb_spec 0 cap); [ reflexivity | lia ].
  - rewrite length_firstn. lia.
Qed.

Lemma fetch_posts_cuts_at_cap_witness :
  fetch_posts (PStr "jwt") (Some 150%Z)
    [Body (page (numbered_posts 0 100) (Some "c1"));
     Body (page (numbered_posts 100 100) (Some "c2"));
     Body (page (numbered_posts 200 100) (Some "c3"))]
  = Some (Ok (firstn 150 (numbered_posts 0 100 ++ numbered_posts 100 100)%list))
  /\ List.length (firstn 150 (numbered_posts 0 100 ++ numbered_posts 100 100)%list)
     = 150.
Proof.
  assert (Hpos : (0 < 150)%Z) by lia.
  exact (fetch_posts_cuts_at_cap (PStr "jwt") 150%Z
           [page (numbered_posts 0 100) (Some "c1")]
           (page (numbered_posts 100 100) (Some "c2"))
           [Body (page (numbered_posts 200 100) (Some "c3"))]
           eq_refl Hpos eq_refl eq_refl).
Defined.

Lemma fetch_page_empty (limit : option Z) (posts : list pyval)
      (total_fetched : Z) (data : pyval) :
  is_empty_page data = true ->
  fetch_page limit posts total_fetched data = Ok (Break posts).
Proof.
  unfold is_empty_page, fetch_page.
  destruct (py_get data "records" (PList [])) as [ batch | e ]; [ | discriminate ].
  simpl. intros ->. reflexivity.
Qed.

(** A body without records (the key is missing, or holds an empty list or
    any other falsy value) ends the loop: [fetch_posts] returns the records
    of the pages before it and asks for nothing more. *)
Theorem fetch_posts_stops_at_empty_page :
  forall (jwt : pyval) (limit : option Z) (bodies : list pyval) (data : pyval)
         (later : list response),
    truthy jwt = true ->
    continues limit 0%Z bodies = true ->
    is_empty_page data = true ->
    fetch_posts jwt limit (map Body bodies ++ Body data :: later)
    = Some (Ok (flat_map records_of bodies)).
Proof.
  intros jwt limit bodies data later Hjwt Hc Hempty.
  unfold fetch_posts. rewrite Hjwt. simpl.
  rewrite (fetch_loop_prefix _ _ _ _ _ _ Hc). cbn [fetch_loop].
  now rewrite (fetch_page_empty _ _ _ _ Hempty).
Qed.

Lemma fetch_posts_stops_at_empty_page_witness :
  fetch_posts (PStr "jwt") None
    [Body (page (numbered_posts 0 100) (Some "c1"));
     Body (PDict [("cursor", PStr "c2")]);
     Body (page (numbered_posts 100 100) None)]
  = Some (Ok (numbered_posts 0 100)).
Proof.
  exact (fetch_posts_stops_at_empty_page (PStr "jwt") None
           [page (numbered_posts 0 100) (Some "c1")]
           (PDict [("cursor", PStr "c2")])
           [Body (page (numbered_posts 100 100) None)]
           eq_refl eq_refl eq_refl).
Defined.

(** Only a transport error is survived: when a later answer decodes to
    something that is not a mapping (a list, a string, null), the
    [AttributeError] of [data.get] leaves [fetch_posts], and the records of
    the earlier pages are not returned. *)
Theorem fetch_posts_raises_on_malformed_body :
  forall (jwt : pyval) (limit : option Z) (bodies : list pyval) (data : pyval)
         (later : list response),
    truthy jwt = true ->
    continues limit 0%Z bodies = true ->
    match data with PDict _ => false | _ => true end = true ->
    fetch_posts jwt limit (map Body bodies ++ Body data :: later)
    = Some (Raise AttributeError).
Proof.
  intros jwt limit bodies data later Hjwt Hc Hshape.
  unfold fetch_posts. rewrite Hjwt. simpl.
  rewrite (fetch_loop_prefix _ _ _ _ _ _ Hc). cbn [fetch_loop].
  destruct data as [ a | l | d ]; [ reflexivity | reflexivity | discriminate ].
Qed.

Lemma fetch_posts_raises_on_malformed_body_witness :
  fetch_posts (PStr "jwt") None
    [Body (page (numbered_posts 0 100) (Some "c1"));
     Body (PList (numbered_posts 100 100))]
  = Some (Raise AttributeError).
Proof.
  exact (fetch_posts_raises_on_malformed_body (PStr "jwt") None
           [page (numbered_posts 0 100) (Some "c1")]
           (PList (numbered_posts 100 100)) []
           eq_refl eq_refl eq_refl).
Defined.

(** *** A cap of zero *)

Lemma fetch_page_zero_cap (posts : list pyval) (total_fetched : Z) (data : pyval) :
  fetch_page (Some 0%Z) posts total_fetched data
  = fetch_page None posts total_fetched data.
Proof. reflexivity. Qed.

Lemma fetch_posts_zero_cap (jwt : pyval) (server : list response) :
  fetch_posts jwt (Some 0%Z) server = fetch_posts jwt None server.
Proof.
  unfold fetch_posts.
  destruct (negb (truthy jwt)); [ reflexivity | ].
  assert (H : forall posts cursor total,
             fetch_loop (Some 0%Z) server posts cursor total
             = fetch_loop None server posts cursor total).
  { induction server as [ | [ | data ] later IH ]; intros posts cursor total;
      cbn [fetch_loop]; try reflexivity.
    rewrite fetch_page_zero_cap.
    destruct (fetch_page None posts total data) as [ [ p c t | p ] | e ];
      [ apply IH | reflexivity | reflexivity ]. }
  apply H.
Qed.

(** A cap of 0 is no cap: [if limit and ...] reads 0 as false, so the
    list is never cut and, whatever the server answers, [fetch_posts(0)]
    ends as [fetch_posts()] does. *)
Theorem fetch_posts_zero_cap_is_no_cap :
  forall (jwt : pyval) (server : list response),
    fetch_posts jwt (Some 0%Z) server = fetch_posts jwt None server.
Proof.
  intros jwt server. apply fetch_posts_zero_cap.
Qed.

(** *** What is returned is a prefix of what was served *)

Lemma truncate_prefix (limit : option Z) (posts : list pyval) :
  exists dropped, posts = (truncate limit posts ++ dropped)%list.
Proof.
  destruct limit as [ l | ]; simpl.
  - unfold slice_to. destruct (0 <=? l)%Z;
      eexists; symmetry; apply firstn_skipn.
  - exists []. now rewrite app_nil_r.
Qed.

Lemma fetch_loop_prefix_of_served (limit : option Z) (server : list response) :
  forall (posts : list pyval) (cursor : pyval) (total_fetched : Z)
         (out : list pyval),
    fetch_loop limit server posts cursor total_fetched = Some (Ok out) ->
    exists rest,
      (posts ++ flat_map records_of (bodies_of server))%list = (out ++ rest)%list.
Proof.
  induction server as [ | [ | data ] later IH ];
    intros posts cursor total out H; simpl in H.
  - discriminate.
  - injection H as <-. eexists. reflexivity.
  - change (bodies_of (Body data :: later)) with (data :: bodies_of later).
    cbn [flat_map].
    destruct (fetch_page limit posts total data) as [ [ p c t | p ] | e ] eqn:E;
      try discriminate; apply fetch_page_cases in E.
    + destruct E as (-> & _ & _). apply IH in H. destruct H as [rest Hr].
      exists rest. now rewrite app_assoc.
    + injection H as <-.
      destruct E as [ [_ ->] | [ [_ ->] | [_ ->] ] ].
      * eexists. reflexivity.
      * eexists. rewrite app_assoc. reflexivity.
      * destruct (truncate_prefix limit (posts ++ records_of data)) as [d Hd].
        exists (d ++ flat_map records_of (bodies_of later))%list.
        rewrite !app_assoc, <- Hd. reflexivity.
Qed.

(** Whatever the cap and whatever the server answers, a list returned by
    [fetch_posts] is a prefix of the records of the served pages, taken in
    arrival order: nothing is reordered, repeated or made up. *)
Theorem fetch_posts_returns_prefix_of_served :
  forall (jwt : pyval) (limit : option Z) (server : list response)
         (out : list pyval),
    fetch_posts jwt limit server = Some (Ok out) ->
    exists rest, flat_map records_of (bodies_of server) = (out ++ rest)%list.
Proof.
  intros jwt limit server out H. unfold fetch_posts in H.
  destruct (negb (truthy jwt)); [ discriminate | ].
  apply fetch_loop_prefix_of_served in H. exact H.
Qed.

Lemma fetch_posts_returns_prefix_of_served_witness :
  exists rest,
    flat_map records_of
      (bodies_of [Body (page (numbered_posts 0 4) (Some "c1"));
                  RequestException;
                  Body (page (numbered_posts 4 4) None)])
    = (numbered_posts 0 3 ++ rest)%list.
Proof.
  exact (fetch_posts_returns_prefix_of_served (PStr "jwt") (Some 3%Z)
           [Body (page (numbered_posts 0 4) (Some "c1"));
            RequestException;
            Body (page (numbered_posts 4 4) None)]
           (numbered_posts 0 3) eq_refl).
Defined.

(** ** The session *)

(** [authenticate] returns [True] exactly when the session endpoint answers
    with a mapping that has the keys [accessJwt], [refreshJwt] and [did];
    the analyzer then holds these three values. *)
Theorem authenticate_true_iff :
  forall (self self' : BlueskyAnalyzer) (server : auth_server)
         (handle password : string),
    authenticate self server handle password = (self', Ok true)
    <-> exists items a r d,
        server handle password = Body (PDict items)
        /\ dict_lookup items "accessJwt" = Some a
        /\ dict_lookup items "refreshJwt" = Some r
        /\ dict_lookup items "did" = Some d
        /\ self' = mkanalyzer a r d.
Proof.
  intros self self' server handle password. unfold authenticate. split.
  - destruct (server handle password) as [ | data ]; [ discriminate | ].
    destruct data as [ x | l | items ]; simpl; try discriminate.
    destruct (dict_lookup items "accessJwt") as [ a | ] eqn:Ea; [ | discriminate ].
    destruct (dict_lookup items "refreshJwt") as [ r | ] eqn:Er; [ | discriminate ].
    destruct (dict_lookup items "did") as [ d | ] eqn:Ed; [ | discriminate ].
    intro H. injection H as <-. exists items, a, r, d. auto.
  - intros (items & a & r & d & -> & Ea & Er & Ed & ->).
    simpl. rewrite Ea, Er, Ed. reflexivity.
Qed.

Lemma authenticate_true_witness :
  authenticate new_analyzer (fun _ _ => Body full_session) "me.bsky.social" "pw"
  = (mkanalyzer (PStr "a") (PStr "r") (PStr "did:plc:me"), Ok true).
Proof.
  apply (proj2 (authenticate_true_iff new_analyzer
                  (mkanalyzer (PStr "a") (PStr "r") (PStr "did:plc:me"))
                  (fun _ _ => Body full_session) "me.bsky.social" "pw")).
  exists [("accessJwt", PStr "a"); ("refreshJwt", PStr "r");
          ("did", PStr "did:plc:me")], (PStr "a"), (PStr "r"), (PStr "did:plc:me").
  repeat split; reflexivity.
Defined.

(** The assignments to [self] are not undone: when the answer has an
    [accessJwt] but no [refreshJwt], [authenticate] raises [KeyError] (it
    catches transport errors only) and the analyzer already holds the new
    access token, next to the old refresh token and identifier. *)
Theorem authenticate_missing_key_keeps_new_token :
  forall (self : BlueskyAnalyzer) (server : auth_server) (handle password : string)
         (items : list (string * pyval)) (a : pyval),
    server handle password = Body (PDict items) ->
    dict_lookup items "accessJwt" = Some a ->
    dict_lookup items "refreshJwt" = None ->
    authenticate self server handle password
    = (mkanalyzer a (refresh_jwt self) (did self), Raise KeyError).
Proof.
  intros self server handle password items a Hs Ha Hr.
  unfold authenticate. rewrite Hs. simpl. rewrite Ha, Hr. reflexivity.
Qed.

Lemma authenticate_missing_key_witness :
  authenticate (mkanalyzer (PStr "old") (PStr "old-refresh") (PStr "did:plc:me"))
               (fun _ _ => Body (PDict [("accessJwt", PStr "new")]))
               "me.bsky.social" "secret"
  = (mkanalyzer (PStr "new") (PStr "old-refresh") (PStr "did:plc:me"),
     Raise KeyError).
Proof.
  exact (authenticate_missing_key_keeps_new_token
           (mkanalyzer (PStr "old") (PStr "old-refresh") (PStr "did:plc:me"))
           (fun _ _ => Body (PDict [("accessJwt", PStr "new")]))
           "me.bsky.social" "secret"
           [("accessJwt", PStr "new")] (PStr "new")
           eq_refl eq_refl eq_refl).
Defined.

(** A transport error during session creation leaves the analyzer as it
    was and makes [authenticate] return [False]; on a fresh analyzer,
    [fetch_posts] then raises "Not authenticated" before any request, and
    [main] ends without asking for the cap or for a page. *)
Theorem failed_authentication_blocks_fetch :
  forall (fromisoformat : string -> option datetime) (rt : PyRuntime)
         (session : auth_server) (handle_line password_line limit_line : string)
         (limit : option Z) (server : list response),
    session (strip handle_line) (strip password_line) = RequestException ->
    authenticate new_analyzer session (strip handle_line) (strip password_line)
    = (new_analyzer, Ok false)
    /\ fetch_posts (access_jwt new_analyzer) limit server
       = Some (Raise (PyException "Not authenticated. Call authenticate() first."))
    /\ main fromisoformat rt session handle_line password_line limit_line server
       = Some AuthenticationFailed.
Proof.
  intros fromisoformat rt session handle_line password_line limit_line limit
         server Hs.
  assert (Ha : authenticate new_analyzer session (strip handle_line)
                            (strip password_line) = (new_analyzer, Ok false)).
  { unfold authenticate. now rewrite Hs. }
  split; [ exact Ha | ]. split; [ reflexivity | ].
  unfold main. now rewrite Ha.
Qed.

Lemma failed_authentication_witness :
  authenticate new_analyzer (fun _ _ => RequestException)
               (strip " me.bsky.social ") (strip "secret")
  = (new_analyzer, Ok false)
  /\ fetch_posts (access_jwt new_analyzer) (Some 10%Z)
                 [Body (page (numbered_posts 0 5) None)]
     = Some (Raise (PyException "Not authenticated. Call authenticate() first."))
  /\ main iso_parse insertion_order_runtime (fun _ _ => RequestException)
          " me.bsky.social " "secret" "10"
          [Body (page (numbered_posts 0 5) None)]
     = Some AuthenticationFailed.
Proof.
  exact (failed_authentication_blocks_fetch iso_parse insertion_order_runtime
           (fun _ _ => RequestException) " me.bsky.social " "secret" "10"
           (Some 10%Z) [Body (page (numbered_posts 0 5) None)] eq_refl).
Defined.

(** ** The prompt for the cap *)




(** Typing 0 at the prompt asks for everything: whenever the line reads as
    the number zero, [main] ends exactly as it does on an empty line. *)
Theorem main_zero_cap_fetches_all :
  forall (fromisoformat : string -> option datetime) (rt : PyRuntime)
         (session : auth_server) (handle_line password_line limit_line : string)
         (server : list response),
    read_limit limit_line = Ok (Some 0%Z) ->
    main fromisoformat rt session handle_line password_line limit_line server
    = main fromisoformat rt session handle_line password_line "" server.
Proof.
  intros fromisoformat rt session handle_line password_line limit_line server Hl.
  unfold main. rewrite Hl.
  change (read_limit "") with (@Ok (option Z) None).
  destruct (authenticate new_analyzer session (strip handle_line)
                         (strip password_line)) as [analyzer [ [ | ] | e ]];
    try reflexivity.
  unfold main_pipeline. now rewrite fetch_posts_zero_cap.
Qed.

Lemma main_zero_cap_witness :
  main iso_parse insertion_order_runtime
       (fun _ _ => Body (PDict [("accessJwt", PStr "jwt");
                                ("refreshJwt", PStr "refresh");
                                ("did", PStr "did:plc:me")]))
       "me.bsky.social" "secret" " 00 "
       [Body (page [sample_post] None)]
  = main iso_parse insertion_order_runtime
       (fun _ _ => Body (PDict [("accessJwt", PStr "jwt");
                                ("refreshJwt", PStr "refresh");
                                ("did", PStr "did:plc:me")]))
       "me.bsky.social" "secret" ""
       [Body (page [sample_post] None)].
Proof.
  exact (main_zero_cap_fetches_all iso_parse insertion_order_runtime
           (fun _ _ => Body (PDict [("accessJwt", PStr "jwt");
                                    ("refreshJwt", PStr "refresh");
                                    ("did", PStr "did:plc:me")]))
           "me.bsky.social" "secret" " 00 "
           [Body (page [sample_post] None)] eq_refl).
Defined.

(** ** The normalizer, field by field *)

(** What [build_record] reads and where it puts it. *)
Lemma build_record_parts (post value : pyval) (timestamp : option datetime)
      (r : NormalizedRecord) :
  build_record post value timestamp = Ok r ->
  exists facets facet_items embed embed_type reply,
    py_get value "text" (PStr "") = Ok (text r)
    /\ py_get value "facets" (PList []) = Ok facets
    /\ py_iter facets = Ok facet_items
    /\ foldM facet_step facet_items ([], [], [])
       = Ok (mentions r, hashtags r, links r)
    /\ py_get value "embed" (PDict []) = Ok embed
    /\ py_get embed "$type" PNone = Ok embed_type
    /\ has_image r = py_eq_str embed_type "app.bsky.embed.images"
    /\ has_external r = py_eq_str embed_type "app.bsky.embed.external"
    /\ py_get value "reply" (PDict []) = Ok reply
    /\ is_reply r = truthy reply.
Proof.
  unfold build_record. intro H.
  inv_bind_as H txt Etxt. inv_bind_as H facets Ef. inv_bind_as H items Ei.
  inv_bind_as H lists El. destruct lists as [[ms hs] ls].
  inv_bind_as H embed Ee. inv_bind_as H ety Et. inv_bind_as H reply Er.
  inv_bind H. inv_bind H. inv_bind H. inv_bind H.
  injection H as <-. simpl.
  exists facets, items, embed, ety, reply. repeat split; assumption.
Qed.

Lemma normalize_inv (fromisoformat : string -> option datetime)
      (post : pyval) (r : NormalizedRecord) :
  normalize fromisoformat post = Ok r ->
  exists value,
    py_get post "value" (PDict []) = Ok value
    /\ build_record post value (created_at r) = Ok r.
Proof.
  unfold normalize. intro H.
  inv_bind_as H value Ev. inv_bind_as H t Et.
  exists value. split; [ reflexivity | ].
  pose proof (build_record_fields _ _ _ _ H) as (-> & _). exact H.
Qed.

Lemma build_record_flags (post value : pyval) (timestamp : option datetime)
      (r : NormalizedRecord) :
  build_record post value timestamp = Ok r ->
  has_image r && has_external r = false.
Proof.
  intro Hb. apply build_record_parts in Hb.
  destruct Hb as (f & fi & e & ety & rp & _ & _ & _ & _ & _ & _ & -> & -> & _).
  destruct ety as [ [ | b | q | s ] | l | d ]; try reflexivity. simpl.
  destruct (String.eqb_spec s "app.bsky.embed.images") as [ -> | ];
    reflexivity.
Qed.

(** The two embed flags come from one type tag: no record has both
    [has_image] and [has_external]. *)
Theorem embed_flags_exclude_each_other :
  forall (fromisoformat : string -> option datetime) (raw_posts : list pyval)
         (r : NormalizedRecord),
    In r (parsed_posts fromisoformat raw_posts) ->
    has_image r && has_external r = false.
Proof.
  intros fromisoformat raw_posts r Hin.
  apply parsed_posts_In in Hin. destruct Hin as [post [_ Hn]].
  apply normalize_inv in Hn. destruct Hn as [value [_ Hb]].
  now apply build_record_flags in Hb.
Qed.

Lemma embed_flags_witness :
  In sample_record (parsed_posts iso_parse [sample_post])
  /\ has_image sample_record && has_external sample_record = false.
Proof.
  assert (Hin : In sample_record (parsed_posts iso_parse [sample_post])).
  { vm_compute. left. reflexivity. }
  split; [ exact Hin | ].
  exact (embed_flags_exclude_each_other iso_parse [sample_post] sample_record Hin).
Defined.

(** *** Facets *)

Lemma feature_step_values (acc acc' : facet_lists) (feature : pyval) :
  feature_step acc feature = Ok acc' ->
  acc' = (fst (fst acc) ++ feature_value Mention feature,
          snd (fst acc) ++ feature_value Hashtag feature,
          snd acc ++ feature_value Link feature)%list.
Proof.
  destruct acc as [[ms hs] ls]. unfold feature_step, feature_value.
  destruct feature as [ a | l | items ]; simpl; try discriminate.
  destruct (dict_lookup items "$type") as [ [ [ | b | q | t ] | l | d ] | ];
    simpl; try (intro H; injection H as <-; now rewrite !app_nil_r).
  destruct (String.eqb_spec t "app.bsky.richtext.facet#mention") as [ -> | Hm ].
  - simpl. intro H. injection H as <-. now rewrite !app_nil_r.
  - destruct (String.eqb_spec t "app.bsky.richtext.facet#tag") as [ -> | Ht ].
    + simpl. intro H. injection H as <-. now rewrite !app_nil_r.
    + destruct (String.eqb_spec t "app.bsky.richtext.facet#link") as [ -> | Hl ].
      * simpl. intro H. injection H as <-. now rewrite !app_nil_r.
      * intro H. injection H as <-. now rewrite !app_nil_r.
Qed.

Lemma features_fold_values (features : list pyval) :
  forall acc acc' : facet_lists,
    foldM feature_step features acc = Ok acc' ->
    acc' = (fst (fst acc) ++ flat_map (feature_value Mention) features,
            snd (fst acc) ++ flat_map (feature_value Hashtag) features,
            snd acc ++ flat_map (feature_value Link) features)%list.
Proof.
  induction features as [ | feature rest IH ]; intros acc acc' H; simpl in H.
  - injection H as <-. destruct acc as [[ms hs] ls]. simpl.
    now rewrite !app_nil_r.
  - inv_bind_as H mid Em. apply feature_step_values in Em. subst mid.
    apply IH in H. subst acc'. simpl. now rewrite <- !app_assoc.
Qed.

Lemma facets_fold_values (facets : list pyval) :
  forall acc acc' : facet_lists,
    foldM facet_step facets acc = Ok acc' ->
    acc' = (fst (fst acc)
              ++ flat_map (feature_value Mention) (flat_map facet_features facets),
            snd (fst acc)
              ++ flat_map (feature_value Hashtag) (flat_map facet_features facets),
            snd acc
              ++ flat_map (feature_value Link) (flat_map facet_features facets))%list.
Proof.
  induction facets as [ | facet rest IH ]; intros acc acc' H; simpl in H.
  - injection H as <-. destruct acc as [[ms hs] ls]. simpl.
    now rewrite !app_nil_r.
  - inv_bind_as H mid Em. unfold facet_step in Em.
    inv_bind_as Em features Ef. inv_bind_as Em items Ei.
    apply features_fold_values in Em. subst mid.
    apply IH in H. subst acc'. cbn [fst snd flat_map].
    assert (Hff : facet_features facet = items)
      by (unfold facet_features; now rewrite Ef, Ei).
    rewrite Hff. now rewrite !flat_map_app, <- !app_assoc.
Qed.

(** Every feature goes to the one sequence of its type tag, in the order of
    appearance: in a record that the normalizer produces, [mentions],
    [hashtags] and [links] are the values of the mention, tag and link
    features of the post's facets, in order, and features of any other type
    leave no trace. *)
Theorem facet_values_in_order :
  forall (fromisoformat : string -> option datetime) (post value : pyval)
         (r : NormalizedRecord),
    normalize fromisoformat post = Ok r ->
    py_get post "value" (PDict []) = Ok value ->
    mentions r = flat_map (feature_value Mention) (post_features value)
    /\ hashtags r = flat_map (feature_value Hashtag) (post_features value)
    /\ links r = flat_map (feature_value Link) (post_features value).
Proof.
  intros fromisoformat post value r Hn Hv.
  apply normalize_inv in Hn. destruct Hn as [value' [Hv' Hb]].
  rewrite Hv in Hv'. injection Hv' as <-.
  apply build_record_parts in Hb.
  destruct Hb as (f & fi & e & ety & rp & _ & Hf & Hi & Hfold & _).
  apply facets_fold_values in Hfold. simpl in Hfold.
  unfold post_features. rewrite Hf, Hi.
  injection Hfold as -> -> ->. auto.
Qed.

Lemma facet_values_witness :
  exists r,
    normalize iso_parse mixed_facets_post = Ok r
    /\ mentions r = [PStr "did:plc:a"]
    /\ hashtags r = [PStr "x"; PStr "y"]
    /\ links r = [PStr "http://u"].
Proof.
  destruct (normalize iso_parse mixed_facets_post) as [ r | e ] eqn:E;
    [ | vm_compute in E; discriminate E ].
  exists r. split; [ reflexivity | ].
  exact (facet_values_in_order iso_parse mixed_facets_post _ r E eq_refl).
Defined.

(** *** Words *)

Lemma all_chars_app (p : ascii -> bool) (s1 s2 : string) :
  all_chars p (s1 ++ s2) = all_chars p s1 && all_chars p s2.
Proof.
  induction s1 as [ | c s1 IH ]; simpl; [ reflexivity | ].
  now rewrite IH, andb_assoc.
Qed.

Lemma append_nil_r (s : string) : (s ++ "")%string = s.
Proof.
  induction s as [ | c s IH ]; simpl; congruence.
Qed.

Lemma append_assoc (s1 s2 s3 : string) :
  ((s1 ++ s2) ++ s3)%string = (s1 ++ s2 ++ s3)%string.
Proof.
  induction s1 as [ | c s1 IH ]; simpl; congruence.
Qed.

Lemma concat_empty_cons (w : string) (ws : list string) :
  String.concat "" (w :: ws) = (w ++ String.concat "" ws)%string.
Proof.
  destruct ws as [ | w' ws ]; simpl; [ now rewrite append_nil_r | reflexivity ].
Qed.

Lemma split_from_words (s : string) :
  forall word : option string,
    match word with Some w => is_word w = true | None => True end ->
    forallb is_word (split_from s word) = true.
Proof.
  induction s as [ | c s IH ]; intros word Hw; simpl.
  - destruct word; simpl; [ now rewrite Hw | reflexivity ].
  - destruct (isspace c) eqn:Ec.
    + destruct word as [ w | ]; simpl; [ rewrite Hw | ]; now apply IH.
    + apply IH. unfold is_word.
      assert (Hne : forall w, ((w ++ String c "") =? "")%string = false).
      { intros [ | c' w ]; reflexivity. }
      rewrite Hne, all_chars_app. simpl. rewrite Ec. simpl.
      destruct word as [ w | ]; simpl; [ | reflexivity ].
      unfold is_word in Hw. apply andb_true_iff in Hw. destruct Hw as [_ ->].
      reflexivity.
Qed.

Lemma split_from_concat (s : string) :
  forall word : option string,
    String.concat "" (split_from s word)
    = (pending word ++ filter_chars (fun c => negb (isspace c)) s)%string.
Proof.
  induction s as [ | c s IH ]; intro word; simpl.
  - destruct word; simpl; [ now rewrite append_nil_r | reflexivity ].
  - destruct (isspace c); simpl.
    + destruct word as [ w | ]; [ | apply IH ].
      rewrite concat_empty_cons, IH. reflexivity.
    + rewrite IH. simpl. fold (pending word). now rewrite append_assoc.
Qed.

Lemma split_from_length (s : string) :
  forall word : option string,
    List.length (split_from s word)
    <= String.length s + match word with Some _ => 1 | None => 0 end.
Proof.
  induction s as [ | c s IH ]; intro word; simpl.
  - destruct word; simpl; lia.
  - destruct (isspace c).
    + destruct word; simpl; specialize (IH None); simpl in IH; lia.
    + specialize (IH (Some (pending word ++ String c "")%string)).
      simpl in IH. fold (pending word). lia.
Qed.

(** [split()] loses nothing but whitespace: every word it returns is
    non-empty and free of whitespace, and the words joined together are the
    text with its whitespace removed. *)
Theorem split_keeps_all_but_whitespace :
  forall s : string,
    forallb is_word (split s) = true
    /\ String.concat "" (split s)
       = filter_chars (fun c => negb (isspace c)) s.
Proof.
  intro s. unfold split. split.
  - now apply split_from_words.
  - apply (split_from_concat s None).
Qed.

Lemma build_record_words (post value : pyval) (timestamp : option datetime)
      (r : NormalizedRecord) :
  build_record post value timestamp = Ok r ->
  word_count r <= char_count r.
Proof.
  intro Hb. unfold build_record in Hb.
  inv_bind_as Hb txt Etxt. inv_bind Hb. inv_bind Hb. inv_bind_as Hb lists El.
  destruct lists as [[ms hs] ls].
  inv_bind Hb. inv_bind Hb. inv_bind Hb. inv_bind Hb. inv_bind Hb.
  inv_bind_as Hb n Elen. inv_bind_as Hb w Ew. injection Hb as <-. simpl.
  destruct (truthy txt); [ | injection Ew as <-; apply Nat.le_0_l ].
  destruct txt as [ [ | b | q | s ] | l | d ]; simpl in *; try discriminate.
  injection Ew as <-. injection Elen as <-.
  pose proof (split_from_length s None) as H. unfold split.
  rewrite Nat.add_0_r in H. exact H.
Qed.

(** No record counts more words than characters. *)
Theorem word_count_at_most_char_count :
  forall (fromisoformat : string -> option datetime) (raw_posts : list pyval)
         (r : NormalizedRecord),
    In r (parsed_posts fromisoformat raw_posts) ->
    word_count r <= char_count r.
Proof.
  intros fromisoformat raw_posts r Hin.
  apply parsed_posts_In in Hin. destruct Hin as [post [_ Hn]].
  apply normalize_inv in Hn. destruct Hn as [value [_ Hb]].
  now apply build_record_words in Hb.
Qed.

Lemma word_count_witness :
  In sample_record (parsed_posts iso_parse [sample_post])
  /\ word_count sample_record <= char_count sample_record.
Proof.
  assert (Hin : In sample_record (parsed_posts iso_parse [sample_post])).
  { vm_compute. left. reflexivity. }
  split; [ exact Hin | ].
  exact (word_count_at_most_char_count iso_parse [sample_post] sample_record Hin).
Defined.

(** *** The table *)

(** The table holds the records of the posts that normalize, in arrival
    order, and nothing else; it never has more rows than there are raw
    posts. *)
Theorem table_is_the_successful_normalizations :
  forall (fromisoformat : string -> option datetime) (raw_posts : list pyval),
    map Ok (parsed_posts fromisoformat raw_posts)
    = filter is_ok (map (normalize fromisoformat) raw_posts)
    /\ df_len (parse_posts fromisoformat raw_posts)
       = List.length (parsed_posts fromisoformat raw_posts)
    /\ df_len (parse_posts fromisoformat raw_posts) <= List.length raw_posts.
Proof.
  intros fromisoformat raw_posts.
  assert (Hlen : df_len (parse_posts fromisoformat raw_posts)
                 = List.length (parsed_posts fromisoformat raw_posts)).
  { unfold parse_posts.
    destruct (parsed_posts fromisoformat raw_posts); reflexivity. }
  split; [ | split; [ exact Hlen | rewrite Hlen ] ].
  - clear Hlen.
    induction raw_posts as [ | post rest IH ]; simpl; [ reflexivity | ].
    destruct (normalize fromisoformat post); simpl; now rewrite IH.
  - clear Hlen.
    induction raw_posts as [ | post rest IH ]; simpl; [ apply Nat.le_refl | ].
    destruct (normalize fromisoformat post); simpl.
    + now apply -> Nat.succ_le_mono.
    + now apply Nat.le_le_succ_r.
Qed.

(** The fields derived from the timestamp go with it: a record with a
    timestamp has its hour, its weekday, a number from 0 to 6, and its date;
    a record without one has all three null. *)
Theorem derived_fields_follow_timestamp :
  forall (fromisoformat : string -> option datetime) (raw_posts : list pyval)
         (r : NormalizedRecord),
    In r (parsed_posts fromisoformat raw_posts) ->
    match created_at r with
    | Some t =>
        hour r = Some (dt_hour t)
        /\ day_of_week r = Some (weekday t)
        /\ (0 <= weekday t <= 6)%Z
        /\ date r = Some (dt_date t)
    | None => hour r = None /\ day_of_week r = None /\ date r = None
    end.
Proof.
  intros fromisoformat raw_posts r Hin.
  apply parsed_posts_In in Hin. destruct Hin as [post [_ Hn]].
  apply normalize_inv in Hn. destruct Hn as [value [_ Hb]].
  apply build_record_fields in Hb.
  destruct Hb as (_ & Hh & Hd & Hdate & _).
  destruct (created_at r) as [ t | ]; simpl in *; [ | auto ].
  repeat split; try assumption;
    unfold weekday;
    pose proof (Z.mod_pos_bound (toordinal (dt_date t) + 6) 7); lia.
Qed.

Lemma derived_fields_witness :
  In sample_record (parsed_posts iso_parse [sample_post])
  /\ hour sample_record = Some 12%Z
  /\ day_of_week sample_record = Some 0%Z
  /\ (0 <= 0 <= 6)%Z
  /\ date sample_record = Some (mkdate 2024 1 15).
Proof.
  assert (Hin : In sample_record (parsed_posts iso_parse [sample_post])).
  { vm_compute. left. reflexivity. }
  split; [ exact Hin | ].
  exact (derived_fields_follow_timestamp iso_parse [sample_post] sample_record Hin).
Defined.

(** ** The report, entry by entry *)

Lemma analyze_posts_inv (rt : PyRuntime) (df : DataFrame)
      (report : Report.Analysis) :
  analyze_posts rt df = Ok report ->
  Report.total_posts report = df_len df
  /\ date_range_of df = Ok (Report.date_range report)
  /\ content_of df = Ok (Report.content report)
  /\ hashtags_of rt df = Ok (Report.hashtags report)
  /\ posting_patterns_of df = Ok (Report.posting_patterns report).
Proof.
  unfold analyze_posts. intro H.
  inv_bind_as H range Er. inv_bind_as H content Ec.
  inv_bind_as H tags Et. inv_bind_as H patterns Ep.
  injection H as <-. simpl. auto.
Qed.

Lemma first_min_none {B : Type} (key : B -> Z) (l : list B) :
  first_min key l = None -> l = [].
Proof.
  destruct l as [ | x l ]; [ reflexivity | ]. simpl.
  destruct (first_min key l) as [ y | ]; [ | discriminate ].
  destruct (key y <? key x)%Z; discriminate.
Qed.

Lemma present_notna {B : Type} (col : list (option B)) :
  present col <> [] -> notna_any col = true.
Proof.
  induction col as [ | [ x | ] col IH ]; simpl; [ contradiction | reflexivity | exact IH ].
Qed.

Lemma extreme_some (pick : (datetime -> Z) -> list datetime -> option datetime)
      (col : list (option datetime)) (t : datetime) :
  (forall key l, pick key l = Some t -> l <> []) ->
  extreme pick col = Ok (Some t) -> notna_any col = true.
Proof.
  intros Hpick. unfold extreme.
  destruct (datetime_column (present col)).
  - intro H. injection H as H. apply present_notna. now apply Hpick in H.
  - destruct (has_null col || mixes_naive_and_aware (present col));
      [ discriminate | ].
    intro H. injection H as H. apply present_notna. now apply Hpick in H.
Qed.

(** A report that [analyze_posts] returns counts every row in
    [total_posts]; its [date_range] bounds are null exactly when the table
    has no rows, and so is the absence of [posting_patterns]: a table with
    rows gets a report only together with its posting patterns. *)
Theorem report_totals :
  forall (rt : PyRuntime) (df : DataFrame) (report : Report.Analysis),
    analyze_posts rt df = Ok report ->
    Report.total_posts report = List.length (df_rows df)
    /\ (Report.earliest (Report.date_range report) = None <-> df_rows df = [])
    /\ (Report.latest (Report.date_range report) = None <-> df_rows df = [])
    /\ (Report.posting_patterns report = None <-> df_rows df = []).
Proof.
  intros rt df report H.
  apply analyze_posts_inv in H. destruct H as (Ht & Hr & Hc & _ & Hp).
  split; [ exact Ht | ].
  destruct df as [ | [ | r rows ] ].
  - discriminate Hc.
  - injection Hr as <-. injection Hp as <-. simpl. tauto.
  - unfold date_range_of in Hr. cbn [df_empty df_rows negb column bind] in Hr.
    destruct (extreme first_min (map created_at (r :: rows)))
      as [ [ t1 | ] | e ] eqn:E1; try discriminate Hr.
    cbn [bind strftime] in Hr.
    destruct (extreme first_max (map created_at (r :: rows)))
      as [ [ t2 | ] | e ] eqn:E2; try discriminate Hr.
    cbn [bind strftime] in Hr. injection Hr as <-.
    assert (Hany : notna_any (map created_at (r :: rows)) = true).
    { apply (extreme_some first_min _ t1); [ | exact E1 ].
      intros key l Hl ->. discriminate Hl. }
    unfold posting_patterns_of in Hp.
    cbn [df_empty df_rows negb column bind] in Hp. rewrite Hany in Hp.
    destruct (first_max _ _) as [ [busiest n] | ]; [ | discriminate Hp ].
    destruct (posts_by_day_of _); [ | discriminate Hp ].
    cbn [bind] in Hp.
    destruct (monthly_activity_of _); [ | discriminate Hp ].
    injection Hp as <-. cbn [df_rows Report.earliest Report.latest].
    repeat split; intro; discriminate.
Qed.

Lemma report_totals_witness :
  exists report,
    analyze_posts insertion_order_runtime three_tagged_rows = Ok report
    /\ Report.total_posts report = 3
    /\ Report.earliest (Report.date_range report) = Some "2024-01-15"
    /\ Report.latest (Report.date_range report) = Some "2024-02-01"
    /\ Report.posting_patterns report <> None.
Proof.
  destruct (analyze_posts insertion_order_runtime three_tagged_rows)
    as [ report | e ] eqn:E; [ | vm_compute in E; discriminate E ].
  exists report. split; [ reflexivity | ].
  destruct (report_totals insertion_order_runtime three_tagged_rows report E)
    as (Ht & _ & _ & Hp).
  split; [ exact Ht | ].
  vm_compute in E. injection E as <-.
  repeat split; discriminate.
Defined.

(** *** Hashtag statistics *)

Lemma firstn_In {B : Type} (n : nat) (l : list B) (x : B) :
  In x (firstn n l) -> In x l.
Proof.
  intro H. rewrite <- (firstn_skipn n l). apply in_or_app. now left.
Qed.

Lemma firstn_length_le_all {B : Type} (n : nat) (l : list B) :
  List.length (firstn n l) <= List.length l.
Proof.
  rewrite length_firstn. apply Nat.le_min_r.
Qed.

Lemma filter_length_le_all {B : Type} (p : B -> bool) (l : list B) :
  List.length (filter p l) <= List.length l.
Proof.
  induction l as [ | x l IH ]; simpl; [ apply Nat.le_refl | ].
  destruct (p x); simpl.
  - now apply -> Nat.succ_le_mono.
  - now apply Nat.le_le_succ_r.
Qed.

Lemma map_firstn {B C : Type} (f : B -> C) (n : nat) (l : list B) :
  map f (firstn n l) = firstn n (map f l).
Proof.
  revert n. induction l as [ | x l IH ]; intros [ | n ]; simpl;
    try reflexivity.
  now rewrite IH.
Qed.

Lemma distinct_length_le {A : Type} (eqb : A -> A -> bool) (l : list A) :
  List.length (distinct eqb l) <= List.length l.
Proof.
  induction l as [ | x l IH ]; simpl; [ apply Nat.le_refl | ].
  apply -> Nat.succ_le_mono.
  eapply Nat.le_trans; [ apply filter_length_le_all | exact IH ].
Qed.

Lemma sum_counter_incr {A : Type} (eqb : A -> A -> bool) (x : A)
      (c : list (A * nat)) :
  sum_nat (map snd (counter_incr eqb x c)) = S (sum_nat (map snd c)).
Proof.
  induction c as [ | [k n] c IH ]; simpl; [ reflexivity | ].
  destruct (eqb k x); simpl; [ reflexivity | ].
  rewrite IH. now rewrite Nat.add_succ_r.
Qed.

Lemma sum_Counter {A : Type} (eqb : A -> A -> bool) (l : list A) :
  sum_nat (map snd (Counter eqb l)) = List.length l.
Proof.
  induction l as [ | x l IH ] using rev_ind; [ reflexivity | ].
  unfold Counter in *. rewrite fold_left_app. simpl.
  rewrite sum_counter_incr, IH, length_app. simpl.
  now rewrite Nat.add_1_r.
Qed.

Lemma counter_incr_length_le {A : Type} (eqb : A -> A -> bool) (x : A)
      (c : list (A * nat)) :
  Forall (fun e => 1 <= snd e) c ->
  Forall (fun e => 1 <= snd e) (counter_incr eqb x c).
Proof.
  induction 1 as [ | [k n] c Hk Hc IH ]; simpl.
  - constructor; [ apply Nat.le_refl | constructor ].
  - destruct (eqb k x); constructor; simpl in *; auto.
Qed.

Lemma Counter_positive {A : Type} (eqb : A -> A -> bool) (l : list A) :
  Forall (fun e => 1 <= snd e) (Counter eqb l).
Proof.
  induction l as [ | x l IH ] using rev_ind; [ constructor | ].
  unfold Counter in *. rewrite fold_left_app. simpl.
  now apply counter_incr_length_le.
Qed.

Lemma sum_nat_perm (l1 l2 : list nat) :
  Permutation l1 l2 -> sum_nat l1 = sum_nat l2.
Proof.
  induction 1; simpl; try congruence.
  now rewrite !Nat.add_assoc, (Nat.add_comm y x).
Qed.

Lemma sum_nat_firstn (n : nat) (l : list nat) :
  sum_nat (firstn n l) <= sum_nat l.
Proof.
  revert n. induction l as [ | x l IH ]; intros [ | n ]; simpl;
    try apply Nat.le_0_l.
  apply Nat.add_le_mono_l, IH.
Qed.

Lemma StronglySorted_firstn {B : Type} (R : B -> B -> Prop) (n : nat)
      (l : list B) :
  StronglySorted R l -> StronglySorted R (firstn n l).
Proof.
  intro Hs. revert n. induction Hs as [ | x l Hs IH Hx ]; intros [ | n ]; simpl;
    try constructor.
  - apply IH.
  - rewrite Forall_forall in *. intros y Hy. apply Hx.
    eapply firstn_In; eassumption.
Qed.

Lemma sorted_desc_counts {A : Type} (c : list (A * nat)) :
  StronglySorted (fun e1 e2 : A * nat => snd e2 <= snd e1) (sorted_desc c).
Proof.
  apply StronglySorted_weaken with (R := by_count_then (fun _ _ => True)).
  - intros x y _ _ [ H | [ H _ ] ].
    + now apply Nat.lt_le_incl.
    + rewrite H. apply Nat.le_refl.
  - apply sorted_desc_sorted.
    clear. induction c as [ | e c IH ]; constructor; [ exact IH | ].
    apply Forall_forall. intros; exact I.
Qed.

(** In a report, the hashtag block is consistent: there are no more
    distinct tags than tags; [most_common] has at most ten entries and at
    most one for each distinct tag; its counts are at least 1, do not
    increase along the list, and add up to no more than [total_used]. *)
Theorem hashtag_block_bounds :
  forall (rt : PyRuntime) (df : DataFrame) (report : Report.Analysis),
    analyze_posts rt df = Ok report ->
    let block := Report.hashtags report in
    Report.unique_hashtags block <= Report.total_used block
    /\ List.length (Report.most_common block) <= 10
    /\ List.length (Report.most_common block) <= Report.unique_hashtags block
    /\ Forall (fun e => 1 <= snd e) (Report.most_common block)
    /\ StronglySorted (fun e1 e2 => snd e2 <= snd e1) (Report.most_common block)
    /\ sum_nat (map snd (Report.most_common block)) <= Report.total_used block.
Proof.
  intros rt df report H block.
  apply analyze_posts_hashtags, hashtags_of_inv in H.
  destruct H as [tags [_ Hb]]. subst block. rewrite Hb.
  cbn [Report.total_used Report.unique_hashtags Report.most_common].
  rewrite set_items_length. unfold most_common.
  pose proof (sorted_desc_perm (Counter atom_eqb tags)) as Hperm.
  split; [ apply distinct_length_le | ].
  split; [ apply firstn_le_length | ].
  split.
  { eapply Nat.le_trans; [ apply firstn_length_le_all | ].
    rewrite (Permutation_length Hperm).
    rewrite (Counter_tally atom_eqb atom_eqb_refl atom_eqb_sym atom_eqb_trans).
    unfold tally. rewrite length_map. apply Nat.le_refl. }
  split.
  { apply Forall_forall. intros e He.
    apply firstn_In in He.
    apply (Permutation_in _ Hperm) in He.
    pose proof (Counter_positive atom_eqb tags) as Hpos.
    rewrite Forall_forall in Hpos. now apply Hpos. }
  split; [ apply StronglySorted_firstn, sorted_desc_counts | ].
  rewrite map_firstn.
  eapply Nat.le_trans; [ apply sum_nat_firstn | ].
  rewrite (sum_nat_perm _ _ (Permutation_map snd Hperm)), sum_Counter.
  apply Nat.le_refl.
Qed.

Lemma hashtag_block_bounds_witness :
  exists report,
    analyze_posts insertion_order_runtime three_tagged_rows = Ok report
    /\ Report.unique_hashtags (Report.hashtags report)
       <= Report.total_used (Report.hashtags report)
    /\ List.length (Report.most_common (Report.hashtags report)) <= 10
    /\ List.length (Report.most_common (Report.hashtags report))
       <= Report.unique_hashtags (Report.hashtags report)
    /\ Forall (fun e => 1 <= snd e) (Report.most_common (Report.hashtags report))
    /\ StronglySorted (fun e1 e2 => snd e2 <= snd e1)
                      (Report.most_common (Report.hashtags report))
    /\ sum_nat (map snd (Report.most_common (Report.hashtags report)))
       <= Report.total_used (Report.hashtags report).
Proof.
  destruct (analyze_posts insertion_order_runtime three_tagged_rows)
    as [ report | e ] eqn:E; [ | vm_compute in E; discriminate E ].
  exists report. split; [ reflexivity | ].
  exact (hashtag_block_bounds insertion_order_runtime three_tagged_rows report E).
Defined.

(** *** Picking the first greatest *)

Lemma first_min_spec {B : Type} (key : B -> Z) (l : list B) (x : B) :
  first_min key l = Some x ->
  exists l1 l2,
    l = (l1 ++ x :: l2)%list
    /\ Forall (fun y => (key x < key y)%Z) l1
    /\ Forall (fun y => (key x <= key y)%Z) l2.
Proof.
  revert x. induction l as [ | a l IH ]; intros x H; simpl in H;
    [ discriminate | ].
  destruct (first_min key l) as [ y | ] eqn:E.
  - destruct (IH y eq_refl) as (l1 & l2 & -> & H1 & H2).
    destruct (Z.ltb_spec (key y) (key a)) as [ Hlt | Hge ];
      injection H as <-.
    + exists (a :: l1), l2. split; [ reflexivity | ].
      split; [ constructor; assumption | assumption ].
    + exists [], (l1 ++ y :: l2)%list. split; [ reflexivity | ].
      split; [ constructor | ].
      apply Forall_app. split.
      * eapply Forall_impl; [ | exact H1 ]. simpl. intros; lia.
      * constructor; [ exact Hge | ].
        eapply Forall_impl; [ | exact H2 ]. simpl. intros; lia.
  - injection H as <-. apply first_min_none in E. subst l.
    exists [], []. repeat split; constructor.
Qed.

Lemma first_max_spec {B : Type} (key : B -> Z) (l : list B) (x : B) :
  first_max key l = Some x ->
  exists l1 l2,
    l = (l1 ++ x :: l2)%list
    /\ Forall (fun y => (key y < key x)%Z) l1
    /\ Forall (fun y => (key y <= key x)%Z) l2.
Proof.
  unfold first_max. intro H. apply first_min_spec in H.
  destruct H as (l1 & l2 & -> & H1 & H2). exists l1, l2.
  split; [ reflexivity | ].
  split; (eapply Forall_impl; [ | eassumption ]); simpl; intros; lia.
Qed.

Lemma first_min_map {B C : Type} (f : B -> C) (key : C -> Z) (l : list B) :
  first_min key (map f l) = option_map f (first_min (fun b => key (f b)) l).
Proof.
  induction l as [ | a l IH ]; simpl; [ reflexivity | ].
  rewrite IH. destruct (first_min (fun b => key (f b)) l) as [ y | ]; simpl;
    [ | reflexivity ].
  destruct (key (f y) <? key (f a))%Z; reflexivity.
Qed.

Lemma content_of_inv (rows : list NormalizedRecord) (content : Report.Content) :
  rows <> [] ->
  content_of (Frame rows) = Ok content ->
  Report.avg_char_count content = mean (map char_count rows)
  /\ Report.avg_word_count content = mean (map word_count rows)
  /\ option_map text (longest_row rows) = Some (Report.longest_post content)
  /\ Report.longest_post_chars content = option_map char_count (longest_row rows)
  /\ Report.reply_percentage content
     = (inject_Z (Z.of_nat (count_true (map is_reply rows)))
        / inject_Z (Z.of_nat (List.length rows)) * 100)%Q
  /\ Report.posts_with_images content = count_true (map has_image rows)
  /\ Report.posts_with_links content = count_true (map has_external rows).
Proof.
  intros Hne. unfold content_of.
  destruct rows as [ | r rows ]; [ contradiction | ].
  cbn [column bind df_empty df_rows negb df_len].
  destruct (longest_row (r :: rows)) as [ best | ] eqn:E; [ | discriminate ].
  cbn [bind]. intro H. injection H as <-.
  cbn [Report.avg_char_count Report.avg_word_count Report.longest_post
       Report.longest_post_chars Report.reply_percentage
       Report.posts_with_images Report.posts_with_links option_map].
  repeat split.
  change (char_count r :: map char_count rows) with (map char_count (r :: rows)).
  unfold col_max, first_max. rewrite first_min_map.
  unfold longest_row, first_max in E. now rewrite E.
Qed.

(** The longest post: [longest_post_chars] is the greatest [char_count] of
    the table and [longest_post] the text of the first row that has it
    (every row before it is shorter, no row after it is longer). *)
Theorem longest_post_is_first_longest :
  forall (rt : PyRuntime) (rows : list NormalizedRecord)
         (report : Report.Analysis),
    rows <> [] ->
    analyze_posts rt (Frame rows) = Ok report ->
    exists before r after,
      rows = (before ++ r :: after)%list
      /\ Report.longest_post (Report.content report) = text r
      /\ Report.longest_post_chars (Report.content report) = Some (char_count r)
      /\ Forall (fun x => char_count x < char_count r) before
      /\ Forall (fun x => char_count x <= char_count r) after.
Proof.
  intros rt rows report Hne H.
  apply analyze_posts_inv in H. destruct H as (_ & _ & Hc & _).
  apply content_of_inv in Hc; [ | exact Hne ].
  destruct Hc as (_ & _ & Htext & Hchars & _).
  destruct (longest_row rows) as [ r | ] eqn:E; [ | discriminate Htext ].
  simpl in Htext, Hchars. injection Htext as Htext.
  unfold longest_row in E. apply first_max_spec in E.
  destruct E as (before & after & -> & Hb & Ha).
  exists before, r, after. split; [ reflexivity | ].
  split; [ now symmetry | ]. split; [ exact Hchars | ].
  split; (eapply Forall_impl; [ | eassumption ]); simpl; intros; lia.
Qed.

Lemma longest_post_witness :
  exists report before r after,
    analyze_posts insertion_order_runtime
      (parse_posts iso_parse [sample_post; mixed_timestamp_post; sample_post])
    = Ok report
    /\ parsed_posts iso_parse [sample_post; mixed_timestamp_post; sample_post]
       = (before ++ r :: after)%list
    /\ Report.longest_post (Report.content report) = text r
    /\ Report.longest_post_chars (Report.content report) = Some (char_count r)
    /\ Forall (fun x => char_count x < char_count r) before
    /\ Forall (fun x => char_count x <= char_count r) after.
Proof.
  destruct (analyze_posts insertion_order_runtime
              (parse_posts iso_parse
                 [sample_post; mixed_timestamp_post; sample_post]))
    as [ report | e ] eqn:E; [ | vm_compute in E; discriminate E ].
  assert (Hne : parsed_posts iso_parse
                  [sample_post; mixed_timestamp_post; sample_post] <> [])
    by (vm_compute; discriminate).
  destruct (longest_post_is_first_longest insertion_order_runtime
              (parsed_posts iso_parse
                 [sample_post; mixed_timestamp_post; sample_post])
              report Hne E) as (before & r & after & H).
  exists report, before, r, after. split; [ reflexivity | exact H ].
Defined.

(** *** Grouping *)

Lemma bump_count (k k' : Z) (groups : list (Z * nat)) :
  group_count k' (bump k groups)
  = group_count k' groups + (if (k =? k')%Z then 1 else 0).
Proof.
  unfold group_count.
  induction groups as [ | [key n] rest IH ]; simpl.
  - destruct (k =? k')%Z; reflexivity.
  - destruct (Z.ltb_spec k key) as [ Hlt | Hge ]; simpl.
    + destruct (k =? k')%Z; simpl; destruct (key =? k')%Z; simpl; lia.
    + destruct (Z.eqb_spec k key) as [ -> | Hne ]; simpl.
      * destruct (key =? k')%Z; simpl; lia.
      * destruct (key =? k')%Z; simpl; rewrite IH; lia.
Qed.

Lemma groupby_count (keys : list Z) (k : Z) :
  group_count k (groupby_size keys) = count_occ Z.eq_dec keys k.
Proof.
  unfold groupby_size.
  assert (H : forall groups,
             group_count k (fold_left (fun g x => bump x g) keys groups)
             = group_count k groups + count_occ Z.eq_dec keys k).
  { induction keys as [ | x keys IH ]; intro groups; simpl;
      [ now rewrite Nat.add_0_r | ].
    rewrite IH, bump_count.
    destruct (Z.eq_dec x k) as [ -> | Hne ].
    - rewrite Z.eqb_refl. now rewrite <- Nat.add_assoc.
    - destruct (Z.eqb_spec x k); [ contradiction | ].
      now rewrite Nat.add_0_r. }
  now rewrite H.
Qed.

Lemma bump_keys (k : Z) (groups : list (Z * nat)) (g : Z * nat) :
  In g (bump k groups) -> fst g = k \/ exists g', In g' groups /\ fst g' = fst g.
Proof.
  induction groups as [ | [key n] rest IH ]; simpl.
  - intros [ <- | [] ]. now left.
  - destruct (k <? key)%Z.
    + intros [ <- | [ <- | H ] ]; [ now left | right | right ].
      * exists (key, n). auto.
      * exists g. auto.
    + destruct (Z.eqb_spec k key) as [ -> | Hne ].
      * intros [ <- | H ]; [ now left | right ]. exists g. auto.
      * intros [ <- | H ]; [ right; exists (key, n); auto | ].
        destruct (IH H) as [ Hk | [g' [Hg' He]] ]; [ now left | right ].
        exists g'. auto.
Qed.

Lemma bump_ascending (k : Z) (groups : list (Z * nat)) :
  ascending_keys groups -> ascending_keys (bump k groups).
Proof.
  unfold ascending_keys.
  induction 1 as [ | [key n] rest Hs IH Hk ]; simpl.
  - constructor; constructor.
  - destruct (Z.ltb_spec k key) as [ Hlt | Hge ].
    + constructor; [ now constructor | ].
      constructor; [ exact Hlt | ].
      eapply Forall_impl; [ | exact Hk ]. simpl. intros; lia.
    + destruct (Z.eqb_spec k key) as [ -> | Hne ].
      * now constructor.
      * constructor; [ exact IH | ].
        rewrite Forall_forall in *. intros g Hg.
        apply bump_keys in Hg. simpl.
        destruct Hg as [ -> | [g' [Hg' <-]] ]; [ lia | ].
        now apply (Hk g').
Qed.

Lemma bump_positive (k : Z) (groups : list (Z * nat)) :
  Forall (fun g => 0 < snd g) groups ->
  Forall (fun g => 0 < snd g) (bump k groups).
Proof.
  induction 1 as [ | [key n] rest Hn Hr IH ]; simpl.
  - constructor; [ apply Nat.lt_0_1 | constructor ].
  - destruct (k <? key)%Z.
    + constructor; [ apply Nat.lt_0_1 | now constructor ].
    + destruct (k =? key)%Z; constructor; simpl; auto using Nat.lt_0_succ.
Qed.

Lemma groupby_invariants (keys : list Z) :
  ascending_keys (groupby_size keys)
  /\ Forall (fun g => 0 < snd g) (groupby_size keys).
Proof.
  unfold groupby_size.
  assert (H : forall groups,
             ascending_keys groups /\ Forall (fun g => 0 < snd g) groups ->
             ascending_keys (fold_left (fun g x => bump x g) keys groups)
             /\ Forall (fun g => 0 < snd g)
                       (fold_left (fun g x => bump x g) keys groups)).
  { induction keys as [ | x keys IH ]; intros groups [Ha Hp]; simpl;
      [ auto | ].
    apply IH. split; [ now apply bump_ascending | now apply bump_positive ]. }
  apply H. split; constructor.
Qed.

Lemma filter_none {B : Type} (p : B -> bool) (l : list B) :
  (forall x, In x l -> p x = false) -> filter p l = [].
Proof.
  induction l as [ | x l IH ]; simpl; intro H; [ reflexivity | ].
  rewrite (H x (or_introl eq_refl)). apply IH. intros y Hy. apply H. now right.
Qed.

Lemma ascending_count (groups : list (Z * nat)) (k : Z) (n : nat) :
  ascending_keys groups -> In (k, n) groups -> group_count k groups = n.
Proof.
  unfold ascending_keys, group_count.
  induction 1 as [ | [key m] rest Hs IH Hk ]; simpl; [ contradiction | ].
  intros [ H | H ].
  - injection H as -> ->. rewrite Z.eqb_refl. simpl.
    assert (Hrest : filter (fun g : Z * nat => (fst g =? k)%Z) rest = []).
    { apply filter_none. intros g Hg.
      rewrite Forall_forall in Hk. specialize (Hk g Hg).
      simpl in Hk. apply Z.eqb_neq. lia. }
    rewrite Hrest. simpl. apply Nat.add_0_r.
  - rewrite Forall_forall in Hk. pose proof (Hk _ H) as Hlt. simpl in Hlt.
    destruct (Z.eqb_spec key k); [ lia | ]. now apply IH.
Qed.

Lemma group_count_positive (groups : list (Z * nat)) (k : Z) :
  0 < group_count k groups -> exists n, In (k, n) groups.
Proof.
  unfold group_count.
  induction groups as [ | [key m] rest IH ]; simpl.
  - intro H. inversion H.
  - destruct (Z.eqb_spec key k) as [ -> | Hne ]; simpl.
    + intros _. exists m. now left.
    + intro H. destruct (IH H) as [n Hn]. exists n. now right.
Qed.

(** [groupby(...).size()] lists every key once, in ascending order, with
    the number of its occurrences. *)
Lemma groupby_size_spec (keys : list Z) :
  ascending_keys (groupby_size keys)
  /\ forall k n, In (k, n) (groupby_size keys)
                 <-> n = count_occ Z.eq_dec keys k /\ 0 < n.
Proof.
  destruct (groupby_invariants keys) as [Ha Hp].
  split; [ exact Ha | ].
  intros k n. split.
  - intro Hin. split.
    + rewrite <- groupby_count. symmetry. now apply ascending_count.
    + rewrite Forall_forall in Hp. exact (Hp _ Hin).
  - intros [-> Hpos]. rewrite <- groupby_count in Hpos.
    destruct (group_count_positive _ _ Hpos) as [m Hm].
    rewrite <- groupby_count, (ascending_count _ _ _ Ha Hm). exact Hm.
Qed.

Lemma groupby_sum (keys : list Z) :
  sum_nat (map snd (groupby_size keys)) = List.length keys.
Proof.
  unfold groupby_size.
  assert (Hb : forall k groups,
             sum_nat (map snd (bump k groups)) = S (sum_nat (map snd groups))).
  { intros k groups. induction groups as [ | [key n] rest IH ]; simpl;
      [ reflexivity | ].
    destruct (k <? key)%Z; simpl; [ reflexivity | ].
    destruct (k =? key)%Z; simpl; [ reflexivity | ].
    rewrite IH. now rewrite Nat.add_succ_r. }
  assert (H : forall groups,
             sum_nat (map snd (fold_left (fun g x => bump x g) keys groups))
             = sum_nat (map snd groups) + List.length keys).
  { induction keys as [ | x keys IH ]; intro groups; simpl;
      [ now rewrite Nat.add_0_r | ].
    rewrite IH, Hb. now rewrite Nat.add_succ_r. }
  now rewrite H.
Qed.

(** *** Posting patterns *)

Lemma StronglySorted_app_r {B : Type} (R : B -> B -> Prop) (l1 l2 : list B) :
  StronglySorted R (l1 ++ l2) -> StronglySorted R l2.
Proof.
  induction l1 as [ | x l1 IH ]; simpl; [ auto | ].
  intro H. inversion H; subst. now apply IH.
Qed.

Lemma posting_patterns_inv (df : DataFrame) (p : Report.PostingPatterns) :
  posting_patterns_of df = Ok (Some p) ->
  Report.posts_by_hour p = groupby_size (present (map hour (df_rows df)))
  /\ first_max (fun g => Z.of_nat (snd g)) (Report.posts_by_hour p)
     = Some (Report.busiest_hour p, Report.busiest_hour_count p)
  /\ posts_by_day_of (map day_of_week (df_rows df)) = Ok (Report.posts_by_day p)
  /\ monthly_activity_of (map created_at (df_rows df))
     = Ok (Report.monthly_activity p).
Proof.
  unfold posting_patterns_of.
  destruct df as [ | [ | r rows ] ]; try discriminate.
  cbn [df_empty df_rows negb column bind].
  destruct (notna_any (map created_at (r :: rows))); [ | discriminate ].
  destruct (first_max _ (groupby_size (present (map hour (r :: rows)))))
    as [ [busiest n] | ] eqn:E; [ | discriminate ].
  destruct (posts_by_day_of (map day_of_week (r :: rows))) as [ by_day | e ];
    [ | discriminate ].
  cbn [bind].
  destruct (monthly_activity_of (map created_at (r :: rows))) as [ monthly | e ];
    [ | discriminate ].
  cbn [bind]. intro H. injection H as <-.
  cbn [Report.posts_by_hour Report.busiest_hour Report.busiest_hour_count
       Report.posts_by_day Report.monthly_activity].
  auto.
Qed.

(** The hourly breakdown of a report: [posts_by_hour] lists the hours in
    ascending order, an hour with the number n of rows that have it exactly
    when n is positive; [busiest_hour] is the hour of the greatest count,
    the earliest such hour on a tie, and [busiest_hour_count] is that
    count. *)
Theorem hourly_breakdown :
  forall (rt : PyRuntime) (df : DataFrame) (report : Report.Analysis)
         (p : Report.PostingPatterns),
    analyze_posts rt df = Ok report ->
    Report.posting_patterns report = Some p ->
    let hours := present (map hour (df_rows df)) in
    ascending_keys (Report.posts_by_hour p)
    /\ (forall h n, In (h, n) (Report.posts_by_hour p)
                    <-> n = count_occ Z.eq_dec hours h /\ 0 < n)
    /\ In (Report.busiest_hour p, Report.busiest_hour_count p)
          (Report.posts_by_hour p)
    /\ (forall h n, In (h, n) (Report.posts_by_hour p) ->
                    n <= Report.busiest_hour_count p
                    /\ (n = Report.busiest_hour_count p ->
                        (Report.busiest_hour p <= h)%Z)).
Proof.
  intros rt df report p H Hp hours.
  apply analyze_posts_inv in H. destruct H as (_ & _ & _ & _ & Hpp).
  rewrite Hp in Hpp. apply posting_patterns_inv in Hpp.
  destruct Hpp as (Hh & Hmax & _). fold hours in Hh.
  destruct (groupby_size_spec hours) as [Hasc Hin].
  rewrite <- Hh in Hasc, Hin.
  split; [ exact Hasc | ]. split; [ exact Hin | ].
  apply first_max_spec in Hmax.
  destruct Hmax as (l1 & l2 & Hl & H1 & H2).
  split; [ rewrite Hl; apply in_or_app; right; now left | ].
  intros h n Hn. rewrite Hl in Hn, Hasc.
  unfold ascending_keys in Hasc.
  apply in_app_or in Hn. rewrite Forall_forall in H1, H2.
  destruct Hn as [ Hn | [ Hn | Hn ] ].
  - specialize (H1 _ Hn). simpl in H1. lia.
  - injection Hn as <- <-. split; [ lia | intros; lia ].
  - specialize (H2 _ Hn). simpl in H2. split; [ lia | intros _ ].
    apply StronglySorted_app_r in Hasc.
    inversion Hasc as [ | ? ? _ Hlt ]; subst.
    rewrite Forall_forall in Hlt. specialize (Hlt _ Hn). simpl in Hlt. lia.
Qed.

Lemma hourly_breakdown_witness :
  exists report p,
    analyze_posts insertion_order_runtime
      (parse_posts iso_parse [sample_post; mixed_timestamp_post; sample_post])
    = Ok report
    /\ Report.posting_patterns report = Some p
    /\ Report.posts_by_hour p = [(7%Z, 1); (12%Z, 2)]
    /\ Report.busiest_hour p = 12%Z
    /\ ascending_keys (Report.posts_by_hour p)
    /\ In (Report.busiest_hour p, Report.busiest_hour_count p)
          (Report.posts_by_hour p).
Proof.
  destruct (analyze_posts insertion_order_runtime
              (parse_posts iso_parse
                 [sample_post; mixed_timestamp_post; sample_post]))
    as [ report | e ] eqn:E; [ | vm_compute in E; discriminate E ].
  destruct (Report.posting_patterns report) as [ p | ] eqn:Ep;
    [ | vm_compute in E; injection E as <-; discriminate Ep ].
  exists report, p. split; [ reflexivity | ]. split; [ exact Ep | ].
  destruct (hourly_breakdown insertion_order_runtime _ report p E Ep)
    as (Hasc & _ & Hin & _).
  vm_compute in E. injection E as <-. injection Ep as <-.
  split; [ reflexivity | ]. split; [ reflexivity | ].
  split; [ exact Hasc | exact Hin ].
Defined.

(** *** When the analysis goes through *)




Lemma groupby_keys (keys : list Z) (g : Z * nat) :
  In g (groupby_size keys) -> In (fst g) keys.
Proof.
  destruct g as [k n]. intro H.
  apply (proj2 (groupby_size_spec keys)) in H. destruct H as [-> Hpos].
  simpl. now apply (count_occ_In Z.eq_dec).
Qed.


Lemma no_null_rows (rows : list NormalizedRecord) :
  Forall derived_fields_agree rows ->
  existsb null_timestamp rows = false ->
  has_null (map created_at rows) = false
  /\ has_null (map day_of_week rows) = false
  /\ List.length (present (map created_at rows)) = List.length rows
  /\ List.length (present (map hour rows)) = List.length rows
  /\ Forall (fun d => (0 <= d <= 6)%Z) (present (map day_of_week rows)).
Proof.
  induction 1 as [ | r rows [Hh Hd] Hrows IH ]; simpl.
  - intros _. repeat split; constructor.
  - unfold null_timestamp at 1. rewrite Hh, Hd.
    destruct (created_at r) as [ t | ]; simpl; [ | discriminate ].
    intro Hn. destruct (IH Hn) as (H1 & H2 & H3 & H4 & H5).
    repeat split; try assumption; try congruence.
    constructor; [ | exact H5 ].
    unfold weekday.
    pose proof (Z.mod_pos_bound (toordinal (dt_date t) + 6) 7). lia.
Qed.





(** *** The breakdowns add up *)

Lemma day_name_injective (a b : Z) (name : string) :
  (0 <= a <= 6)%Z -> (0 <= b <= 6)%Z ->
  day_name a = Ok name -> day_name b = Ok name -> a = b.
Proof.
  intros Ha Hb.
  assert (Ea : a = 0%Z \/ a = 1%Z \/ a = 2%Z \/ a = 3%Z \/ a = 4%Z
               \/ a = 5%Z \/ a = 6%Z) by lia.
  assert (Eb : b = 0%Z \/ b = 1%Z \/ b = 2%Z \/ b = 3%Z \/ b = 4%Z
               \/ b = 5%Z \/ b = 6%Z) by lia.
  destruct Ea as [ -> | [ -> | [ -> | [ -> | [ -> | [ -> | -> ] ] ] ] ] ];
    destruct Eb as [ -> | [ -> | [ -> | [ -> | [ -> | [ -> | -> ] ] ] ] ] ];
    intros H1 H2; try reflexivity; vm_compute in H1, H2; congruence.
Qed.

Lemma dict_put_fresh (k : string) (v : nat) (d : list (string * nat)) :
  ~ In k (map fst d) -> dict_put k v d = (d ++ [(k, v)])%list.
Proof.
  induction d as [ | [k' v'] d IH ]; simpl; intro H; [ reflexivity | ].
  destruct (String.eqb_spec k' k) as [ -> | Hne ]; [ tauto | ].
  rewrite IH; [ reflexivity | tauto ].
Qed.

(** The day comprehension on groups whose days are distinct numbers from 0
    to 6 appends one item per group. *)
Lemma posts_by_day_fold (items : list (Z * nat)) :
  forall (acc d : list (string * nat)),
    ascending_keys items ->
    Forall (fun g => (0 <= fst g <= 6)%Z) items ->
    (forall g, In g items ->
               forall name, day_name (fst g) = Ok name -> ~ In name (map fst acc)) ->
    foldM (fun d item => name <- day_name (fst item) ;;
                         Ok (dict_put name (snd item) d)) items acc = Ok d ->
    exists tail,
      d = (acc ++ tail)%list
      /\ Forall2 (fun g e => day_name (fst g) = Ok (fst e) /\ snd g = snd e)
                 items tail.
Proof.
  induction items as [ | g items IH ]; intros acc d Hasc Hrange Hfresh H;
    simpl in H.
  - injection H as <-. exists []. split; [ now rewrite app_nil_r | constructor ].
  - inv_bind_as H acc' Estep. inv_bind_as Estep name Ename.
    injection Estep as <-.
    inversion Hasc as [ | ? ? Hasc' Hlt ]; subst.
    inversion Hrange as [ | ? ? Hg Hrange' ]; subst.
    rewrite (dict_put_fresh _ _ _ (Hfresh g (or_introl eq_refl) name Ename)) in H.
    apply IH in H; [ | exact Hasc' | exact Hrange' | ].
    + destruct H as [tail [-> Htail]].
      exists ((name, snd g) :: tail). rewrite <- app_assoc. split; [ reflexivity | ].
      constructor; [ split; [ exact Ename | reflexivity ] | exact Htail ].
    + intros g' Hg' name' Ename' Hin.
      rewrite map_app in Hin. apply in_app_or in Hin.
      destruct Hin as [ Hin | [ <- | [] ] ].
      * exact (Hfresh g' (or_intror Hg') name' Ename' Hin).
      * rewrite Forall_forall in Hlt, Hrange'.
        pose proof (Hlt _ Hg') as Hlt'. pose proof (Hrange' _ Hg') as Hr'.
        pose proof (day_name_injective _ _ _ Hg Hr' Ename Ename').
        lia.
Qed.

Lemma Forall2_sum (items : list (Z * nat)) (tail : list (string * nat)) :
  Forall2 (fun g e => day_name (fst g) = Ok (fst e) /\ snd g = snd e) items tail ->
  sum_nat (map snd tail) = sum_nat (map snd items).
Proof.
  induction 1 as [ | g e items tail [_ He] Hrest IH ]; simpl; congruence.
Qed.

Lemma posts_by_day_sum (col : list (option Z)) (d : list (string * nat)) :
  has_null col = false ->
  Forall (fun x => (0 <= x <= 6)%Z) (present col) ->
  posts_by_day_of col = Ok d ->
  sum_nat (map snd d) = List.length (present col).
Proof.
  intros Hnull Hrange. unfold posts_by_day_of. rewrite Hnull.
  rewrite <- (groupby_sum (present col)).
  destruct (groupby_invariants (present col)) as [Hasc _].
  assert (Hr : Forall (fun g : Z * nat => (0 <= fst g <= 6)%Z)
                      (groupby_size (present col))).
  { apply Forall_forall. intros g Hg. apply groupby_keys in Hg.
    rewrite Forall_forall in Hrange. now apply Hrange. }
  destruct (groupby_size (present col)) as [ | g gs ] eqn:E.
  - intro H. injection H as <-. reflexivity.
  - intro H. apply posts_by_day_fold in H; try assumption.
    + destruct H as [tail [-> Htail]]. simpl app. now apply Forall2_sum.
    + intros; simpl; tauto.
Qed.

(** In the report of a table built by [parse_posts], the breakdowns by
    hour, by day of the week and by month each add up to [total_posts]:
    every row is counted once in each. *)
Theorem breakdowns_add_up :
  forall (fromisoformat : string -> option datetime) (rt : PyRuntime)
         (raw_posts : list pyval) (report : Report.Analysis)
         (p : Report.PostingPatterns),
    analyze_posts rt (parse_posts fromisoformat raw_posts) = Ok report ->
    Report.posting_patterns report = Some p ->
    sum_nat (map snd (Report.posts_by_hour p)) = Report.total_posts report
    /\ sum_nat (map snd (Report.posts_by_day p)) = Report.total_posts report
    /\ sum_nat (map snd (Report.monthly_activity p)) = Report.total_posts report.
Proof.
  intros fromisoformat rt raw_posts report p H Hp.
  assert (Hnull : existsb null_timestamp (parsed_posts fromisoformat raw_posts)
                  = false).
  { destruct (existsb null_timestamp (parsed_posts fromisoformat raw_posts))
      eqn:E; [ | reflexivity ].
    apply (analyze_with_null_timestamp_raises _ rt) in E.
    rewrite H in E. discriminate E. }
  pose proof (parsed_posts_derived_fields fromisoformat raw_posts) as Hagree.
  destruct (no_null_rows _ Hagree Hnull) as (_ & H2 & H3 & H4 & H5).
  apply analyze_posts_inv in H. destruct H as (Ht & _ & _ & _ & Hpp).
  rewrite Hp in Hpp. apply posting_patterns_inv in Hpp.
  destruct Hpp as (Hh & _ & Hd & Hm).
  assert (Hrows : df_rows (parse_posts fromisoformat raw_posts)
                  = parsed_posts fromisoformat raw_posts).
  { unfold parse_posts.
    destruct (parsed_posts fromisoformat raw_posts); reflexivity. }
  rewrite Hrows in Hh, Hd, Hm. unfold df_len in Ht. rewrite Hrows in Ht.
  rewrite Ht. split; [ | split ].
  - now rewrite Hh, groupby_sum.
  - rewrite (posts_by_day_sum _ _ H2 H5 Hd).
    clear - Hagree Hnull. induction Hagree as [ | r rows [_ Hday] _ IH ];
      [ reflexivity | ].
    simpl in Hnull |- *. unfold null_timestamp at 1 in Hnull.
    rewrite Hday. destruct (created_at r); [ | discriminate ].
    simpl. f_equal. now apply IH.
  - unfold monthly_activity_of in Hm.
    destruct (datetime_column _); [ | discriminate ].
    injection Hm as <-. rewrite map_map. simpl.
    change (fun x : Z * nat => snd x) with (@snd Z nat).
    now rewrite groupby_sum, length_map.
Qed.

Lemma breakdowns_add_up_witness :
  exists report p,
    analyze_posts insertion_order_runtime
      (parse_posts iso_parse [sample_post; mixed_timestamp_post; sample_post])
    = Ok report
    /\ Report.posting_patterns report = Some p
    /\ Report.total_posts report = 3
    /\ sum_nat (map snd (Report.posts_by_hour p)) = Report.total_posts report
    /\ sum_nat (map snd (Report.posts_by_day p)) = Report.total_posts report
    /\ sum_nat (map snd (Report.monthly_activity p)) = Report.total_posts report.
Proof.
  destruct (analyze_posts insertion_order_runtime
              (parse_posts iso_parse
                 [sample_post; mixed_timestamp_post; sample_post]))
    as [ report | e ] eqn:E; [ | vm_compute in E; discriminate E ].
  destruct (Report.posting_patterns report) as [ p | ] eqn:Ep;
    [ | vm_compute in E; injection E as <-; discriminate Ep ].
  exists report, p. split; [ reflexivity | ]. split; [ exact Ep | ].
  pose proof (breakdowns_add_up iso_parse insertion_order_runtime _ report p E Ep)
    as Hsum.
  split; [ | exact Hsum ].
  vm_compute in E. injection E as <-. reflexivity.
Defined.

(** *** The busiest day of the summary *)

Lemma analyzed_table_rows (fromisoformat : string -> option datetime)
      (rt : PyRuntime) (raw_posts : list pyval) (report : Report.Analysis) :
  analyze_posts rt (parse_posts fromisoformat raw_posts) = Ok report ->
  parsed_posts fromisoformat raw_posts <> []
  /\ existsb null_timestamp (parsed_posts fromisoformat raw_posts) = false
  /\ df_rows (parse_posts fromisoformat raw_posts)
     = parsed_posts fromisoformat raw_posts.
Proof.
  intro H. split; [ | split ].
  - intro E. unfold parse_posts in H. rewrite E in H. discriminate H.
  - destruct (existsb null_timestamp (parsed_posts fromisoformat raw_posts))
      eqn:E; [ | reflexivity ].
    apply (analyze_with_null_timestamp_raises _ rt) in E.
    rewrite H in E. discriminate E.
  - unfold parse_posts.
    destruct (parsed_posts fromisoformat raw_posts); reflexivity.
Qed.

Lemma analyzed_table_has_patterns (fromisoformat : string -> option datetime)
      (rt : PyRuntime) (raw_posts : list pyval) (report : Report.Analysis) :
  analyze_posts rt (parse_posts fromisoformat raw_posts) = Ok report ->
  exists p, Report.posting_patterns report = Some p.
Proof.
  intro H. destruct (analyzed_table_rows _ _ _ _ H) as (Hne & Hnull & Hrows).
  pose proof (parsed_posts_derived_fields fromisoformat raw_posts) as Hagree.
  destruct (no_null_rows _ Hagree Hnull) as (_ & _ & H3 & _ & _).
  apply analyze_posts_inv in H. destruct H as (_ & _ & _ & _ & Hpp).
  destruct (Report.posting_patterns report) as [ p | ]; [ now exists p | ].
  exfalso. unfold posting_patterns_of, df_empty in Hpp. rewrite Hrows in Hpp.
  destruct (parse_posts fromisoformat raw_posts) as [ | rows' ];
    simpl in Hrows; [ now symmetry in Hrows | ]. subst rows'.
  destruct (parsed_posts fromisoformat raw_posts) as [ | r rows ];
    [ contradiction | ].
  cbn [negb column bind] in Hpp.
  rewrite present_notna in Hpp.
  - destruct (first_max _ _) as [ [busiest n] | ]; [ | discriminate ].
    inv_bind_as Hpp by_day Ed. inv_bind_as Hpp monthly Em. discriminate Hpp.
  - intro E. rewrite E in H3. discriminate H3.
Qed.

(** On the report of a table built by [parse_posts], the busiest day that
    [print_summary] looks up exists ([max] is never given an empty
    dictionary); it counts at least one post, no day counts more, and the
    days listed before it count strictly less. *)
Theorem summary_busiest_day_exists :
  forall (fromisoformat : string -> option datetime) (rt : PyRuntime)
         (raw_posts : list pyval) (report : Report.Analysis),
    analyze_posts rt (parse_posts fromisoformat raw_posts) = Ok report ->
    exists (p : Report.PostingPatterns) (day : string) (n : nat)
           (before after : list (string * nat)),
      Report.posting_patterns report = Some p
      /\ summary_busiest_day report = Ok (Some (day, n))
      /\ Report.posts_by_day p = (before ++ (day, n) :: after)%list
      /\ 1 <= n
      /\ Forall (fun item => snd item < n) before
      /\ Forall (fun item => snd item <= n) after.
Proof.
  intros fromisoformat rt raw_posts report H.
  destruct (analyzed_table_has_patterns _ _ _ _ H) as [p Hp].
  destruct (analyzed_table_rows _ _ _ _ H) as (Hne & Hnull & Hrows).
  pose proof (parsed_posts_derived_fields fromisoformat raw_posts) as Hagree.
  destruct (no_null_rows _ Hagree Hnull) as (_ & H2 & _ & H4 & H5).
  apply analyze_posts_inv in H. destruct H as (_ & _ & _ & _ & Hpp).
  rewrite Hp in Hpp. apply posting_patterns_inv in Hpp.
  destruct Hpp as (_ & _ & Hd & _). rewrite Hrows in Hd.
  pose proof (posts_by_day_sum _ _ H2 H5 Hd) as Hsum.
  assert (Hpos : Forall (fun item : string * nat => 1 <= snd item)
                        (Report.posts_by_day p)).
  { revert Hd. unfold posts_by_day_of. rewrite H2.
    pose proof (groupby_invariants
                  (present (map day_of_week (parsed_posts fromisoformat raw_posts))))
      as [Hasc Hposg].
    assert (Hr : Forall (fun g : Z * nat => (0 <= fst g <= 6)%Z)
                   (groupby_size
                      (present (map day_of_week
                                    (parsed_posts fromisoformat raw_posts))))).
    { apply Forall_forall. intros g Hg. apply groupby_keys in Hg.
      rewrite Forall_forall in H5. now apply H5. }
    destruct (groupby_size _) as [ | g gs ] eqn:E.
    - intro Hd. injection Hd as <-. constructor.
    - intro Hd. apply posts_by_day_fold in Hd; try assumption;
        [ | intros; simpl; tauto ].
      destruct Hd as [tail [-> Htail]]. simpl app.
      clear - Htail Hposg. revert Hposg.
      induction Htail as [ | g' e items tail [_ He] _ IH ]; intro Hposg;
        [ constructor | ].
      inversion Hposg; subst. constructor; [ | now apply IH ].
      rewrite <- He. assumption. }
  unfold summary_busiest_day. rewrite Hp.
  destruct (first_max (fun item : string * nat => Z.of_nat (snd item))
                      (Report.posts_by_day p)) as [ [day n] | ] eqn:Emax.
  - apply first_max_spec in Emax. destruct Emax as (before & after & E & Hb & Ha).
    exists p, day, n, before, after.
    split; [ reflexivity | ]. split; [ reflexivity | ]. split; [ exact E | ].
    split; [ | split ].
    + rewrite E in Hpos. apply Forall_app in Hpos. destruct Hpos as [_ Hpos].
      inversion Hpos; subst. assumption.
    + eapply Forall_impl; [ | exact Hb ]. simpl. intros; lia.
    + eapply Forall_impl; [ | exact Ha ]. simpl. intros; lia.
  - exfalso.
    destruct (Report.posts_by_day p) as [ | item items ].
    + simpl in Hsum.
      destruct (parsed_posts fromisoformat raw_posts); [ contradiction | ].
      revert Hsum. clear - Hagree Hnull.
      inversion Hagree as [ | ? ? [_ Hday] _ ]; subst.
      simpl in Hnull |- *. unfold null_timestamp at 1 in Hnull.
      rewrite Hday. destruct (created_at n); [ | discriminate ].
      simpl. discriminate.
    + revert Emax. apply first_min_nonempty. discriminate.
Qed.

Lemma summary_busiest_day_witness :
  exists report,
    analyze_posts insertion_order_runtime
      (parse_posts iso_parse [sample_post; mixed_timestamp_post; sample_post])
    = Ok report
    /\ exists p day n before after,
      Report.posting_patterns report = Some p
      /\ summary_busiest_day report = Ok (Some (day, n))
      /\ Report.posts_by_day p = (before ++ (day, n) :: after)%list
      /\ 1 <= n
      /\ Forall (fun item => snd item < n) before
      /\ Forall (fun item => snd item <= n) after.
Proof.
  destruct (analyze_posts insertion_order_runtime
              (parse_posts iso_parse
                 [sample_post; mixed_timestamp_post; sample_post]))
    as [ report | e ] eqn:E; [ | vm_compute in E; discriminate E ].
  exists report. split; [ reflexivity | ].
  exact (summary_busiest_day_exists iso_parse insertion_order_runtime _ report E).
Defined.

(** *** Bounds on the content statistics *)

Lemma count_true_le (l : list bool) : count_true l <= List.length l.
Proof.
  unfold count_true. induction l as [ | b l IH ]; simpl; [ lia | ].
  destruct b; simpl; lia.
Qed.

Lemma count_true_exclusive (rows : list NormalizedRecord) :
  Forall (fun r => has_image r && has_external r = false) rows ->
  count_true (map has_image rows) + count_true (map has_external rows)
  <= List.length rows.
Proof.
  unfold count_true. induction 1 as [ | r rows Hr _ IH ]; simpl; [ lia | ].
  destruct (has_image r), (has_external r); simpl in *;
    try discriminate; lia.
Qed.

Lemma sum_nat_pointwise (rows : list NormalizedRecord) :
  Forall (fun r => word_count r <= char_count r) rows ->
  sum_nat (map word_count rows) <= sum_nat (map char_count rows).
Proof.
  induction 1 as [ | r rows Hr _ IH ]; simpl; lia.
Qed.

Lemma sum_nat_bounded (col : list nat) (m : nat) :
  Forall (fun x => x <= m) col -> sum_nat col <= List.length col * m.
Proof.
  induction 1 as [ | x col Hx _ IH ]; simpl; lia.
Qed.

Lemma col_max_bounds (col : list nat) (m : nat) :
  col_max col = Some m -> Forall (fun x => x <= m) col.
Proof.
  unfold col_max. intro H. apply first_max_spec in H.
  destruct H as (l1 & l2 & -> & H1 & H2).
  apply Forall_app. split.
  - eapply Forall_impl; [ | exact H1 ]. simpl. intros; lia.
  - constructor; [ lia | ].
    eapply Forall_impl; [ | exact H2 ]. simpl. intros; lia.
Qed.

Lemma ratio_le (a b n : nat) :
  0 < n -> a <= b ->
  (inject_Z (Z.of_nat a) / inject_Z (Z.of_nat n)
   <= inject_Z (Z.of_nat b) / inject_Z (Z.of_nat n))%Q.
Proof.
  intros Hn Hab. unfold Qdiv. apply Qmult_le_compat_r.
  - rewrite <- Zle_Qle. lia.
  - apply Qinv_le_0_compat. change 0%Q with (inject_Z 0).
    rewrite <- Zle_Qle. lia.
Qed.

Lemma ratio_bounded (a n m : nat) :
  0 < n -> a <= n * m ->
  (inject_Z (Z.of_nat a) / inject_Z (Z.of_nat n) <= inject_Z (Z.of_nat m))%Q.
Proof.
  intros Hn Ha. apply Qle_shift_div_r.
  - change 0%Q with (inject_Z 0). rewrite <- Zlt_Qlt. lia.
  - rewrite <- inject_Z_mult, <- Zle_Qle. lia.
Qed.

Lemma percentage_bounds (a n : nat) :
  0 < n -> a <= n ->
  (0 <= inject_Z (Z.of_nat a) / inject_Z (Z.of_nat n) * 100
   /\ inject_Z (Z.of_nat a) / inject_Z (Z.of_nat n) * 100 <= 100)%Q.
Proof.
  intros Hn Ha. split.
  - apply Qmult_le_0_compat; [ | discriminate ].
    apply Qle_shift_div_l.
    + change 0%Q with (inject_Z 0). rewrite <- Zlt_Qlt. lia.
    + rewrite Qmult_0_l. change 0%Q with (inject_Z 0). rewrite <- Zle_Qle. lia.
  - change (100 : Q) with (1 * 100)%Q at 2.
    apply Qmult_le_compat_r; [ | discriminate ].
    apply Qle_shift_div_r.
    + change 0%Q with (inject_Z 0). rewrite <- Zlt_Qlt. lia.
    + rewrite Qmult_1_l, <- Zle_Qle. lia.
Qed.

(** Bounds that every report keeps, whatever the rows of the table: the
    reply percentage lies between 0 and 100, the average length is at most
    the greatest length, and neither the posts with images nor the posts
    with links outnumber the posts. *)
Theorem content_statistics_bounds :
  forall (rt : PyRuntime) (rows : list NormalizedRecord)
         (report : Report.Analysis),
    rows <> [] ->
    analyze_posts rt (Frame rows) = Ok report ->
    exists (average : Q) (longest : nat),
      Report.avg_char_count (Report.content report) = Some average
      /\ Report.longest_post_chars (Report.content report) = Some longest
      /\ (average <= inject_Z (Z.of_nat longest))%Q
      /\ (0 <= Report.reply_percentage (Report.content report))%Q
      /\ (Report.reply_percentage (Report.content report) <= 100)%Q
      /\ Report.posts_with_images (Report.content report)
         <= Report.total_posts report
      /\ Report.posts_with_links (Report.content report)
         <= Report.total_posts report.
Proof.
  intros rt rows report Hne H.
  apply analyze_posts_inv in H. destruct H as (Ht & _ & Hc & _ & _).
  pose proof Hc as Hc'. unfold content_of in Hc'.
  apply content_of_inv in Hc; [ | exact Hne ].
  destruct Hc as (Hac & _ & _ & Hlc & Hrp & Hi & Hl).
  assert (Hlen : 0 < List.length rows).
  { destruct rows; [ contradiction | simpl; lia ]. }
  assert (Hmax : exists m, col_max (map char_count rows) = Some m
                           /\ Report.longest_post_chars (Report.content report)
                              = Some m).
  { rewrite Hlc. unfold col_max, longest_row, first_max.
    rewrite first_min_map.
    destruct (first_min _ rows) as [ r | ] eqn:E.
    - exists (char_count r). split; reflexivity.
    - exfalso. revert E. now apply first_min_nonempty. }
  destruct Hmax as (m & Hm & Hlm).
  exists (inject_Z (Z.of_nat (sum_nat (map char_count rows)))
          / inject_Z (Z.of_nat (List.length (map char_count rows))))%Q, m.
  split.
  { rewrite Hac. unfold mean. destruct rows; [ contradiction | reflexivity ]. }
  split; [ exact Hlm | ].
  split.
  { apply ratio_bounded; [ now rewrite length_map | ].
    apply sum_nat_bounded. now apply col_max_bounds. }
  rewrite Hrp, Hi, Hl, Ht. unfold df_len. simpl df_rows.
  pose proof (count_true_le (map is_reply rows)) as Hr.
  pose proof (count_true_le (map has_image rows)) as Him.
  pose proof (count_true_le (map has_external rows)) as Hex.
  rewrite length_map in Hr, Him, Hex.
  destruct (percentage_bounds _ _ Hlen Hr) as [Hlo Hhi].
  repeat split; assumption.
Qed.

Lemma content_statistics_bounds_witness :
  exists report average longest,
    analyze_posts insertion_order_runtime (Frame [sample_record; sample_record])
    = Ok report
    /\ Report.avg_char_count (Report.content report) = Some average
    /\ Report.longest_post_chars (Report.content report) = Some longest
    /\ (average <= inject_Z (Z.of_nat longest))%Q
    /\ (0 <= Report.reply_percentage (Report.content report))%Q
    /\ (Report.reply_percentage (Report.content report) <= 100)%Q
    /\ Report.posts_with_images (Report.content report)
       <= Report.total_posts report
    /\ Report.posts_with_links (Report.content report)
       <= Report.total_posts report.
Proof.
  destruct (analyze_posts insertion_order_runtime
              (Frame [sample_record; sample_record]))
    as [ report | e ] eqn:E; [ | vm_compute in E; discriminate E ].
  assert (Hne : [sample_record; sample_record] <> []) by discriminate.
  destruct (content_statistics_bounds insertion_order_runtime
              [sample_record; sample_record] report Hne E)
    as (average & longest & H).
  exists report, average, longest. split; [ reflexivity | exact H ].
Defined.

(** On a table built by [parse_posts] the records keep a post's image and
    link flags apart and never count more words than characters, so in the
    report the posts with images and the posts with links together do not
    outnumber the posts, and the average word count is at most the average
    character count. *)
Theorem parsed_content_statistics :
  forall (fromisoformat : string -> option datetime) (rt : PyRuntime)
         (raw_posts : list pyval) (report : Report.Analysis),
    analyze_posts rt (parse_posts fromisoformat raw_posts) = Ok report ->
    Report.posts_with_images (Report.content report)
    + Report.posts_with_links (Report.content report)
    <= Report.total_posts report
    /\ exists words chars : Q,
      Report.avg_word_count (Report.content report) = Some words
      /\ Report.avg_char_count (Report.content report) = Some chars
      /\ (words <= chars)%Q.
Proof.
  intros fromisoformat rt raw_posts report H.
  destruct (analyzed_table_rows _ _ _ _ H) as (Hne & _ & Hrows).
  assert (Hrec : Forall (fun r => has_image r && has_external r = false
                                  /\ word_count r <= char_count r)
                        (parsed_posts fromisoformat raw_posts)).
  { apply Forall_forall. intros r Hin.
    apply parsed_posts_In in Hin. destruct Hin as [post [_ Hn]].
    apply normalize_inv in Hn. destruct Hn as [value [_ Hb]].
    split; [ now apply build_record_flags in Hb
           | now apply build_record_words in Hb ]. }
  apply analyze_posts_inv in H. destruct H as (Ht & _ & Hc & _ & _).
  unfold df_len in Ht. rewrite Hrows in Ht.
  unfold parse_posts in Hc.
  destruct (parsed_posts fromisoformat raw_posts) as [ | r rows ] eqn:E;
    [ contradiction | ].
  cbn [DataFrame_of_records] in Hc.
  apply content_of_inv in Hc; [ | discriminate ].
  destruct Hc as (Hac & Haw & _ & _ & _ & Hi & Hl).
  split.
  - rewrite Hi, Hl, Ht. apply count_true_exclusive.
    eapply Forall_impl; [ | exact Hrec ]. simpl. tauto.
  - rewrite Hac, Haw. unfold mean. cbn [map].
    eexists. eexists. split; [ reflexivity | ]. split; [ reflexivity | ].
    change (word_count r :: map word_count rows)
      with (map word_count (r :: rows)).
    change (char_count r :: map char_count rows)
      with (map char_count (r :: rows)).
    rewrite !length_map. apply ratio_le; [ simpl; lia | ].
    apply sum_nat_pointwise.
    eapply Forall_impl; [ | exact Hrec ]. simpl. tauto.
Qed.

Lemma parsed_content_statistics_witness :
  exists report,
    analyze_posts insertion_order_runtime
      (parse_posts iso_parse [sample_post; mixed_timestamp_post; sample_post])
    = Ok report
    /\ Report.posts_with_images (Report.content report)
       + Report.posts_with_links (Report.content report)
       <= Report.total_posts report
    /\ exists words chars : Q,
      Report.avg_word_count (Report.content report) = Some words
      /\ Report.avg_char_count (Report.content report) = Some chars
      /\ (words <= chars)%Q.
Proof.
  destruct (analyze_posts insertion_order_runtime
              (parse_posts iso_parse
                 [sample_post; mixed_timestamp_post; sample_post]))
    as [ report | e ] eqn:E; [ | vm_compute in E; discriminate E ].
  exists report. split; [ reflexivity | ].
  exact (parsed_content_statistics iso_parse insertion_order_runtime _ report E).
Defined.

(** ** The debug analyzer *)

(** *** Trying the identifiers in turn *)

Lemma try_identifiers_refused (self : BlueskyAnalyzer) (server : debug_server)
      (candidates : list string) :
  forall (i : nat) (posted : list string),
    (forall j id, nth_error candidates j = Some id ->
                  status_200 (server (i + j) id) = false) ->
    try_identifiers self server candidates i posted
    = (self, (posted ++ candidates)%list, Ok false).
Proof.
  induction candidates as [ | id rest IH ]; intros i posted H; simpl.
  - now rewrite app_nil_r.
  - pose proof (H 0 id eq_refl) as H0. rewrite Nat.add_0_r in H0.
    assert (Hrest : try_identifiers self server rest (S i) (posted ++ [id])
                    = (self, ((posted ++ [id]) ++ rest)%list, Ok false)).
    { apply IH. intros j id' Hj.
      replace (S i + j) with (i + S j) by lia. now apply H. }
    rewrite <- app_assoc in Hrest. simpl in Hrest.
    destruct (server i id); [ exact Hrest | discriminate H0 | exact Hrest ].
Qed.

Lemma try_identifiers_false (self : BlueskyAnalyzer) (server : debug_server)
      (candidates : list string) :
  forall (i : nat) (posted : list string),
    snd (try_identifiers self server candidates i posted) = Ok false ->
    forall j id, nth_error candidates j = Some id ->
                 status_200 (server (i + j) id) = false.
Proof.
  induction candidates as [ | id rest IH ]; intros i posted H j id' Hj.
  - destruct j; discriminate Hj.
  - simpl in H. destruct j as [ | j ].
    + injection Hj as <-. rewrite Nat.add_0_r.
      destruct (server i id) as [ | data | code ]; try reflexivity.
      destruct (py_subscript data "accessJwt"); [ | discriminate H ].
      destruct (py_subscript data "refreshJwt"); [ | discriminate H ].
      destruct (py_subscript data "did"); discriminate H.
    + simpl in Hj. replace (i + S j) with (S i + j) by lia.
      destruct (server i id) as [ | data | code ].
      * exact (IH _ _ H j id' Hj).
      * destruct (py_subscript data "accessJwt"); [ | discriminate H ].
        destruct (py_subscript data "refreshJwt"); [ | discriminate H ].
        destruct (py_subscript data "did"); discriminate H.
      * exact (IH _ _ H j id' Hj).
Qed.

Lemma try_identifiers_first_200 (self : BlueskyAnalyzer) (server : debug_server)
      (before : list string) :
  forall (i : nat) (posted : list string) (id : string) (after : list string)
         (data : pyval),
    (forall j id', nth_error before j = Some id' ->
                   status_200 (server (i + j) id') = false) ->
    server (i + List.length before) id = Status200 data ->
    try_identifiers self server (before ++ id :: after) i posted
    = try_identifiers self server [id] (i + List.length before)
                      (posted ++ before).
Proof.
  induction before as [ | id0 before IH ];
    intros i posted id after data Hbefore Hid.
  - simpl in *. rewrite Nat.add_0_r in *. rewrite app_nil_r. rewrite Hid.
    reflexivity.
  - pose proof (Hbefore 0 id0 eq_refl) as H0. rewrite Nat.add_0_r in H0.
    assert (Hrest : try_identifiers self server (before ++ id :: after) (S i)
                      (posted ++ [id0])
                    = try_identifiers self server [id]
                        (S i + List.length before)
                        ((posted ++ [id0]) ++ before)).
    { apply (IH (S i) (posted ++ [id0])%list id after data).
      - intros j id' Hj. replace (S i + j) with (i + S j) by lia.
        now apply Hbefore.
      - replace (S i + List.length before)
          with (i + List.length (id0 :: before)) by (simpl; lia).
        exact Hid. }
    rewrite <- app_assoc in Hrest. simpl app in Hrest.
    replace (i + List.length (id0 :: before))
      with (S i + List.length before) by (simpl; lia).
    cbn [app try_identifiers].
    destruct (server i id0); [ exact Hrest | discriminate H0 | exact Hrest ].
Qed.

(** The debug login returns [False] exactly when every identifier it tries
    is refused (a status other than 200, or a transport error); it has then
    posted every candidate, in order, and left the session as it was. *)
Theorem debug_login_fails_iff_all_refused :
  forall (self : BlueskyAnalyzer) (server : debug_server) (identifier : string),
    (snd (test_authentication_methods self server identifier) = Ok false
     <-> forall j id, nth_error (test_identifiers identifier) j = Some id ->
                      status_200 (server (S j) id) = false)
    /\ (snd (test_authentication_methods self server identifier) = Ok false ->
        test_authentication_methods self server identifier
        = (self, test_identifiers identifier, Ok false)).
Proof.
  intros self server identifier. unfold test_authentication_methods.
  assert (Hback : (forall j id,
                      nth_error (test_identifiers identifier) j = Some id ->
                      status_200 (server (S j) id) = false) ->
                  try_identifiers self server (test_identifiers identifier) 1 []
                  = (self, test_identifiers identifier, Ok false)).
  { intro H. apply (try_identifiers_refused self server _ 1 []). exact H. }
  assert (Hforth : snd (try_identifiers self server
                          (test_identifiers identifier) 1 []) = Ok false ->
                   forall j id,
                     nth_error (test_identifiers identifier) j = Some id ->
                     status_200 (server (S j) id) = false).
  { intros H j id Hj.
    exact (try_identifiers_false self server _ 1 [] H j id Hj). }
  split; [ split | ].
  - exact Hforth.
  - intro H. now rewrite (Hback H).
  - intro H. exact (Hback (Hforth H)).
Qed.

(** The debug login stops at the first identifier answered with 200: the
    identifiers before it have been posted and refused, none after it is
    posted, and the session is taken from that answer. *)
Theorem debug_login_stops_at_first_200 :
  forall (self : BlueskyAnalyzer) (server : debug_server) (identifier : string)
         (before after : list string) (id : string)
         (data access refresh who : pyval),
    test_identifiers identifier = (before ++ id :: after)%list ->
    (forall j id', nth_error before j = Some id' ->
                   status_200 (server (S j) id') = false) ->
    server (S (List.length before)) id = Status200 data ->
    py_subscript data "accessJwt" = Ok access ->
    py_subscript data "refreshJwt" = Ok refresh ->
    py_subscript data "did" = Ok who ->
    test_authentication_methods self server identifier
    = (mkanalyzer access refresh who, (before ++ [id])%list, Ok true).
Proof.
  intros self server identifier before after id data access refresh who
         Hsplit Hbefore Hid Ha Hr Hd.
  unfold test_authentication_methods. rewrite Hsplit.
  rewrite (try_identifiers_first_200 self server before 1 [] id after data
             Hbefore Hid).
  cbn [try_identifiers app Nat.add]. rewrite Hid, Ha, Hr, Hd. reflexivity.
Qed.

Lemma debug_login_all_refused_witness :
  snd (test_authentication_methods new_analyzer (fun _ _ => StatusOther 401)
         "@alice") = Ok false
  /\ test_authentication_methods new_analyzer (fun _ _ => StatusOther 401)
       "@alice"
     = (new_analyzer,
        ["alice.bsky.social"; "@alice"; "alice"; "did:plc:alice.bsky.social"],
        Ok false).
Proof.
  assert (H : snd (test_authentication_methods new_analyzer
                     (fun _ _ => StatusOther 401) "@alice") = Ok false).
  { apply (proj1 (debug_login_fails_iff_all_refused new_analyzer
                    (fun _ _ => StatusOther 401) "@alice")).
    intros j id _. reflexivity. }
  split; [ exact H | ].
  exact (proj2 (debug_login_fails_iff_all_refused new_analyzer
                  (fun _ _ => StatusOther 401) "@alice") H).
Defined.

Lemma debug_login_first_200_witness :
  test_identifiers "@alice"
  = (["alice.bsky.social"; "@alice"] ++ "alice"
       :: ["did:plc:alice.bsky.social"])%list
  /\ test_authentication_methods new_analyzer (accepts_only "alice") "@alice"
     = (mkanalyzer (PStr "a") (PStr "r") (PStr "did:plc:me"),
        ["alice.bsky.social"; "@alice"; "alice"], Ok true).
Proof.
  assert (Hsplit : test_identifiers "@alice"
                   = (["alice.bsky.social"; "@alice"] ++ "alice"
                        :: ["did:plc:alice.bsky.social"])%list)
    by reflexivity.
  split; [ exact Hsplit | ].
  apply (debug_login_stops_at_first_200 new_analyzer (accepts_only "alice")
           "@alice"
           ["alice.bsky.social"; "@alice"] ["did:plc:alice.bsky.social"]
           "alice" full_session
           (PStr "a") (PStr "r") (PStr "did:plc:me") Hsplit).
  - intros [ | [ | j ] ] id' Hj; simpl in Hj.
    + injection Hj as <-. reflexivity.
    + injection Hj as <-. reflexivity.
    + destruct j; discriminate Hj.
  - reflexivity.
  - reflexivity.
  - reflexivity.
  - reflexivity.
Defined.

(** *** Cleaning a handle *)

Lemma contains_app (sub s t : string) :
  contains sub t = true -> contains sub (s ++ t) = true.
Proof.
  intro H. induction s as [ | c s IH ]; [ exact H | ].
  cbn [append contains]. rewrite IH. apply orb_true_r.
Qed.

Lemma string_length_app (s t : string) :
  String.length (s ++ t) = String.length s + String.length t.
Proof.
  induction s as [ | c s IH ]; simpl; congruence.
Qed.

Lemma substring_all (t : string) : substring 0 (String.length t) t = t.
Proof.
  induction t as [ | c t IH ]; simpl; congruence.
Qed.

Lemma substring_skip (s t : string) (m : nat) :
  substring (String.length s) m (s ++ t) = substring 0 m t.
Proof.
  induction s as [ | c s IH ]; [ reflexivity | exact IH ].
Qed.

Lemma endswith_app (s t : string) : endswith (s ++ t) t = true.
Proof.
  unfold endswith. rewrite string_length_app.
  replace (String.length s + String.length t - String.length t)
    with (String.length s) by lia.
  rewrite substring_skip, substring_all, String.eqb_refl.
  rewrite andb_true_r. apply Nat.leb_le. lia.
Qed.

Lemma all_chars_filter (p : ascii -> bool) (s : string) :
  all_chars p (filter_chars p s) = true.
Proof.
  induction s as [ | c s IH ]; simpl; [ reflexivity | ].
  destruct (p c) eqn:E; simpl; [ now rewrite E | exact IH ].
Qed.

Lemma filter_chars_fixed (p : ascii -> bool) (s : string) :
  all_chars p s = true -> filter_chars p s = s.
Proof.
  induction s as [ | c s IH ]; simpl; [ reflexivity | ].
  intro H. apply andb_prop in H. destruct H as [Hc Hs].
  rewrite Hc. now rewrite IH.
Qed.

Lemma all_chars_lstrip (p : ascii -> bool) (s : string) :
  all_chars p s = true -> all_chars p (lstrip s) = true.
Proof.
  induction s as [ | c s IH ]; simpl; [ reflexivity | ].
  intro H. destruct (isspace c); [ | exact H ].
  apply andb_prop in H. now apply IH.
Qed.

Lemma all_chars_rstrip (p : ascii -> bool) (s : string) :
  all_chars p s = true -> all_chars p (rstrip s) = true.
Proof.
  induction s as [ | c s IH ]; simpl; [ reflexivity | ].
  intro H. apply andb_prop in H. destruct H as [Hc Hs].
  destruct (isspace c && String.eqb (rstrip s) ""); [ reflexivity | ].
  simpl. now rewrite Hc, IH.
Qed.

Lemma rstrip_idem (s : string) : rstrip (rstrip s) = rstrip s.
Proof.
  induction s as [ | c s IH ]; simpl; [ reflexivity | ].
  destruct (isspace c && String.eqb (rstrip s) "") eqn:E; [ reflexivity | ].
  simpl. rewrite IH, E. reflexivity.
Qed.

Lemma rstrip_tail (c : ascii) (s : string) :
  rstrip (String c s) = String c s -> rstrip s = s.
Proof.
  simpl. destruct (isspace c && String.eqb (rstrip s) ""); [ discriminate | ].
  intro H. now injection H.
Qed.

Lemma rstrip_app (s t : string) :
  rstrip t = t -> t <> ""%string -> rstrip (s ++ t) = (s ++ t)%string.
Proof.
  intros Ht Hne. induction s as [ | c s IH ]; [ exact Ht | ].
  cbn [append rstrip]. rewrite IH.
  destruct (String.eqb_spec (s ++ t) "") as [ E | _ ].
  - destruct s; simpl in E; [ contradiction | discriminate ].
  - now rewrite andb_false_r.
Qed.

Lemma lstrip_fixed (s : string) : starts_clean s = true -> lstrip s = s.
Proof.
  destruct s as [ | c s ]; simpl; [ reflexivity | ].
  destruct (isspace c); [ discriminate | reflexivity ].
Qed.

(** The handle after the leading [@] is dropped, and what becomes of it. *)
Lemma clean_handle_cases (handle : string) :
  exists stage : string,
    rstrip stage = stage
    /\ all_chars (fun c => nat_of_ascii c <? 127) stage = true
    /\ (clean_handle handle = (stage ++ ".bsky.social")%string
        \/ clean_handle handle = stage
           /\ contains "." stage = true
           /\ (endswith stage ".bsky.social" = true
               \/ contains "@" stage = true
               \/ existsb (fun tld => contains tld stage) known_tlds = true)).
Proof.
  unfold clean_handle.
  set (stripped := strip (filter_chars (fun c => nat_of_ascii c <? 127) handle)).
  assert (Hr : rstrip stripped = stripped) by apply rstrip_idem.
  assert (Ha : all_chars (fun c => nat_of_ascii c <? 127) stripped = true).
  { apply all_chars_rstrip, all_chars_lstrip, all_chars_filter. }
  set (stage := if startswith_char stripped "@"
                then match stripped with
                     | String _ rest => rest
                     | EmptyString => EmptyString
                     end
                else stripped).
  assert (Hstage : rstrip stage = stage
                   /\ all_chars (fun c => nat_of_ascii c <? 127) stage = true).
  { unfold stage. destruct (startswith_char stripped "@"); [ | now split ].
    destruct stripped as [ | c rest ]; [ now split | ].
    split; [ now apply rstrip_tail in Hr | ].
    simpl in Ha. now apply andb_prop in Ha. }
  destruct Hstage as [Hrs Has].
  exists stage. split; [ exact Hrs | ]. split; [ exact Has | ].
  destruct (contains "." stage) eqn:Edot; cbn [negb]; [ | now left ].
  destruct (endswith stage ".bsky.social") eqn:Eend; cbn [negb andb].
  { right. auto. }
  destruct (contains "@" stage) eqn:Eat; cbn [negb].
  { right. auto. }
  destruct (existsb (fun tld => contains tld stage) known_tlds) eqn:Etld;
    cbn [negb]; [ right; auto | now left ].
Qed.

(** A handle that needs no cleaning is returned as it is. *)
Lemma clean_handle_fixed (s : string) :
  all_chars (fun c => nat_of_ascii c <? 127) s = true ->
  rstrip s = s ->
  starts_clean s = true ->
  contains "." s = true ->
  endswith s ".bsky.social" = true
  \/ contains "@" s = true
  \/ existsb (fun tld => contains tld s) known_tlds = true ->
  clean_handle s = s.
Proof.
  intros Ha Hr Hs Hdot Hkeep. unfold clean_handle.
  rewrite (filter_chars_fixed _ _ Ha). unfold strip.
  rewrite (lstrip_fixed _ Hs), Hr.
  assert (Hat : startswith_char s "@" = false).
  { destruct s as [ | c s ]; [ reflexivity | ]. simpl in Hs |- *.
    destruct (Ascii.eqb c "@"); [ | reflexivity ].
    now rewrite andb_false_r in Hs. }
  rewrite Hat, Hdot. cbn [negb].
  destruct (endswith s ".bsky.social"); cbn [negb andb]; [ reflexivity | ].
  destruct (contains "@" s); cbn [negb]; [ reflexivity | ].
  destruct (existsb (fun tld => contains tld s) known_tlds); cbn [negb];
    [ reflexivity | ].
  destruct Hkeep as [ H | [ H | H ] ]; discriminate H.
Qed.

(** What [clean_handle] returns always contains a dot, holds no character
    of code point 127 or above, and does not end in whitespace. *)
Theorem clean_handle_output :
  forall handle : string,
    contains "." (clean_handle handle) = true
    /\ all_chars (fun c => nat_of_ascii c <? 127) (clean_handle handle) = true
    /\ rstrip (clean_handle handle) = clean_handle handle.
Proof.
  intro handle.
  destruct (clean_handle_cases handle)
    as (stage & Hr & Ha & [ -> | (-> & Hdot & _) ]).
  - split; [ now apply contains_app | ].
    split; [ rewrite all_chars_app, Ha; reflexivity | ].
    apply rstrip_app; [ reflexivity | discriminate ].
  - auto.
Qed.

(** Cleaning a cleaned handle changes nothing, provided the cleaned handle
    begins with neither [@] nor whitespace (only one leading [@] is dropped,
    and what follows it is not stripped again). *)
Theorem clean_handle_idempotent :
  forall handle : string,
    starts_clean (clean_handle handle) = true ->
    clean_handle (clean_handle handle) = clean_handle handle.
Proof.
  intros handle Hs.
  destruct (clean_handle_cases handle)
    as (stage & Hr & Ha & [ E | (E & Hdot & Hkeep) ]); rewrite E in Hs |- *.
  - apply clean_handle_fixed.
    + rewrite all_chars_app, Ha. reflexivity.
    + apply rstrip_app; [ reflexivity | discriminate ].
    + exact Hs.
    + now apply contains_app.
    + left. apply endswith_app.
  - now apply clean_handle_fixed.
Qed.

Lemma clean_handle_idempotent_witness :
  starts_clean (clean_handle "  @alice ") = true
  /\ clean_handle "  @alice " = "alice.bsky.social"%string
  /\ clean_handle (clean_handle "  @alice ") = clean_handle "  @alice ".
Proof.
  split; [ reflexivity | ]. split; [ reflexivity | ].
  apply (clean_handle_idempotent "  @alice "). reflexivity.
Defined.
